(** * Wanchai arbitrage bot: the opportunity pipeline, embedded and verified

    A shallow embedding of the Python sources under [wanchai_project/src]:
    the exchange price feed and aggregator, the CLOB order book and client,
    the five detectors, the compounding ledger and the orchestrator loop.

    Numbers.  The program computes with Python floats.  The modules that
    embed the sources read them as exact rationals ([Q]), which keeps the
    formulas and the tests of the code as they are written.  Where the
    rounding of the machine changes what a formula comes to (an order, an
    equality, the branch a test takes), the statements are about the
    quantities as the code computes them, and module [Binary64] repeats
    the formula on binary64 numbers to show what the machine returns.
    Python's
    [/] raises [ZeroDivisionError] on a zero divisor, which [Py.truediv]
    keeps; a division by a non-zero literal cannot raise and is written
    with [Q]'s own division.  Wall-clock timestamps are integers
    (milliseconds).  Logging, notification and journal calls change none
    of the modelled state and are left out. *)

From Stdlib Require Import QArith Qminmax Qabs Lqa ZArith List String Bool Lia Sorted.
From Stdlib Require Import Floats.
From stdpp Require Import gmap strings.
Import ListNotations.
Local Open Scope Q_scope.

(** Decimal literals of floats stand for the nearest binary64 number, as
    they do in Python. *)
Set Warnings "-inexact-float".

(* ===================================================================== *)
(** ** Python prelude *)
(* ===================================================================== *)

Module Py.

Inductive exn : Set :=
| ZeroDivisionError | TypeError | IndexError | KeyError
(** [aiohttp.ClientError]: a request that failed or came back with an
    error status. *)
| ClientError.

(** The outcome of a call that may raise. *)
Inductive result (A : Type) : Type :=
| Ok (a : A)
| Raise (e : exn).
Arguments Ok {A} a.
Arguments Raise {A} e.

#[global] Instance result_ret : MRet result := fun A a => Ok a.
#[global] Instance result_bind : MBind result :=
  fun A B f m => match m with Ok a => f a | Raise e => Raise e end.

Definition is_ok {A} (r : result A) : bool :=
  match r with Ok _ => true | Raise _ => false end.

(** Comparisons on floats, as booleans. *)
Definition le (a b : Q) : bool := Qle_bool a b.
Definition lt (a b : Q) : bool := negb (Qle_bool b a).
Definition ge (a b : Q) : bool := Qle_bool b a.
Definition gt (a b : Q) : bool := negb (Qle_bool a b).
Definition eq (a b : Q) : bool := Qeq_bool a b.

(** [a / b]. *)
Definition truediv (a b : Q) : result Q :=
  if eq b 0 then Raise ZeroDivisionError else Ok (a / b).

(** Built-in [max] and [min] on two arguments: the first one wins ties. *)
Definition max (a b : Q) : Q := if gt b a then b else a.
Definition min (a b : Q) : Q := if lt b a then b else a.

(** [abs]. *)
Definition abs (a : Q) : Q := if lt a 0 then - a else a.

(** Values stored in the untyped dictionaries the strategies pass around. *)
Inductive value : Type :=
| Str (s : string)
| Num (q : Q).

(** [d.get(k, dflt)]. *)
Definition get (d : gmap string value) (k : string) (dflt : value) : value :=
  default dflt (d !! k).

(** Using a value as a number; a string operand raises [TypeError]. *)
Definition num (v : value) : result Q :=
  match v with Num q => Ok q | Str _ => Raise TypeError end.

(** [sorted(l, key=key)] and [sorted(l, key=key, reverse=True)]: stable. *)
Fixpoint insert_by {A} (before : A -> A -> bool) (x : A) (l : list A) : list A :=
  match l with
  | [] => [x]
  | y :: l' => if before x y then x :: l else y :: insert_by before x l'
  end.

Definition sorted {A} (key : A -> Q) (l : list A) : list A :=
  fold_right (insert_by (fun x y => le (key x) (key y))) [] l.

Definition sorted_reverse {A} (key : A -> Q) (l : list A) : list A :=
  fold_right (insert_by (fun x y => ge (key x) (key y))) [] l.

End Py.

Import Py.

(** Timestamps, in milliseconds. *)
Definition datetime : Set := Z.
Bind Scope Z_scope with datetime.

(* ===================================================================== *)
(** ** exchanges/base.py *)
(* ===================================================================== *)

Module ExchangeBase.

Record PriceUpdate : Type := mkPriceUpdate {
  exchange : string;
  symbol : string;
  price : Q;
  bid : Q;
  ask : Q;
  volume_24h : Q;
  timestamp : datetime
}.

Definition mid_price (u : PriceUpdate) : Q := (bid u + ask u) / 2.

Inductive direction : Set := up | down | neutral.

#[global] Instance direction_eq_dec : EqDecision direction.
Proof. solve_decision. Defined.

(** The last [limit] items of a list. *)
Definition last_n {A} (limit : nat) (l : list A) : list A :=
  skipn (length l - limit) l.

(** [list(history)[-limit:]]: the last [limit] updates; [-0] is [0], so a
    limit of 0 keeps the whole list. *)
Definition get_price_history (history : list PriceUpdate) (limit : nat)
  : list PriceUpdate :=
  match limit with
  | O => history
  | S _ => last_n limit history
  end.

(** The [direction] entry of [calculate_momentum]; the volatility and
    strength entries need a square root and are read by no caller
    modelled here. *)
Definition momentum_direction (history : list PriceUpdate) (lookback : nat)
  : direction :=
  match get_price_history history lookback with
  | [] | [_] => neutral
  | first :: rest =>
      let change := price (List.last rest first) - price first in
      if gt change 0 then up else if lt change 0 then down else neutral
  end.

End ExchangeBase.

(* ===================================================================== *)
(** ** exchanges/binance.py *)
(* ===================================================================== *)

Module Binance.
Import ExchangeBase.

Definition name : string := "Binance".

(** The book-ticker payload of the REST endpoint, after [float(...)]. *)
Record ticker : Type := mkTicker { bidPrice : Q; askPrice : Q }.

(** [BinanceConnector.get_price]: note the operator precedence of the
    [price] argument, [bid + ask / 2]. *)
Definition get_price (sym : string) (now : datetime) (t : ticker) : PriceUpdate :=
  {| exchange := name;
     symbol := sym;
     price := bidPrice t + askPrice t / 2;
     bid := bidPrice t;
     ask := askPrice t;
     volume_24h := 0;
     timestamp := now |}.

(** The [@bookTicker] stream message, fields [s], [b], [a]. *)
Record book_ticker : Type := mkBookTicker { s : string; b : Q; a : Q }.

(** [BinanceConnector._handle_book_ticker]: the update handed to the
    callbacks. *)
Definition _handle_book_ticker (now : datetime) (data : book_ticker) : PriceUpdate :=
  {| exchange := name;
     symbol := s data;
     price := (b data + a data) / 2;
     bid := b data;
     ask := a data;
     volume_24h := 0;
     timestamp := now |}.

End Binance.

(* ===================================================================== *)
(** ** polymarket/orderbook.py *)
(* ===================================================================== *)

Module OrderBook.

Record OrderLevel : Type := mkLevel {
  price : Q;
  size : Q;
  order_count : nat
}.

Record OrderBookSnapshot : Type := mkSnapshot {
  token_id : string;
  timestamp : datetime;
  bids : list OrderLevel;
  asks : list OrderLevel
}.

Definition best_bid (s : OrderBookSnapshot) : Q :=
  match bids s with l :: _ => price l | [] => 0 end.

Definition best_ask (s : OrderBookSnapshot) : Q :=
  match asks s with l :: _ => price l | [] => 1 end.

Definition mid_price (s : OrderBookSnapshot) : Q := (best_bid s + best_ask s) / 2.

Definition spread (s : OrderBookSnapshot) : Q := best_ask s - best_bid s.

Definition spread_pct (s : OrderBookSnapshot) : result Q :=
  if eq (mid_price s) 0 then Ok 0 else truediv (spread s) (mid_price s).

(** The live book: the values of the two price-keyed dictionaries, in
    insertion order. *)
Record book : Type := mkBook {
  book_token : string;
  _bids : list OrderLevel;
  _asks : list OrderLevel;
  _last_update : datetime
}.

Definition get_snapshot (bk : book) : OrderBookSnapshot :=
  {| token_id := book_token bk;
     timestamp := _last_update bk;
     bids := sorted_reverse price (_bids bk);
     asks := sorted price (_asks bk) |}.

End OrderBook.

(* ===================================================================== *)
(** ** strategies/base.py *)
(* ===================================================================== *)

Module StrategyBase.

(** Modelled from the spec: [strategies/base.py], which declares
    [SignalType], [TradeSignal] and [StrategyResult], is not among the
    sources.  The records carry the fields the strategies pass to the
    constructors (the spec's TradeSignal: strategy name, signal type,
    market id, primary token id, side label, target price, target size,
    confidence, expected_profit_pct, metadata); the formatted [reason]
    text and the timings are left out.  Only the two signal types the
    strategies construct are listed. *)
Inductive SignalType : Set := BUY | SELL.

Record TradeSignal (M : Type) : Type := mkSignal {
  strategy_name : string;
  signal_type : SignalType;
  market_id : string;
  token_id : string;
  side : string;
  price : Q;
  size : Q;
  confidence : Q;
  expected_profit_pct : Q;
  metadata : M
}.
Arguments mkSignal {M}.
Arguments strategy_name {M}.
Arguments signal_type {M}.
Arguments market_id {M}.
Arguments token_id {M}.
Arguments side {M}.
Arguments price {M}.
Arguments size {M}.
Arguments confidence {M}.
Arguments expected_profit_pct {M}.
Arguments metadata {M}.

(** [signal.size = v]. *)
Definition set_size {M} (sg : TradeSignal M) (v : Q) : TradeSignal M :=
  mkSignal (strategy_name sg) (signal_type sg) (market_id sg) (token_id sg)
           (side sg) (price sg) v (confidence sg) (expected_profit_pct sg)
           (metadata sg).

Record StrategyResult : Type := mkResult {
  result_strategy : string;
  success : bool;
  profit_loss : Q;
  trades_executed : nat;
  signals_generated : nat;
  errors : list string
}.

End StrategyBase.

(* ===================================================================== *)
(** ** polymarket/client.py *)
(* ===================================================================== *)

Module Client.

(** One level of the [/book] reply, after [float(level['price'])]. *)
Record raw_level : Type := mkRawLevel { level_price : Q; level_size : Q }.

(** The [/book] reply: [orderbook.get('bids', [])], [orderbook.get('asks', [])]. *)
Record raw_book : Type := mkRawBook {
  raw_bids : list raw_level;
  raw_asks : list raw_level
}.

(** The [/markets/{id}] reply, each field read with [.get(key, default)]. *)
Record market_data : Type := mkMarket {
  id : string;
  question : string;
  clobTokenIds : list string;
  outcomes : list string;
  outcomePrices : list Q;
  endDate : option datetime;
  resolved : bool
}.

(** The dictionary [get_price] returns; its five keys are fixed. *)
Record quote : Type := mkQuote {
  bid : Q;
  ask : Q;
  mid : Q;
  spread : Q;
  spread_pct : Q
}.

Definition get_price (orderbook : raw_book) : result quote :=
  let best_bid := match raw_bids orderbook with l :: _ => level_price l | [] => 0 end in
  let best_ask := match raw_asks orderbook with l :: _ => level_price l | [] => 1 end in
  let mid_price := (best_bid + best_ask) / 2 in
  let spread := best_ask - best_bid in
  pct ← (if gt mid_price 0 then truediv spread mid_price else Ok 0);
  Ok {| bid := best_bid; ask := best_ask; mid := mid_price;
        spread := spread; spread_pct := pct |}.

(** ** Orders *)

Inductive order_side : Set := BUY | SELL.
Inductive order_type : Set := GTC | FOK | IOC.

#[global] Instance order_side_eq_dec : EqDecision order_side.
Proof. solve_decision. Defined.

(** The body of [POST /order]. *)
Record order_data : Type := mkOrder {
  tokenID : string;
  order_side_of : order_side;
  order_price : Q;
  order_size : Q;
  type_of : order_type
}.

(** The reply to [POST /order]; a key may be missing. *)
Record order_reply : Type := mkReply {
  orderID : option string;
  reply_status : option string;
  filledSize : option Q;
  avgPrice : option Q
}.

(** An order id: [f"dry_run_{int(time.time())}"] or the venue's. *)
Inductive order_id_t : Type :=
| dry_run_id (seconds : Z)
| venue_id (s : string).

Record OrderResponse : Type := mkResponse {
  order_id : order_id_t;
  status : string;
  filled_amount : Q;
  avg_price : Q;
  response_time : datetime
}.

(** A position row of [GET /positions], after [float(...)]. *)
Record position_row : Type := mkRow {
  row_marketId : string;
  row_tokenId : string;
  row_side : string;
  row_size : Q;
  row_avgPrice : Q
}.

Record Position : Type := mkPosition {
  pos_market_id : string;
  pos_token_id : string;
  pos_side : string;
  pos_size : Q;
  avg_entry_price : Q;
  current_price : Q;
  unrealized_pnl : Q
}.

(** The venue as the client sees it: what each endpoint answers. *)
Record venue : Type := mkVenue {
  market_of : string -> market_data;
  book_of : string -> raw_book;
  post_order : order_data -> order_reply;
  positions_of : list position_row
}.

Section client.
Variable dry_run : bool.
Variable v : venue.
Variable now : datetime.

Definition place_order (token : string) (sd : order_side) (price size : Q)
    (ty : order_type) : OrderResponse :=
  if dry_run then
    {| order_id := dry_run_id (now / 1000)%Z;
       status := "simulated";
       filled_amount := size;
       avg_price := price;
       response_time := now |}
  else
    let response := post_order v (mkOrder token sd price size ty) in
    {| order_id := venue_id (default ""%string (orderID response));
       status := default "unknown"%string (reply_status response);
       filled_amount := default 0 (filledSize response);
       avg_price := default price (avgPrice response);
       response_time := now |}.

Definition position_of_row (pos : position_row) : result Position :=
  prices ← get_price (book_of v (row_tokenId pos));
  let current := mid prices in
  let entry := row_avgPrice pos in
  let sz := row_size pos in
  let pnl := if String.eqb (row_side pos) "YES"
             then (current - entry) * sz else (entry - current) * sz in
  Ok {| pos_market_id := row_marketId pos;
        pos_token_id := row_tokenId pos;
        pos_side := row_side pos;
        pos_size := sz;
        avg_entry_price := entry;
        current_price := current;
        unrealized_pnl := pnl |}.

Definition get_positions : result (list Position) :=
  if dry_run then Ok [] else mapM position_of_row (positions_of v).

(** [check_yes_no_arbitrage]: the dictionary of the opportunity, or
    [None].  The two totals are exact sums here; the machine compares
    [Binary64.total_buy]. *)
Definition check_yes_no_arbitrage (market_id : string)
  : result (option (gmap string value)) :=
  match clobTokenIds (market_of v market_id) with
  | yes_token :: no_token :: _ =>
      yes_prices ← get_price (book_of v yes_token);
      no_prices ← get_price (book_of v no_token);
      let total_buy := ask yes_prices + ask no_prices in
      let total_sell := bid yes_prices + bid no_prices in
      if lt total_buy (995 # 1000) then
        profit_pct ← truediv (1 - total_buy) total_buy;
        Ok (Some (<["type" := Str "BUY_BOTH"]>
                 (<["yes_price" := Num (ask yes_prices)]>
                 (<["no_price" := Num (ask no_prices)]>
                 (<["total_cost" := Num total_buy]>
                 (<["profit_pct" := Num profit_pct]>
                 (<["yes_token" := Str yes_token]>
                 (<["no_token" := Str no_token]>
                 (<["market_id" := Str market_id]> ∅)))))))))
      else if gt total_sell (1005 # 1000) then
        let profit_pct := (total_sell - 1) / 1 in
        Ok (Some (<["type" := Str "SELL_BOTH"]>
                 (<["yes_price" := Num (bid yes_prices)]>
                 (<["no_price" := Num (bid no_prices)]>
                 (<["total_value" := Num total_sell]>
                 (<["profit_pct" := Num profit_pct]>
                 (<["yes_token" := Str yes_token]>
                 (<["no_token" := Str no_token]>
                 (<["market_id" := Str market_id]> ∅)))))))))
      else Ok None
  | _ => Ok None
  end.

End client.

End Client.

(* ===================================================================== *)
(** ** polymarket/orderbook.py: [MultiOrderBook] *)
(* ===================================================================== *)

Module MultiOrderBook.
Import OrderBook.

Record t : Type := mkMulti {
  _books : gmap string book;
  _pairs : list (string * string)
}.

(** [check_arbitrage]: the buy side is tested first. *)
Definition check_arbitrage (mb : t) (yes_token no_token : string)
  : result (option (gmap string value)) :=
  match _books mb !! yes_token, _books mb !! no_token with
  | Some yes_book, Some no_book =>
      let yes_snap := get_snapshot yes_book in
      let no_snap := get_snapshot no_book in
      let buy_total := best_ask yes_snap + best_ask no_snap in
      if lt buy_total (995 # 1000) then
        profit_pct ← truediv (1 - buy_total) buy_total;
        Ok (Some (<["type" := Str "BUY_BOTH"]>
                 (<["yes_price" := Num (best_ask yes_snap)]>
                 (<["no_price" := Num (best_ask no_snap)]>
                 (<["total" := Num buy_total]>
                 (<["profit" := Num (1 - buy_total)]>
                 (<["profit_pct" := Num profit_pct]> ∅)))))))
      else
        let sell_total := best_bid yes_snap + best_bid no_snap in
        if gt sell_total (1005 # 1000) then
          Ok (Some (<["type" := Str "SELL_BOTH"]>
                   (<["yes_price" := Num (best_bid yes_snap)]>
                   (<["no_price" := Num (best_bid no_snap)]>
                   (<["total" := Num sell_total]>
                   (<["profit" := Num (sell_total - 1)]>
                   (<["profit_pct" := Num (sell_total - 1)]> ∅)))))))
        else Ok None
  | _, _ => Ok None
  end.

(** [scan_all_arbitrage]: every pair with an opportunity, tagged with its
    two tokens. *)
Fixpoint scan_pairs (mb : t) (pairs : list (string * string))
  : result (list (gmap string value)) :=
  match pairs with
  | [] => Ok []
  | (yes_token, no_token) :: rest =>
      arb ← check_arbitrage mb yes_token no_token;
      others ← scan_pairs mb rest;
      match arb with
      | Some d =>
          Ok (<["no_token" := Str no_token]> (<["yes_token" := Str yes_token]> d)
              :: others)
      | None => Ok others
      end
  end.

Definition scan_all_arbitrage (mb : t) : result (list (gmap string value)) :=
  scan_pairs mb (_pairs mb).

End MultiOrderBook.

(* ===================================================================== *)
(** ** strategies/yes_no_arbitrage.py *)
(* ===================================================================== *)

Module YesNoArbitrage.
Import StrategyBase.

Definition name : string := "YesNoArbitrage".

(** The strategy parameters, read from the configuration. *)
Record params : Type := mkParams {
  min_spread : Q;
  max_slippage : Q;
  target_profit : Q;
  max_position : Q
}.

(** The defaults of [config.get(key, default)]. *)
Definition default_params : params :=
  {| min_spread := 5 # 1000;
     max_slippage := 1 # 100;
     target_profit := 3 # 100;
     max_position := 10000 |}.

(** A text entry of a dictionary; the producers store strings under the
    keys read this way. *)
Definition text (v : value) : string :=
  match v with Str s => s | Num _ => ""%string end.

(** Copying [d.get(k)] into a metadata dictionary: a missing key reads
    back as [None] either way. *)
Definition copy_key (k : string) (src dst : gmap string value) : gmap string value :=
  match src !! k with Some x => <[k := x]> dst | None => dst end.

Abbreviation signal := (TradeSignal (gmap string value)).

Section strategy.
Variable cfg : params.

Definition _create_arb_signal (market arb : gmap string value)
  : result (option signal) :=
  let arb_type := text (get arb "type" (Str "")) in
  let profit_pct := get arb "profit_pct" (Num 0) in
  if String.eqb arb_type "BUY_BOTH" then
    total_cost ← num (get arb "total_cost" (Num 1));
    max_pairs ← truediv (max_position cfg) total_cost;
    profit ← num profit_pct;
    ratio ← truediv profit (target_profit cfg);
    Ok (Some
      {| strategy_name := name;
         signal_type := BUY;
         market_id := text (get market "id" (Str ""));
         token_id := text (get arb "yes_token" (Str ""));
         side := "BOTH";
         price := total_cost;
         size := max_pairs;
         confidence := min (95 # 100) ratio;
         expected_profit_pct := profit;
         metadata :=
           <["arb_type" := Str "BUY_BOTH"]>
           (copy_key "yes_token" arb
           (copy_key "no_token" arb
           (<["yes_price" := get arb "yes_price" (Num 0)]>
           (<["no_price" := get arb "no_price" (Num 0)]>
           (<["total_cost" := Num total_cost]>
           (<["question" := get market "question" (Str "")]> ∅)))))) |})
  else if String.eqb arb_type "SELL_BOTH" then
    total_value ← num (get arb "total_value" (Num 1));
    profit ← num profit_pct;
    ratio ← truediv profit (target_profit cfg);
    Ok (Some
      {| strategy_name := name;
         signal_type := SELL;
         market_id := text (get market "id" (Str ""));
         token_id := text (get arb "yes_token" (Str ""));
         side := "BOTH";
         price := total_value;
         size := max_position cfg;
         confidence := min (95 # 100) ratio;
         expected_profit_pct := profit;
         metadata :=
           <["arb_type" := Str "SELL_BOTH"]>
           (copy_key "yes_token" arb
           (copy_key "no_token" arb
           (<["yes_price" := get arb "yes_price" (Num 0)]>
           (<["no_price" := get arb "no_price" (Num 0)]>
           (<["total_value" := Num total_value]>
           (<["question" := get market "question" (Str "")]> ∅)))))) |})
  else Ok None.

(** The market dictionary as [_create_arb_signal] reads it. *)
Definition market_dict (m : Client.market_data) : gmap string value :=
  <["id" := Str (Client.id m)]> (<["question" := Str (Client.question m)]> ∅).

(** What the monitor keeps per market. *)
Record monitored : Type := mkMonitored {
  yes_token : string;
  no_token : string;
  monitored_question : string
}.

(** [_find_market_for_tokens]: the first monitored market with this pair,
    as [{'id': market_id, **info}]. *)
Fixpoint _find_market_for_tokens (monitored_markets : list (string * monitored))
    (yes no : string) : option (gmap string value) :=
  match monitored_markets with
  | [] => None
  | (market_id, info) :: rest =>
      if String.eqb (yes_token info) yes && String.eqb (no_token info) no
      then Some (<["id" := Str market_id]>
                (<["yes_token" := Str (yes_token info)]>
                (<["no_token" := Str (no_token info)]>
                (<["question" := Str (monitored_question info)]> ∅))))
      else _find_market_for_tokens rest yes no
  end.

(** One opportunity that passed the [min_spread] gate, turned into a signal. *)
Definition signal_of (market : option (gmap string value)) (arb : gmap string value)
  : result (list signal) :=
  profit_pct ← num (get arb "profit_pct" (Num 0));
  if ge profit_pct (min_spread cfg) then
    match market with
    | Some m =>
        sg ← _create_arb_signal m arb;
        Ok (match sg with Some x => [x] | None => [] end)
    | None => Ok []
    end
  else Ok [].

(** The body of the first loop of [scan]: one market of the REST listing. *)
Definition scan_market (v : Client.venue) (market : Client.market_data)
  : result (list signal) :=
  if (length (Client.clobTokenIds market) <? 2)%nat then Ok []
  else
    arb ← Client.check_yes_no_arbitrage v (Client.id market);
    match arb with
    | Some d => signal_of (Some (market_dict market)) d
    | None => Ok []
    end.

(** The body of the second loop of [scan]: one opportunity of the
    real-time books. *)
Definition scan_monitored (monitored_markets : list (string * monitored))
    (arb : gmap string value) : result (list signal) :=
  signal_of
    (_find_market_for_tokens monitored_markets
       (text (get arb "yes_token" (Str ""))) (text (get arb "no_token" (Str ""))))
    arb.

Definition scan (v : Client.venue) (markets : list Client.market_data)
    (multi_book : MultiOrderBook.t) (monitored_markets : list (string * monitored))
  : result (list signal) :=
  from_rest ← mapM (scan_market v) markets;
  arbs ← MultiOrderBook.scan_all_arbitrage multi_book;
  from_books ← mapM (scan_monitored monitored_markets) arbs;
  Ok (sorted_reverse expected_profit_pct (concat from_rest ++ concat from_books)).

End strategy.

End YesNoArbitrage.

(* ===================================================================== *)
(** ** strategies/range_coverage.py *)
(* ===================================================================== *)

Module RangeCoverage.
Import StrategyBase.

Definition name : string := "RangeCoverage".

Record params : Type := mkParams {
  max_total_cost : Q;
  target_profit : Q;
  min_outcomes_covered : nat;
  max_position : Q
}.

Definition default_params : params :=
  {| max_total_cost := 98 # 100;
     target_profit := 25 # 100;
     min_outcomes_covered := 3;
     max_position := 5000 |}.

(** One entry of [outcome_data]. *)
Record outcome : Type := mkOutcome {
  outcome_name : string;
  outcome_token : string;
  outcome_price : Q
}.

(** The coverage dictionary. *)
Record coverage : Type := mkCoverage {
  covered : list outcome;
  total_cost : Q;
  expected_return : Q;
  profit : Q;
  profit_pct : Q
}.

Record signal_metadata : Type := mkMeta {
  meta_coverage : coverage;
  meta_question : string
}.

Abbreviation signal := (TradeSignal signal_metadata).

Section strategy.
Variable cfg : params.

(** The loop of [_find_optimal_coverage], from the state
    [(coverage['outcomes'], coverage['total_cost'])].  The running total
    is an exact sum here; [CoverageWalk.greedy_walk] is the same loop over
    any arithmetic and [Binary64.greedy_walk] over that of the machine. *)
Fixpoint greedy_walk (outcomes : list outcome) (chosen : list outcome) (total : Q)
  : list outcome * Q :=
  match outcomes with
  | [] => (chosen, total)
  | o :: rest =>
      if le (outcome_price o) 0 then greedy_walk rest chosen total
      else
        let potential_cost := total + outcome_price o in
        if le potential_cost (max_total_cost cfg)
        then greedy_walk rest (chosen ++ [o]) potential_cost
        else (chosen, total)
  end.

Definition _find_optimal_coverage (outcomes : list outcome) : result (option coverage) :=
  let '(chosen, total) := greedy_walk outcomes [] 0 in
  match chosen with
  | [] => Ok None
  | _ :: _ =>
      let profit := 1 - total in
      pct ← truediv profit total;
      Ok (Some {| covered := chosen; total_cost := total; expected_return := 1;
                  profit := profit; profit_pct := pct |})
  end.

(** The price of one outcome: the listed price, replaced by the book's
    ask when the book query answers. *)
Definition outcome_entry (v : Client.venue) (prices_raw : list Q)
    (i : nat) (named : string * string) : outcome :=
  let '(outcome_name, token) := named in
  let listed := nth i prices_raw 0 in
  {| outcome_name := outcome_name;
     outcome_token := token;
     outcome_price :=
       match Client.get_price (Client.book_of v token) with
       | Ok book_prices => Client.ask book_prices
       | Raise _ => listed
       end |}.

(** [outcome_data], sorted by price, highest first. *)
Definition outcome_data (v : Client.venue) (market : Client.market_data) : list outcome :=
  sorted_reverse outcome_price
    (imap (outcome_entry v (Client.outcomePrices market))
          (combine (Client.outcomes market) (Client.clobTokenIds market))).

(** The signal for a coverage that passed the size gate, if its profit
    reaches the target.  The profit is an exact quotient here; the
    machine compares [Binary64.profit_pct]. *)
Definition coverage_signal (market : Client.market_data) (c : coverage)
  : result (list signal) :=
  pct ← truediv (1 - total_cost c) (total_cost c);
  if ge pct (target_profit cfg) then
    sz ← truediv (max_position cfg) (total_cost c);
    Ok [ {| strategy_name := name;
            signal_type := BUY;
            market_id := Client.id market;
            token_id := match covered c with o :: _ => outcome_token o | [] => ""%string end;
            side := "MULTIPLE";
            price := total_cost c;
            size := sz;
            confidence := 95 # 100;
            expected_profit_pct := pct;
            metadata := {| meta_coverage := c; meta_question := Client.question market |} |} ]
  else Ok [].

(** The body of the loop of [scan], inside its [try]. *)
Definition scan_market_body (v : Client.venue) (market : Client.market_data)
  : result (list signal) :=
  found ← _find_optimal_coverage (outcome_data v market);
  match found with
  | Some c =>
      if (min_outcomes_covered cfg <=? length (covered c))%nat
      then coverage_signal market c
      else Ok []
  | None => Ok []
  end.

(** One market of the listing: fewer than three outcomes are skipped, an
    exception inside the [try] is logged and yields nothing. *)
Definition scan_market (v : Client.venue) (market : Client.market_data) : list signal :=
  if (length (Client.outcomes market) <? 3)%nat then []
  else match scan_market_body v market with
       | Ok sigs => sigs
       | Raise _ => []
       end.

Definition scan (v : Client.venue) (markets : list Client.market_data) : list signal :=
  concat (map (scan_market v) markets).

End strategy.

End RangeCoverage.

(* ===================================================================== *)
(** ** strategies/near_resolved.py *)
(* ===================================================================== *)

Module NearResolved.
Import StrategyBase.

Definition name : string := "NearResolvedSniping".

Record params : Type := mkParams {
  min_probability : Q;
  max_probability : Q;
  min_yield : Q;
  max_time_to_resolution : Q
}.

Definition default_params : params :=
  {| min_probability := 95 # 100;
     max_probability := 99 # 100;
     min_yield := 1 # 1000;
     max_time_to_resolution := 24 |}.

(** One entry of [find_near_resolved_markets]. *)
Record opportunity : Type := mkOpp {
  opp_market_id : string;
  opp_question : string;
  opp_outcome : string;
  opp_token_id : string;
  probability : Q;
  potential_yield : Q;
  end_date : option datetime
}.

(** One entry of [_active_positions]. *)
Record position : Type := mkPos {
  pos_token_id : string;
  shares : Q;
  pos_avg_price : Q;
  cost : Q;
  expected_return : Q;
  expected_profit : Q;
  entry_time : datetime;
  pos_question : string
}.

(** The bankroll the strategy tracks. *)
Record state : Type := mkState {
  _available_capital : Q;
  _active_positions : gmap string position;
  _total_invested : Q;
  _total_returned : Q
}.

Definition set_capital (st : state) (amount : Q) : state :=
  mkState amount (_active_positions st) (_total_invested st) (_total_returned st).

Definition init : state := mkState 0 ∅ 0 0.

Record signal_metadata : Type := mkMeta {
  meta_question : string;
  meta_probability : Q;
  meta_potential_yield : Q;
  meta_end_date : option datetime
}.

Abbreviation signal := (TradeSignal signal_metadata).

Definition _calculate_snipe_size (available_capital yield_pct probability : Q) : Q :=
  if le available_capital 0 then 0
  else
    let max_per_market := available_capital * (20 # 100) in
    let confidence_factor := (probability - (90 # 100)) / (10 # 100) in
    let position := max_per_market * confidence_factor in
    max 10 (min position max_per_market).

Section strategy.
Variable cfg : params.

(** The end-date filter: more than [max_time_to_resolution] hours left. *)
Definition too_far (now : datetime) (o : opportunity) : bool :=
  match end_date o with
  | Some end_dt =>
      gt (inject_Z (end_dt - now) / 3600000) (max_time_to_resolution cfg)
  | None => false
  end.

(** The body of the loop of [scan]. *)
Definition scan_opportunity (available_capital : Q) (now : datetime) (o : opportunity)
  : result (list signal) :=
  if lt (potential_yield o) (min_yield cfg) then Ok []
  else if too_far now o then Ok []
  else
    let position_size :=
      _calculate_snipe_size available_capital (potential_yield o) (probability o) in
    if lt position_size 10 then Ok []
    else
      sz ← truediv position_size (probability o);
      Ok [ {| strategy_name := name;
              signal_type := BUY;
              market_id := opp_market_id o;
              token_id := opp_token_id o;
              side := opp_outcome o;
              price := probability o;
              size := sz;
              confidence := probability o;
              expected_profit_pct := potential_yield o;
              metadata := {| meta_question := opp_question o;
                             meta_probability := probability o;
                             meta_potential_yield := potential_yield o;
                             meta_end_date := end_date o |} |} ].

Definition scan (st : state) (now : datetime) (opportunities : list opportunity)
  : result (list signal) :=
  found ← mapM (scan_opportunity (_available_capital st) now) opportunities;
  Ok (firstn 10 (sorted_reverse expected_profit_pct (concat found))).

End strategy.

(** [status in ['simulated', 'filled', 'partial']]. *)
Definition accepted (status : string) : bool :=
  String.eqb status "simulated" || String.eqb status "filled"
  || String.eqb status "partial".

Section execute.
(** [validate_signal] is inherited from the base class, which is not among
    the sources: it is a parameter. *)
Variable validate_signal : signal -> bool.
Variable dry_run : bool.
Variable v : Client.venue.
Variable now : datetime.

(** [execute]: the new bankroll and the result.  The size is cut to the
    available capital before the order is placed.  On the rationals the
    cut order costs the capital exactly; what the machine books for it is
    [Binary64.capital_after_snipe]. *)
Definition execute (st : state) (sg : signal) : result (state * StrategyResult) :=
  if negb (validate_signal sg) then
    Ok (st, mkResult name false 0 0 1 ["Invalid signal"%string])
  else
    let cost := size sg * price sg in
    sz ← (if gt cost (_available_capital st)
          then truediv (_available_capital st) (price sg)
          else Ok (size sg));
    let order :=
      Client.place_order dry_run v now (token_id sg) Client.BUY (price sg) sz Client.GTC in
    if accepted (Client.status order) then
      let actual_cost := Client.filled_amount order * Client.avg_price order in
      Ok ({| _available_capital := _available_capital st - actual_cost;
             _active_positions :=
               <[market_id sg :=
                   {| pos_token_id := token_id sg;
                      shares := Client.filled_amount order;
                      pos_avg_price := Client.avg_price order;
                      cost := actual_cost;
                      expected_return := Client.filled_amount order;
                      expected_profit := Client.filled_amount order - actual_cost;
                      entry_time := now;
                      pos_question := meta_question (metadata sg) |}]>
               (_active_positions st);
             _total_invested := _total_invested st + actual_cost;
             _total_returned := _total_returned st |},
          mkResult name true 0 1 1 [])
    else
      Ok (st, mkResult name false 0 0 1
                [("Order not filled: " ++ Client.status order)%string]).

(** One turn of the loop of [check_resolutions], for the position held on
    [market_id]: a resolved market pays one dollar per share. *)
Definition resolve (st : state) (market_id : string) : state * option StrategyResult :=
  match _active_positions st !! market_id with
  | Some position =>
      if Client.resolved (Client.market_of v market_id) then
        let payout := shares position in
        let profit := payout - cost position in
        ({| _available_capital := _available_capital st + payout;
            _active_positions := delete market_id (_active_positions st);
            _total_invested := _total_invested st;
            _total_returned := _total_returned st + payout |},
         Some (mkResult name true profit 0 0 []))
      else (st, None)
  | None => (st, None)
  end.

End execute.

End NearResolved.

(* ===================================================================== *)
(** ** strategies/spread_trading.py *)
(* ===================================================================== *)

Module SpreadTrading.

Record params : Type := mkParams {
  min_spread : Q;
  max_inventory_imbalance : Q;
  order_size : Q
}.

Definition default_params : params :=
  {| min_spread := 2 # 100;
     max_inventory_imbalance := 3 # 10;
     order_size := 100 |}.

(** One entry of [_inventory]. *)
Record inventory : Type := mkInv {
  size : Q;
  avg_price : Q;
  realized_pnl : Q
}.

Section strategy.
Variable cfg : params.

(** [_get_inventory_imbalance]: the docstring promises a value from -1 to
    +1; the body returns the bare ratio. *)
Definition _get_inventory_imbalance (_inventory : gmap string inventory)
    (token_id : string) : result Q :=
  let position_size :=
    match _inventory !! token_id with Some p => size p | None => 0 end in
  if eq position_size 0 then Ok 0
  else truediv position_size (order_size cfg * 10).

(** The size adjustment of [execute]: [(bid_size, ask_size)]. *)
Definition quote_sizes (signal_size imbalance : Q) : Q * Q :=
  if gt imbalance (max_inventory_imbalance cfg) then
    (signal_size * (1 - imbalance), signal_size * (1 + imbalance))
  else if lt imbalance (- max_inventory_imbalance cfg) then
    (signal_size * (1 + abs imbalance), signal_size * (1 - abs imbalance))
  else (signal_size, signal_size).

(** The two sizes [execute] sends to the venue for a signal on [token_id]. *)
Definition execute_sizes (_inventory : gmap string inventory)
    (token_id : string) (signal_size : Q) : result (Q * Q) :=
  imbalance ← _get_inventory_imbalance _inventory token_id;
  Ok (quote_sizes signal_size imbalance).

End strategy.

(** [update_inventory]. *)
Definition update_inventory (_inventory : gmap string inventory)
    (token_id : string) (fill_side : Client.order_side) (fill_size fill_price : Q)
  : gmap string inventory :=
  let inv := default (mkInv 0 0 0) (_inventory !! token_id) in
  match fill_side with
  | Client.BUY =>
      let total_cost := size inv * avg_price inv + fill_size * fill_price in
      let new_size := size inv + fill_size in
      <[token_id := mkInv new_size
                      (if gt new_size 0 then total_cost / new_size else 0)
                      (realized_pnl inv)]> _inventory
  | Client.SELL =>
      if gt (size inv) 0 then
        let pnl := fill_size * (fill_price - avg_price inv) in
        <[token_id := mkInv (size inv - fill_size) (avg_price inv)
                        (realized_pnl inv + pnl)]> _inventory
      else <[token_id := inv]> _inventory
  end.

End SpreadTrading.

(* ===================================================================== *)
(** ** strategies/compounding.py *)
(* ===================================================================== *)

Module Compounding.

(** The capital bookkeeping of [CompoundingStrategy]. *)
Record ledger : Type := mkLedger {
  _initial_capital : Q;
  _current_capital : Q;
  _peak_capital : Q;
  _total_profit : Q;
  _trade_count : nat;
  _win_count : nat
}.

Definition init : ledger := mkLedger 0 0 0 0 0 0.

Definition set_initial_capital (l : ledger) (amount : Q) : ledger :=
  mkLedger amount amount amount (_total_profit l) (_trade_count l) (_win_count l).

(** [_process_result], on the [profit_loss] of a successful result. *)
Definition _process_result (l : ledger) (profit_loss : Q) : ledger :=
  let trade_count := S (_trade_count l) in
  let '(win_count, total_profit, current) :=
    if ge profit_loss 0
    then (S (_win_count l), _total_profit l + profit_loss,
          _current_capital l + profit_loss)
    else (_win_count l, _total_profit l, _current_capital l + profit_loss) in
  mkLedger (_initial_capital l) current (max (_peak_capital l) current)
           total_profit trade_count win_count.

(** [execute] books the result of the sub-strategy only when it succeeded. *)
Definition book (l : ledger) (r : StrategyBase.StrategyResult) : ledger :=
  if StrategyBase.success r then _process_result l (StrategyBase.profit_loss r) else l.

(** The ledger after a sequence of booked results, oldest first. *)
Definition run (l : ledger) (profits : list Q) : ledger :=
  fold_left _process_result profits l.

(** No loss in the sequence is larger than the capital it is booked on. *)
Fixpoint losses_covered (l : ledger) (profits : list Q) : Prop :=
  match profits with
  | [] => True
  | p :: rest => 0 <= _current_capital l + p /\ losses_covered (_process_result l p) rest
  end.

(** Wins never outnumber trades and the peak is never below the
    current capital. *)
Definition counts_and_peak (l : ledger) : Prop :=
  (_win_count l <= _trade_count l)%nat /\ _current_capital l <= _peak_capital l.

End Compounding.

(* ===================================================================== *)
(** ** exchanges/aggregator.py *)
(* ===================================================================== *)

Module Aggregator.
Import ExchangeBase.

(** One entry of [_price_history[symbol]]. *)
Record entry : Type := mkEntry {
  entry_timestamp : datetime;
  entry_exchange : string;
  entry_price : Q
}.

Record PriceImpulse : Type := mkImpulse {
  impulse_symbol : string;
  impulse_exchange : string;
  impulse_direction : direction;
  change_pct : Q;
  from_price : Q;
  to_price : Q;
  duration_ms : Z;
  impulse_timestamp : datetime;
  confidence : Q
}.

(** A connected exchange: its name and its own per-symbol history. *)
Record exchange_state : Type := mkExchange {
  exchange_name : string;
  exchange_history : gmap string (list PriceUpdate)
}.

Record t : Type := mkAggregator {
  _exchanges : list exchange_state;
  _price_history : gmap string (list entry);
  _impulse_threshold : Q;
  _impulse_window_ms : Z;
  _history_size : nat
}.

(** [deque(maxlen=n).append(x)]. *)
Definition deque_append {A} (maxlen : nat) (d : list A) (x : A) : list A :=
  last_n maxlen (d ++ [x]).

(** The first entry, in list order, no younger than [window_start]. *)
Fixpoint first_old_enough (history : list entry) (window_start : datetime)
  : option Q :=
  match history with
  | [] => None
  | e :: rest =>
      if (entry_timestamp e <=? window_start)%Z then Some (entry_price e)
      else first_old_enough rest window_start
  end.

(** The baseline price [_check_impulse] compares with: the loop
    [for entry in history] runs from the oldest entry to the newest. *)
Definition old_price (history : list entry) (window_start : datetime) : Q :=
  match first_old_enough history window_start with
  | Some p => p
  | None => match history with e :: _ => entry_price e | [] => 0 end
  end.

Definition _check_impulse_confirmation (agg : t) (sym : string) (direction_pct : Q)
  : nat :=
  let wanted := if gt direction_pct 0 then up else down in
  length (filter
    (fun ex => momentum_direction (default [] (exchange_history ex !! sym)) 50 = wanted)
    (_exchanges agg)).

(** [_check_impulse]: the impulse handed to the callbacks, if any. *)
Definition _check_impulse (agg : t) (sym : string) (update : PriceUpdate)
  : result (option PriceImpulse) :=
  let history := default [] (_price_history agg !! sym) in
  if (length history <? 2)%nat then Ok None
  else
    let window_start := (timestamp update - _impulse_window_ms agg)%Z in
    let old := old_price history window_start in
    change ← truediv (price update - old) old;
    if ge (abs change) (_impulse_threshold agg) then
      let confirmed := _check_impulse_confirmation agg sym change in
      let conf :=
        match _exchanges agg with
        | [] => 1
        | _ :: _ => inject_Z (Z.of_nat confirmed)
                    / inject_Z (Z.of_nat (length (_exchanges agg)))
        end in
      Ok (Some {| impulse_symbol := sym;
                  impulse_exchange := exchange update;
                  impulse_direction := if gt change 0 then up else down;
                  change_pct := change;
                  from_price := old;
                  to_price := price update;
                  duration_ms := _impulse_window_ms agg;
                  impulse_timestamp := timestamp update;
                  confidence := conf |})
    else Ok None.

(** The history part of [_on_price_update], followed by the impulse check. *)
Definition _on_price_update (agg : t) (update : PriceUpdate)
  : t * result (option PriceImpulse) :=
  let sym := symbol update in
  let history := default [] (_price_history agg !! sym) in
  let agg' :=
    mkAggregator (_exchanges agg)
      (<[sym := deque_append (_history_size agg) history
                  (mkEntry (timestamp update) (exchange update) (price update))]>
         (_price_history agg))
      (_impulse_threshold agg) (_impulse_window_ms agg) (_history_size agg) in
  (agg', _check_impulse agg' sym update).

End Aggregator.

(* ===================================================================== *)
(** ** bot.py *)
(* ===================================================================== *)

Module Bot.

(** What [strategy.run_once()] gives back inside [run_once]: a result
    with its counts and profit, or an exception, which is logged. *)
Inductive outcome : Type :=
| returned (signals trades : nat) (profit : Q)
| raised.

(** What the loop of [run] meets on one turn: whether a shutdown signal
    has cleared [_running], whether the session's end time has passed, and
    what each strategy answers. *)
Record tick : Type := mkTick {
  shutdown_signal : bool;
  duration_reached : bool;
  strategies : list outcome
}.

Record state : Type := mkState {
  _total_profit : Q;
  _trade_count : nat
}.

Inductive stop : Set :=
| stopped_by_signal
| duration_over
| risk_limit
| ticks_exhausted.

#[global] Instance stop_eq_dec : EqDecision stop.
Proof. solve_decision. Defined.

(** [results['total_trades']] and [results['total_profit']] of one
    iteration. *)
Fixpoint totals (outcomes : list outcome) (trades : nat) (profit : Q) : nat * Q :=
  match outcomes with
  | [] => (trades, profit)
  | returned _ t p :: rest => totals rest (trades + t)%nat (profit + p)
  | raised :: rest => totals rest trades profit
  end.

Definition run_once (st : state) (tk : tick) : state :=
  let '(trades, profit) := totals (strategies tk) 0%nat 0 in
  mkState (_total_profit st + profit) (_trade_count st + trades).

Section bot.
Variable max_daily_loss : Q.

Definition _check_risk_limits (st : state) : bool :=
  if lt (_total_profit st) (- max_daily_loss) then false else true.

(** The loop of [run]: the state it ends in, why it ended, and how many
    iterations it ran. *)
Fixpoint run_loop (st : state) (ticks : list tick) (iterations : nat)
  : state * stop * nat :=
  match ticks with
  | [] => (st, ticks_exhausted, iterations)
  | tk :: rest =>
      if shutdown_signal tk then (st, stopped_by_signal, iterations)
      else if duration_reached tk then (st, duration_over, iterations)
      else
        let st' := run_once st tk in
        if _check_risk_limits st' then run_loop st' rest (S iterations)
        else (st', risk_limit, S iterations)
  end.

Definition run (ticks : list tick) : state * stop * nat :=
  run_loop (mkState 0 0) ticks 0.

(** [main] and the exit status of the process.  [initialize] is awaited
    outside the [try] of [run], so a failure there leaves [asyncio.run]
    with an uncaught exception (status 1); every way out of the loop
    returns the session summary to [main], which prints it and returns
    (status 0).  No path calls [sys.exit]. *)
Definition main (init_ok : bool) (ticks : list tick)
  : option (state * stop * nat) * Z :=
  if init_ok then (Some (run ticks), 0%Z) else (None, 1%Z).

End bot.

End Bot.

(* ===================================================================== *)
(** ** The formulas of the specification *)
(* ===================================================================== *)

Module Spec.

Definition clamp (x lo hi : Q) : Q := Qmax lo (Qmin x hi).

(** NearResolved sizing, in dollars:
    capital x clamp((prob - 0.90)/0.10, 0, 1) x 0.20. *)
Definition snipe_dollars (capital prob : Q) : Q :=
  capital * clamp ((prob - (90 # 100)) / (10 # 100)) 0 1 * (20 # 100).

(** SpreadMaking inventory skew:
    position.size / (order_size x 10), clamped to [-1, 1]. *)
Definition inventory_imbalance (position_size order_size : Q) : Q :=
  clamp (position_size / (order_size * 10)) (-1) 1.

(** Impulse baseline: walk the history backwards, from the newest entry
    to the oldest, for the first entry whose timestamp is at most
    [window_start]; if none, use the oldest entry. *)
Fixpoint newest_old_enough (newest_first : list Aggregator.entry)
    (window_start : datetime) : option Q :=
  match newest_first with
  | [] => None
  | e :: older =>
      if (Aggregator.entry_timestamp e <=? window_start)%Z
      then Some (Aggregator.entry_price e)
      else newest_old_enough older window_start
  end.

Definition baseline_backwards (history : list Aggregator.entry)
    (window_start : datetime) : Q :=
  match newest_old_enough (rev history) window_start with
  | Some p => p
  | None => match history with e :: _ => Aggregator.entry_price e | [] => 0 end
  end.

End Spec.

(* ===================================================================== *)
(** ** Concrete inputs *)
(* ===================================================================== *)

Module Scenario.

(** A market maker that bought 2000 shares of one token at 0.50. *)
Definition long_inventory : gmap string SpreadTrading.inventory :=
  SpreadTrading.update_inventory ∅ "token" Client.BUY 2000 (1 # 2).

(** Scenario S2: outcome Yes at 0.97, six hours before the end. *)
Definition yes_at_97 : NearResolved.opportunity :=
  {| NearResolved.opp_market_id := "market";
     NearResolved.opp_question := "Will BTC close above 100k?";
     NearResolved.opp_outcome := "Yes";
     NearResolved.opp_token_id := "yes-token";
     NearResolved.probability := 97 # 100;
     NearResolved.potential_yield := 3 # 100;
     NearResolved.end_date := Some 21600000%Z |}.

End Scenario.


(* ===================================================================== *)
(** ** Concrete inputs: range coverage *)
(* ===================================================================== *)

Module RangeScenario.

(** A book whose best ask is [p]. *)
Definition ask_book (p : Q) : Client.raw_book :=
  Client.mkRawBook [] [Client.mkRawLevel p 1000].

(** Scenario S3: five outcomes priced 0.40, 0.30, 0.15, 0.10 and 0.05,
    listed in another order. *)
Definition market : Client.market_data :=
  {| Client.id := "btc-range";
     Client.question := "Where will BTC close?";
     Client.clobTokenIds := ["t15"; "t40"; "t05"; "t30"; "t10"]%string;
     Client.outcomes := ["120k-130k"; "100k-110k"; "above 130k"; "110k-120k"; "below 100k"]%string;
     Client.outcomePrices := [15 # 100; 40 # 100; 5 # 100; 30 # 100; 10 # 100];
     Client.endDate := None;
     Client.resolved := false |}.

Definition venue : Client.venue :=
  {| Client.market_of := fun _ => market;
     Client.book_of := fun token =>
       if String.eqb token "t40" then ask_book (40 # 100)
       else if String.eqb token "t30" then ask_book (30 # 100)
       else if String.eqb token "t15" then ask_book (15 # 100)
       else if String.eqb token "t10" then ask_book (10 # 100)
       else ask_book (5 # 100);
     Client.post_order := fun _ => Client.mkReply None None None None;
     Client.positions_of := [] |}.

(** The configuration of the scenario, whatever the profit target and the
    position cap. *)
Definition params (target_profit max_position : Q) : RangeCoverage.params :=
  RangeCoverage.mkParams (98 # 100) target_profit 3 max_position.

End RangeScenario.


(* ===================================================================== *)
(** ** Concrete inputs: parity *)
(* ===================================================================== *)

Module ParityScenario.

(** Scenario S1: asks Yes at 0.48 and No at 0.49, a thousand shares each. *)
Definition yes_book : OrderBook.book :=
  OrderBook.mkBook "yes-token" [] [OrderBook.mkLevel (48 # 100) 1000 1] 0%Z.

Definition no_book : OrderBook.book :=
  OrderBook.mkBook "no-token" [] [OrderBook.mkLevel (49 # 100) 1000 1] 0%Z.

(** The pair as the real-time monitor holds it. *)
Definition multi_book : MultiOrderBook.t :=
  {| MultiOrderBook._books :=
       <["yes-token" := yes_book]> (<["no-token" := no_book]> ∅);
     MultiOrderBook._pairs := [("yes-token", "no-token")]%string |}.

Definition monitored_markets : list (string * YesNoArbitrage.monitored) :=
  [("market"%string,
    YesNoArbitrage.mkMonitored "yes-token" "no-token" "Will BTC close above 100k?")].

Definition no_books : MultiOrderBook.t :=
  {| MultiOrderBook._books := ∅; MultiOrderBook._pairs := [] |}.

(** The same market as the REST endpoints show it. *)
Definition market : Client.market_data :=
  {| Client.id := "market";
     Client.question := "Will BTC close above 100k?";
     Client.clobTokenIds := ["yes-token"; "no-token"]%string;
     Client.outcomes := ["Yes"; "No"]%string;
     Client.outcomePrices := [48 # 100; 49 # 100];
     Client.endDate := None;
     Client.resolved := false |}.

Definition venue : Client.venue :=
  {| Client.market_of := fun _ => market;
     Client.book_of := fun token =>
       if String.eqb token "yes-token"
       then Client.mkRawBook [] [Client.mkRawLevel (48 # 100) 1000]
       else Client.mkRawBook [] [Client.mkRawLevel (49 # 100) 1000];
     Client.post_order := fun _ => Client.mkReply None None None None;
     Client.positions_of := [] |}.

End ParityScenario.


(* ===================================================================== *)
(** ** Reading the figures of a scan *)
(* ===================================================================== *)

Module Figures.

(** Price, size and expected profit of each signal of a scan that
    returned; [None] for a scan that raised. *)
Definition of_scan {M} (r : result (list (StrategyBase.TradeSignal M)))
  : option (list (Q * Q * Q)) :=
  match r with
  | Ok sigs =>
      Some (map (fun sg => (StrategyBase.price sg, StrategyBase.size sg,
                            StrategyBase.expected_profit_pct sg)) sigs)
  | Raise _ => None
  end.

End Figures.


(* ===================================================================== *)
(** ** Sequences of bankroll operations *)
(* ===================================================================== *)

Module Bankroll.
Import NearResolved.

(** What happens to the near-resolved bankroll: a signal is executed, or
    the resolution sweep looks at one market. *)
Inductive op : Type :=
| Execute (sg : signal)
| Resolve (market_id : string).

Section run.
Variable validate_signal : signal -> bool.
Variable dry_run : bool.
Variable v : Client.venue.
Variable now : datetime.

Definition step (st : state) (o : op) : result state :=
  match o with
  | Execute sg =>
      r ← execute validate_signal dry_run v now st sg; Ok (fst r)
  | Resolve market_id => Ok (fst (resolve v st market_id))
  end.

(** The states the bankroll goes through, one per operation. *)
Fixpoint trajectory (st : state) (ops : list op) : result (list state) :=
  match ops with
  | [] => Ok []
  | o :: rest =>
      st' ← step st o;
      later ← trajectory st' rest;
      Ok (st' :: later)
  end.

(** The state after the last operation. *)
Fixpoint final (st : state) (ops : list op) : result state :=
  match ops with
  | [] => Ok st
  | o :: rest => st' ← step st o; final st' rest
  end.

(** Every executed signal fits the capital at hand when it is executed:
    [execute] cuts none of them. *)
Fixpoint fits (st : state) (ops : list op) : Prop :=
  match ops with
  | [] => True
  | o :: rest =>
      match o with
      | Execute sg =>
          StrategyBase.size sg * StrategyBase.price sg <= _available_capital st
      | Resolve _ => True
      end
      /\ match step st o with
         | Ok st' => fits st' rest
         | Raise _ => True
         end
  end.

End run.

(** Every executed signal asks for a non-negative number of shares. *)
Definition sizes_nonnegative (ops : list op) : Prop :=
  Forall (fun o => match o with
                   | Execute sg => 0 <= StrategyBase.size sg
                   | Resolve _ => True
                   end) ops.

(** Every order comes back with a non-negative fill that costs no more
    than the order asked to spend. *)
Definition fills_within (dry_run : bool) (v : Client.venue) (now : datetime) : Prop :=
  forall token sd price size ty,
    0 <= size ->
    let order := Client.place_order dry_run v now token sd price size ty in
    0 <= Client.filled_amount order
    /\ Client.filled_amount order * Client.avg_price order <= size * price.

(** The venue fills every order in full at its limit price. *)
Definition fills_in_full (v : Client.venue) : Prop :=
  forall o,
    Client.reply_status (Client.post_order v o) = Some "filled"%string
    /\ Client.filledSize (Client.post_order v o) = Some (Client.order_size o)
    /\ default (Client.order_price o) (Client.avgPrice (Client.post_order v o))
       = Client.order_price o.

(** The bankroll holds no negative amount of capital or shares. *)
Definition sound (st : state) : Prop :=
  0 <= _available_capital st
  /\ map_Forall (fun _ p => 0 <= shares p) (_active_positions st).

(** The available capital along a trajectory. *)
Definition capitals (r : result (list state)) : option (list Q) :=
  match r with
  | Ok sts => Some (map _available_capital sts)
  | Raise _ => None
  end.

End Bankroll.

(* ===================================================================== *)
(** ** Concrete inputs: impulse, fills, risk halt *)
(* ===================================================================== *)

Module ImpulseScenario.
Import ExchangeBase.

Definition tick (t : datetime) (p : Q) : PriceUpdate :=
  mkPriceUpdate "Binance" "BTCUSDT" p p p 0 t.

(** BTC at 100 at time 0 and at 103 fifty seconds later. *)
Definition aggregator : Aggregator.t :=
  {| Aggregator._exchanges :=
       [Aggregator.mkExchange "Binance"
          (<["BTCUSDT" := [tick 0 100; tick 50000 103; tick 120000 (1035 # 10)]]> ∅)];
     Aggregator._price_history :=
       <["BTCUSDT" := [Aggregator.mkEntry 0 "Binance" 100;
                       Aggregator.mkEntry 50000 "Binance" 103]]> ∅;
     Aggregator._impulse_threshold := 2 # 100;
     Aggregator._impulse_window_ms := 60000;
     Aggregator._history_size := 1000 |}.

(** Two minutes in, BTC is at 103.5. *)
Definition update : PriceUpdate := tick 120000 (1035 # 10).

(** The history the check reads: the two earlier entries and the update. *)
Definition history : list Aggregator.entry :=
  default [] (Aggregator._price_history
                (fst (Aggregator._on_price_update aggregator update)) !! "BTCUSDT").

End ImpulseScenario.

Module FillScenario.

(** The market of scenario S2, once resolved. *)
Definition resolved_market : Client.market_data :=
  {| Client.id := "market";
     Client.question := "Will BTC close above 100k?";
     Client.clobTokenIds := ["yes-token"; "no-token"]%string;
     Client.outcomes := ["Yes"; "No"]%string;
     Client.outcomePrices := [1; 0];
     Client.endDate := None;
     Client.resolved := true |}.

(** A venue that fills half of every order, at the limit price. *)
Definition half_filling : Client.venue :=
  {| Client.market_of := fun _ => resolved_market;
     Client.book_of := fun _ => Client.mkRawBook [] [];
     Client.post_order := fun o =>
       Client.mkReply (Some "order-1"%string) (Some "partial"%string)
         (Some (Client.order_size o / 2)) (Some (Client.order_price o));
     Client.positions_of := [] |}.

(** A venue that fills every order in full, at the limit price. *)
Definition full_filling : Client.venue :=
  {| Client.market_of := fun _ => resolved_market;
     Client.book_of := fun _ => Client.mkRawBook [] [];
     Client.post_order := fun o =>
       Client.mkReply (Some "order-1"%string) (Some "filled"%string)
         (Some (Client.order_size o)) (Some (Client.order_price o));
     Client.positions_of := [] |}.

(** Scenario S2 as a signal: 14000/97 shares of Yes at 0.97. *)
Definition snipe : NearResolved.signal :=
  StrategyBase.mkSignal NearResolved.name StrategyBase.BUY "market" "yes-token" "Yes"
    (97 # 100) (14000 # 97) (97 # 100) (3 # 100)
    (NearResolved.mkMeta "Will BTC close above 100k?" (97 # 100) (3 # 100) None).

Definition bankroll : NearResolved.state :=
  NearResolved.set_capital NearResolved.init 1000.

Definition accept_all : NearResolved.signal -> bool := fun _ => true.

End FillScenario.

Module RiskScenario.

(** Scenario S6: the first iteration loses 501 dollars against a limit of
    500; two more iterations would follow. *)
Definition losing : Bot.tick :=
  Bot.mkTick false false [Bot.returned 1 1 (-501)].

Definition quiet : Bot.tick :=
  Bot.mkTick false false [Bot.returned 0 0 0].

Definition ticks : list Bot.tick := [losing; quiet; quiet].

End RiskScenario.


(* ===================================================================== *)
(** ** polymarket/orderbook.py: the live book *)
(* ===================================================================== *)

Module BookOps.
Import OrderBook.

(** [sum(level.size for level in levels)]. *)
Definition depth (levels : list OrderLevel) : Q :=
  fold_left (fun acc level => acc + size level) levels 0.

Definition bid_depth (s : OrderBookSnapshot) : Q := depth (bids s).
Definition ask_depth (s : OrderBookSnapshot) : Q := depth (asks s).

(** [OrderBookSnapshot.imbalance]. *)
Definition imbalance (s : OrderBookSnapshot) : result Q :=
  let total := bid_depth s + ask_depth s in
  if eq total 0 then Ok 0
  else truediv (bid_depth s - ask_depth s) total.

(** The price-keyed dictionaries of the book, as the list of their
    values: [d[price] = level] replaces the level stored under an equal
    price where it stands, or adds the level at the end. *)
Fixpoint dict_set (p : Q) (level : OrderLevel) (d : list OrderLevel) : list OrderLevel :=
  match d with
  | [] => [level]
  | l :: rest => if eq (price l) p then level :: rest else l :: dict_set p level rest
  end.

(** [d.pop(price, None)]. *)
Fixpoint dict_pop (p : Q) (d : list OrderLevel) : list OrderLevel :=
  match d with
  | [] => []
  | l :: rest => if eq (price l) p then rest else l :: dict_pop p rest
  end.

(** [d.get(price)], read as the size stored there. *)
Fixpoint size_at (p : Q) (d : list OrderLevel) : option Q :=
  match d with
  | [] => None
  | l :: rest => if eq (price l) p then Some (size l) else size_at p rest
  end.

(** One entry [{price, size}] of a [book] message, after [float(...)]:
    size 0 deletes the level. *)
Definition apply_entry (d : list OrderLevel) (entry : Q * Q) : list OrderLevel :=
  let '(p, s) := entry in
  if eq s 0 then dict_pop p d else dict_set p (mkLevel p s 1) d.

(** One side of [_update_book]. *)
Definition apply_side (d : list OrderLevel) (entries : list (Q * Q)) : list OrderLevel :=
  fold_left apply_entry entries d.

(** [_update_book]: the book after the message and the snapshot handed to
    the callbacks. *)
Definition _update_book (bk : book) (bid_entries ask_entries : list (Q * Q))
    (now : datetime) : book * OrderBookSnapshot :=
  let bk' := mkBook (book_token bk) (apply_side (_bids bk) bid_entries)
                    (apply_side (_asks bk) ask_entries) now in
  (bk', get_snapshot bk').

(** No two levels of a side are stored under equal prices. *)
Definition distinct_prices (d : list OrderLevel) : Prop :=
  ForallOrdPairs (fun a b => ~ price a == price b) d.

(** The loop of [get_price_impact], from [(remaining, total_cost)]. *)
Fixpoint fill_levels (levels : list OrderLevel) (remaining total_cost : Q) : Q * Q :=
  match levels with
  | [] => (remaining, total_cost)
  | level :: rest =>
      let fill_size := min remaining (size level) in
      let total_cost := total_cost + fill_size * price level in
      let remaining := remaining - fill_size in
      if le remaining 0 then (remaining, total_cost)
      else fill_levels rest remaining total_cost
  end.

(** [get_price_impact]: [(avg_fill_price, price_impact_pct)].  On the
    machine: [Binary64.get_price_impact]. *)
Definition get_price_impact (bk : book) (side : string) (order_size : Q)
  : result (Q * Q) :=
  let snapshot := get_snapshot bk in
  let levels := if String.eqb side "BUY" then asks snapshot else bids snapshot in
  match levels with
  | [] => Ok (0, 0)
  | touch :: _ =>
      let '(remaining, total_cost) := fill_levels levels order_size 0 in
      if le (order_size - remaining) 0 then Ok (price touch, 0)
      else
        avg_price ← truediv total_cost (order_size - remaining);
        impact ← truediv (abs (avg_price - price touch)) (price touch);
        Ok (avg_price, impact)
  end.

(** [detect_spread_opportunity]: bid, ask, spread, spread_pct, mid and
    potential profit. *)
Definition detect_spread_opportunity (bk : book) (min_spread : Q)
  : result (option (Q * Q * Q * Q * Q * Q)) :=
  let snapshot := get_snapshot bk in
  pct ← spread_pct snapshot;
  if ge pct min_spread
  then Ok (Some (best_bid snapshot, best_ask snapshot, spread snapshot, pct,
                 mid_price snapshot, spread snapshot * (5 # 10)))
  else Ok None.

End BookOps.


(* ===================================================================== *)
(** ** polymarket/client.py: market orders and the near-resolved search *)
(* ===================================================================== *)

Module ClientOps.

Section client.
Variable dry_run : bool.
Variable v : Client.venue.
Variable now : datetime.

(** [place_market_order]: a fill-or-kill order at the best ask for a buy
    and at the best bid for a sell. *)
Definition place_market_order (token : string) (sd : Client.order_side) (size : Q)
  : result Client.OrderResponse :=
  prices ← Client.get_price (Client.book_of v token);
  let price := match sd with
               | Client.BUY => Client.ask prices
               | Client.SELL => Client.bid prices
               end in
  Ok (Client.place_order dry_run v now token sd price size Client.FOK).

(** The body of the inner loop of [find_near_resolved_markets]: the
    entry for token number [i] of the market, if its mid price lies in
    the band. *)
Definition near_resolved_entry (min_probability max_probability : Q)
    (market : Client.market_data) (i : nat) (token : string)
  : list NearResolved.opportunity :=
  match Client.get_price (Client.book_of v token) with
  | Ok prices =>
      let mid_price := Client.mid prices in
      if le min_probability mid_price && le mid_price max_probability
      then [ {| NearResolved.opp_market_id := Client.id market;
                NearResolved.opp_question := Client.question market;
                NearResolved.opp_outcome :=
                  nth i (Client.outcomes market) "Unknown"%string;
                NearResolved.opp_token_id := token;
                NearResolved.probability := mid_price;
                NearResolved.potential_yield := 1 - mid_price;
                NearResolved.end_date := Client.endDate market |} ]
      else []
  | Raise _ => []
  end.

(** [find_near_resolved_markets], over the markets that
    [get_bitcoin_markets] returned: highest yield first. *)
Definition find_near_resolved_markets (markets : list Client.market_data)
    (min_probability max_probability : Q) : list NearResolved.opportunity :=
  sorted_reverse NearResolved.potential_yield
    (concat (map (fun market =>
                    concat (imap (near_resolved_entry min_probability max_probability market)
                                 (Client.clobTokenIds market)))
                 markets)).

End client.

End ClientOps.

(* ===================================================================== *)
(** ** polymarket/client.py: requests that can fail *)
(* ===================================================================== *)

Module Live.

(** A number of a reply, before [float(...)] reads it: the key may be
    missing, and what is stored under it may be no number (a null). *)
Inductive field : Type :=
| Missing
| Number (q : Q)
| Null.

(** One entry of the [positions] list of [GET /positions], as the
    dictionary it is: any key may be missing. *)
Record row : Type := mkRow {
  marketId : option string;
  tokenId : option string;
  side : option string;
  size : field;
  avgPrice : field
}.

(** [d[key]]: a missing key raises. *)
Definition item {A} (entry : option A) : result A :=
  match entry with
  | Some a => Ok a
  | None => Raise KeyError
  end.

(** [float(d.get(key, dflt))]: a missing key reads as the default, and
    what is no number raises. *)
Definition float_of (dflt : Q) (entry : field) : result Q :=
  match entry with
  | Missing => Ok dflt
  | Number q => Ok q
  | Null => Raise TypeError
  end.

(** The number [float_of] returns, when it returns. *)
Definition number_or (dflt : Q) (entry : field) : Q :=
  match entry with
  | Number q => q
  | _ => dflt
  end.

(** What each request to the venue comes to: the reply, or the exception
    that [_request] raised ([raise_for_status], a failed connection); for
    a book and for an order, also the exception that [float(...)] raised
    on a price or a size of the reply that is no number. *)
Record venue : Type := mkVenue {
  book_of : string -> result Client.raw_book;
  post_order : Client.order_data -> result Client.order_reply;
  positions_of : result (list row)
}.

(** A venue that answers every request. *)
Definition answering (v : Client.venue) : venue :=
  {| book_of := fun token => Ok (Client.book_of v token);
     post_order := fun o => Ok (Client.post_order v o);
     positions_of :=
       Ok (map (fun r => mkRow (Some (Client.row_marketId r))
                               (Some (Client.row_tokenId r))
                               (Some (Client.row_side r))
                               (Number (Client.row_size r))
                               (Number (Client.row_avgPrice r)))
               (Client.positions_of v)) |}.

Section client.
Variable dry_run : bool.
Variable v : venue.
Variable now : datetime.

(** [place_order]: the dry run makes the fill up and sends nothing. *)
Definition place_order (token : string) (sd : Client.order_side) (price size : Q)
    (ty : Client.order_type) : result Client.OrderResponse :=
  if dry_run then
    Ok {| Client.order_id := Client.dry_run_id (now / 1000)%Z;
          Client.status := "simulated";
          Client.filled_amount := size;
          Client.avg_price := price;
          Client.response_time := now |}
  else
    response ← post_order v (Client.mkOrder token sd price size ty);
    Ok {| Client.order_id :=
            Client.venue_id (default ""%string (Client.orderID response));
          Client.status := default "unknown"%string (Client.reply_status response);
          Client.filled_amount := default 0 (Client.filledSize response);
          Client.avg_price := default price (Client.avgPrice response);
          Client.response_time := now |}.

(** The orders [place_order] sends to the venue. *)
Definition posted (token : string) (sd : Client.order_side) (price size : Q)
    (ty : Client.order_type) : list Client.order_data :=
  if dry_run then [] else [Client.mkOrder token sd price size ty].

(** [get_price]: the book is requested, then read. *)
Definition get_price (token : string) : result Client.quote :=
  orderbook ← book_of v token;
  Client.get_price orderbook.

(** The body of the loop of [get_positions].  [pos['tokenId']] and
    [pos['side']] are read as items; every other key has a default. *)
Definition position_of_row (pos : row) : result Client.Position :=
  token ← item (tokenId pos);
  prices ← get_price token;
  let current_price := Client.mid prices in
  entry_price ← float_of 0 (avgPrice pos);
  sz ← float_of 0 (size pos);
  sd ← item (side pos);
  let pnl := if String.eqb sd "YES"
             then (current_price - entry_price) * sz
             else (entry_price - current_price) * sz in
  Ok {| Client.pos_market_id := default ""%string (marketId pos);
        Client.pos_token_id := token;
        Client.pos_side := default "YES"%string (side pos);
        Client.pos_size := sz;
        Client.avg_entry_price := entry_price;
        Client.current_price := current_price;
        Client.unrealized_pnl := pnl |}.

Definition get_positions : result (list Client.Position) :=
  if dry_run then Ok []
  else
    rows ← positions_of v;
    mapM position_of_row rows.

(** [get_position]: the first position held on the token. *)
Definition get_position (token : string) : result (option Client.Position) :=
  positions ← get_positions;
  Ok (List.find (fun pos => String.eqb (Client.pos_token_id pos) token) positions).

End client.

(** A row that [get_positions] can read: it names its token and its side,
    the book of the token is answered, and its size and entry price, if
    it has them, are numbers. *)
Definition readable (v : venue) (pos : row) : Prop :=
  exists token sd orderbook,
    tokenId pos = Some token /\ side pos = Some sd
    /\ book_of v token = Ok orderbook
    /\ size pos <> Null /\ avgPrice pos <> Null.

(** What a row and the position read from it have in common. *)
Definition position_of (v : venue) (pos : row) (p : Client.Position) : Prop :=
  exists prices,
    get_price v (Client.pos_token_id p) = Ok prices
    /\ tokenId pos = Some (Client.pos_token_id p)
    /\ side pos = Some (Client.pos_side p)
    /\ Client.pos_market_id p = default ""%string (marketId pos)
    /\ Client.pos_size p = number_or 0 (size pos)
    /\ Client.avg_entry_price p = number_or 0 (avgPrice pos)
    /\ Client.current_price p = Client.mid prices
    /\ Client.unrealized_pnl p
       = if String.eqb (Client.pos_side p) "YES"
         then (Client.mid prices - Client.avg_entry_price p) * Client.pos_size p
         else (Client.avg_entry_price p - Client.mid prices) * Client.pos_size p.

End Live.

(* ===================================================================== *)
(** ** strategies/near_resolved.py: closing, the sweep, the summary *)
(* ===================================================================== *)

Module SnipeOps.
Import NearResolved.

Section ops.
Variable validate_signal : signal -> bool.
Variable dry_run : bool.
Variable v : Client.venue.
Variable now : datetime.

(** [status in ['filled', 'simulated']]. *)
Definition sold (status : string) : bool :=
  String.eqb status "filled" || String.eqb status "simulated".

(** [close_position]: the position is sold at market. *)
Definition close_position (st : state) (market_id : string)
  : result (state * StrategyBase.StrategyResult) :=
  match _active_positions st !! market_id with
  | None => Ok (st, StrategyBase.mkResult name false 0 0 0 ["Position not found"%string])
  | Some position =>
      order ← ClientOps.place_market_order dry_run v now
                 (pos_token_id position) Client.SELL (shares position);
      if sold (Client.status order) then
        let proceeds := Client.filled_amount order * Client.avg_price order in
        let profit := proceeds - cost position in
        Ok ({| _available_capital := _available_capital st + proceeds;
               _active_positions := delete market_id (_active_positions st);
               _total_invested := _total_invested st;
               _total_returned := _total_returned st + proceeds |},
            StrategyBase.mkResult name true profit 1 0 [])
      else
        Ok (st, StrategyBase.mkResult name false 0 0 0 ["Sell order failed"%string])
  end.

(** What the compounding loop does to the bankroll: it executes a signal,
    sweeps one market for its resolution, or closes a position. *)
Inductive action : Type :=
| Open (sg : signal)
| Sweep (market_id : string)
| Close (market_id : string).

Definition act (st : state) (a : action) : result state :=
  match a with
  | Open sg => r ← execute validate_signal dry_run v now st sg; Ok (fst r)
  | Sweep market_id => Ok (fst (resolve v st market_id))
  | Close market_id => r ← close_position st market_id; Ok (fst r)
  end.

Fixpoint run (st : state) (actions : list action) : result state :=
  match actions with
  | [] => Ok st
  | a :: rest => st' ← act st a; run st' rest
  end.

End ops.

End SnipeOps.


(* ===================================================================== *)
(** ** strategies/compounding.py: sizing and performance ratios *)
(* ===================================================================== *)

Module CompoundingOps.
Import Compounding.

(** [calculate_compound_size]: half of the Kelly fraction of the current
    capital, capped at [max_position_pct]. *)
Definition calculate_compound_size (max_position_pct : Q) (l : ledger)
    (confidence expected_profit : Q) : result Q :=
  if le (_current_capital l) 0 then Ok 0
  else
    let p := confidence in
    let q := 1 - p in
    let b := if gt expected_profit 0 then expected_profit / 1 else 1 # 100 in
    kelly ← (if gt b 0 then truediv (p * b - q) b else Ok 0);
    let kelly_fraction := max 0 (kelly * (5 # 10)) in
    let position_pct := min kelly_fraction max_position_pct in
    Ok (_current_capital l * position_pct).






(** What [scan] meets at one sub-strategy: whether it is enabled and what
    its own [scan] answers. *)
Record sub_strategy (M : Type) : Type := mkSub {
  enabled : bool;
  scanned : result (list (StrategyBase.TradeSignal M))
}.
Arguments mkSub {M}.
Arguments enabled {M}.
Arguments scanned {M}.

Section scan.
Context {M : Type}.
Variable min_certainty max_position_pct : Q.
Variable l : ledger.

(** The inner loop of [scan]: the signals of one sub-strategy that are
    certain enough, resized; an exception ends the loop and keeps what
    was appended before. *)
Fixpoint keep (signals : list (StrategyBase.TradeSignal M))
  : list (StrategyBase.TradeSignal M) :=
  match signals with
  | [] => []
  | sg :: rest =>
      if ge (StrategyBase.confidence sg) min_certainty then
        match calculate_compound_size max_position_pct l
                (StrategyBase.confidence sg) (StrategyBase.expected_profit_pct sg) with
        | Ok sz =>
            if gt sz 0 then StrategyBase.set_size sg sz :: keep rest else keep rest
        | Raise _ => []
        end
      else keep rest
  end.

(** One sub-strategy of the outer loop. *)
Definition scan_strategy (sub : sub_strategy M) : list (StrategyBase.TradeSignal M) :=
  if enabled sub then
    match scanned sub with
    | Ok signals => keep signals
    | Raise _ => []
    end
  else [].

(** [scan]: highest expected value first. *)
Definition scan (strategies : list (sub_strategy M))
  : list (StrategyBase.TradeSignal M) :=
  sorted_reverse
    (fun s => StrategyBase.confidence s * StrategyBase.expected_profit_pct s)
    (concat (map scan_strategy strategies)).

End scan.

End CompoundingOps.

(* ===================================================================== *)
(** ** exchanges/binance.py: the other stream handlers, reconnection *)
(* ===================================================================== *)

Module BinanceOps.
Import ExchangeBase.



(** The reconnect delay after one more failed connection, in seconds:
    [min(self._reconnect_delay * 2, 60)]. *)
Definition next_delay (delay : Z) : Z := Z.min (delay * 2) 60.

(** The delay slept after the [n]-th failure in a row since the last
    successful connect, which resets it to 1. *)
Fixpoint delay_after (failures : nat) : Z :=
  match failures with
  | O => 1
  | S n => next_delay (delay_after n)
  end.





End BinanceOps.


(* ===================================================================== *)
(** ** polymarket/orderbook.py: the volume-weighted price *)
(* ===================================================================== *)

Module BookVwap.
Import OrderBook.

(** The loop of [get_vwap], from [(total_volume, total_value)]: the level
    that would take the value over [depth] is taken in part, and ends the
    walk. *)
Fixpoint vwap_levels (levels : list OrderLevel) (depth total_volume total_value : Q)
  : result (Q * Q) :=
  match levels with
  | [] => Ok (total_volume, total_value)
  | level :: rest =>
      let level_value := price level * size level in
      if gt (total_value + level_value) depth then
        let remaining_value := depth - total_value in
        remaining_volume ← truediv remaining_value (price level);
        Ok (total_volume + remaining_volume, depth)
      else
        vwap_levels rest depth (total_volume + size level) (total_value + level_value)
  end.

(** [get_vwap].  On the machine: [Binary64.get_vwap]. *)
Definition get_vwap (bk : book) (side : string) (depth : Q) : result Q :=
  let snapshot := get_snapshot bk in
  let levels := if String.eqb side "BUY" then asks snapshot else bids snapshot in
  walked ← vwap_levels levels depth 0 0;
  let '(total_volume, total_value) := walked in
  if gt total_volume 0 then truediv total_value total_volume else Ok 0.

End BookVwap.

(* ===================================================================== *)
(** ** exchanges/aggregator.py: prices across exchanges *)
(* ===================================================================== *)

Module AggregatorOps.
Import ExchangeBase.

(** [d[name] = update] on [AggregatedPrice.exchanges], a dictionary kept
    in insertion order. *)
Fixpoint dict_set (name : string) (update : PriceUpdate)
    (d : list (string * PriceUpdate)) : list (string * PriceUpdate) :=
  match d with
  | [] => [(name, update)]
  | (k, u) :: rest =>
      if String.eqb k name then (k, update) :: rest
      else (k, u) :: dict_set name update rest
  end.

Record AggregatedPrice : Type := mkAggregated {
  agg_symbol : string;
  agg_timestamp : datetime;
  exchanges : list (string * PriceUpdate)
}.

(** [max(items, key=key)] and [min(items, key=key)] on a non-empty
    sequence: the first extreme item wins. *)
Fixpoint max_by {A} (key : A -> Q) (best : A) (l : list A) : A :=
  match l with
  | [] => best
  | x :: rest => max_by key (if gt (key x) (key best) then x else best) rest
  end.

Fixpoint min_by {A} (key : A -> Q) (best : A) (l : list A) : A :=
  match l with
  | [] => best
  | x :: rest => min_by key (if lt (key x) (key best) then x else best) rest
  end.

(** [max(prices)] and [min(prices)]. *)
Definition max_of (first : Q) (rest : list Q) : Q := fold_left max rest first.
Definition min_of (first : Q) (rest : list Q) : Q := fold_left min rest first.

(** [avg_price]: the divisor is the number of exchanges, not zero in
    the branch that divides. *)
Definition avg_price (a : AggregatedPrice) : Q :=
  match exchanges a with
  | [] => 0
  | _ :: _ =>
      fold_left (fun acc x => acc + price (snd x)) (exchanges a) 0
      / inject_Z (Z.of_nat (length (exchanges a)))
  end.

(** [best_bid]: [(0, None)] without exchanges. *)
Definition best_bid (a : AggregatedPrice) : Q * option string :=
  match exchanges a with
  | [] => (0, None)
  | first :: rest =>
      let best := max_by (fun x => bid (snd x)) first rest in
      (bid (snd best), Some (fst best))
  end.

(** [best_ask]: [(float('inf'), None)] without exchanges, which is [None]
    here. *)
Definition best_ask (a : AggregatedPrice) : option (Q * string) :=
  match exchanges a with
  | [] => None
  | first :: rest =>
      let best := min_by (fun x => ask (snd x)) first rest in
      Some (ask (snd best), fst best)
  end.

(** [price_spread]. *)
Definition price_spread (a : AggregatedPrice) : Q :=
  match map (fun x => price (snd x)) (exchanges a) with
  | [] | [_] => 0
  | first :: rest => max_of first rest - min_of first rest
  end.

(** [spread_pct]. *)
Definition spread_pct (a : AggregatedPrice) : result Q :=
  let avg := avg_price a in
  if eq avg 0 then Ok 0 else truediv (price_spread a) avg.

(** The dictionary handed to the arbitrage callbacks. *)
Record opportunity : Type := mkOpportunity {
  buy_exchange : string;
  buy_price : Q;
  sell_exchange : string;
  sell_price : Q;
  profit_pct : Q;
  opp_timestamp : datetime
}.



End AggregatorOps.

(* ===================================================================== *)
(** ** strategies/spread_trading.py: quoting *)
(* ===================================================================== *)

Module SpreadOps.
Import StrategyBase.

Definition name : string := "SpreadTrading".

Record signal_metadata : Type := mkMeta {
  current_bid : Q;
  current_ask : Q;
  our_bid : Q;
  our_ask : Q;
  our_spread : Q;
  meta_question : string
}.

Abbreviation signal := (TradeSignal signal_metadata).

(** One entry of [_active_orders]. *)
Record active_orders : Type := mkActive {
  active_token : string;
  bid_order : Client.order_id_t;
  ask_order : Client.order_id_t;
  bid_price : Q;
  ask_price : Q;
  bid_size : Q;
  ask_size : Q;
  active_time : datetime
}.

Section strategy.
Variable cfg : SpreadTrading.params.

(** The body of the inner loop of [scan], from the quote of the token. *)
Definition quote_signal (market : Client.market_data) (token : string)
    (prices : Client.quote) : result (list signal) :=
  let spread_pct := Client.spread_pct prices in
  if ge spread_pct (SpreadTrading.min_spread cfg) then
    let current_bid := Client.bid prices in
    let current_ask := Client.ask prices in
    let mid := Client.mid prices in
    let our_bid := current_bid + (1 # 1000) in
    let our_ask := current_ask - (1 # 1000) in
    let our_spread := our_ask - our_bid in
    if ge our_spread (SpreadTrading.min_spread cfg * mid) then
      ratio ← truediv spread_pct (SpreadTrading.min_spread cfg);
      profit ← truediv our_spread mid;
      Ok [ {| strategy_name := name;
              signal_type := BUY;
              market_id := Client.id market;
              token_id := token;
              side := "BOTH";
              price := mid;
              size := SpreadTrading.order_size cfg;
              confidence := min (8 # 10) (ratio / 2);
              expected_profit_pct := profit;
              metadata := {| current_bid := current_bid;
                             current_ask := current_ask;
                             our_bid := our_bid;
                             our_ask := our_ask;
                             our_spread := our_spread;
                             meta_question := Client.question market |} |} ]
    else Ok []
  else Ok [].

(** One token of a market: an exception inside the [try] is logged and
    yields nothing. *)
Definition scan_token (v : Client.venue) (market : Client.market_data) (token : string)
  : list signal :=
  match (prices ← Client.get_price (Client.book_of v token);
         quote_signal market token prices) with
  | Ok sigs => sigs
  | Raise _ => []
  end.

(** [scan], over the markets that [get_bitcoin_markets] returned. *)
Definition scan (v : Client.venue) (markets : list Client.market_data) : list signal :=
  concat (map (fun market =>
                 concat (map (scan_token v market) (Client.clobTokenIds market)))
              markets).

(** [execute]: the orders the venue has answered, the entry filed in
    [_active_orders], if any, and the result.  [str] is the text of an
    exception.  An exception of either placement leaves the [try]: nothing
    is filed, whatever the venue has taken by then. *)
Definition execute (validate_signal : signal -> bool) (dry_run : bool)
    (v : Live.venue) (now : datetime) (str : exn -> string)
    (_inventory : gmap string SpreadTrading.inventory) (sg : signal)
  : list Client.order_data * option active_orders * StrategyResult :=
  if negb (validate_signal sg) then
    ([], None, mkResult name false 0 0 1 ["Invalid signal"%string])
  else
    match SpreadTrading.execute_sizes cfg _inventory (token_id sg) (size sg) with
    | Raise e => ([], None, mkResult name false 0 0 1 [str e])
    | Ok (bid_size, ask_size) =>
        match Live.place_order dry_run v now (token_id sg) Client.BUY
                (our_bid (metadata sg)) bid_size Client.GTC with
        | Raise e => ([], None, mkResult name false 0 0 1 [str e])
        | Ok bid_order =>
            let answered :=
              Live.posted dry_run (token_id sg) Client.BUY
                (our_bid (metadata sg)) bid_size Client.GTC in
            match Live.place_order dry_run v now (token_id sg) Client.SELL
                    (our_ask (metadata sg)) ask_size Client.GTC with
            | Raise e => (answered, None, mkResult name false 0 0 1 [str e])
            | Ok ask_order =>
                (answered
                 ++ Live.posted dry_run (token_id sg) Client.SELL
                      (our_ask (metadata sg)) ask_size Client.GTC,
                 Some {| active_token := token_id sg;
                         bid_order := Client.order_id bid_order;
                         ask_order := Client.order_id ask_order;
                         bid_price := our_bid (metadata sg);
                         ask_price := our_ask (metadata sg);
                         bid_size := bid_size;
                         ask_size := ask_size;
                         active_time := now |},
                 mkResult name true 0 2 1 [])
            end
        end
    end.

End strategy.

End SpreadOps.

(* ===================================================================== *)
(** ** strategies/yes_no_arbitrage.py: execution *)
(* ===================================================================== *)

Module ArbitrageOps.
Import StrategyBase YesNoArbitrage.

(** One entry of [_active_arbs]. *)
Record active_arb : Type := mkArb {
  arb_market_id : string;
  yes_shares : Q;
  no_shares : Q;
  arb_total_cost : Q;
  expected_return : Q;
  expected_profit : Q;
  arb_time : datetime
}.

(** [status in ['filled', 'simulated']]. *)
Definition filled (status : string) : bool :=
  String.eqb status "filled" || String.eqb status "simulated".

(** A metadata entry used as a number: a missing entry is [None], which
    no arithmetic accepts. *)
Definition number (entry : option value) : result Q :=
  match entry with
  | Some (Num q) => Ok q
  | _ => Raise TypeError
  end.

Section execute.
Variable cfg : params.
(** [validate_signal] is inherited from the base class, which is not among
    the sources; [str] is the text of an exception and [format] the text an
    f-string gives a value. *)
Variable validate_signal : signal -> bool.
Variable dry_run : bool.
Variable v : Client.venue.
Variable now : datetime.
Variable str : exn -> string.
Variable format : option value -> string.
(** What the venue answers to an order that carries no price. *)
Variable post_unpriced :
  string -> Client.order_side -> Q -> Client.order_type -> Client.order_reply.

Definition failure (errors : list string) : StrategyResult :=
  mkResult name false 0 0 1 errors.

(** [_execute_buy_both].  On the machine the pairs and their cost are
    [Binary64.pairs_to_buy] and [Binary64.pair_cost]. *)
Definition _execute_buy_both (_active_arbs : list active_arb) (sg : signal)
  : result (list active_arb * StrategyResult) :=
  let yes_token := text (get (metadata sg) "yes_token" (Str "")) in
  let no_token := text (get (metadata sg) "no_token" (Str "")) in
  yes_price ← number (metadata sg !! "yes_price");
  no_price ← number (metadata sg !! "no_price");
  max_pairs ← truediv (max_position cfg) (yes_price + no_price);
  let pairs_to_buy := min (size sg) max_pairs in
  let yes_order :=
    Client.place_order dry_run v now yes_token Client.BUY yes_price pairs_to_buy
      Client.FOK in
  let no_order :=
    Client.place_order dry_run v now no_token Client.BUY no_price pairs_to_buy
      Client.FOK in
  if filled (Client.status yes_order) && filled (Client.status no_order) then
    let yes_cost := Client.filled_amount yes_order * Client.avg_price yes_order in
    let no_cost := Client.filled_amount no_order * Client.avg_price no_order in
    let total_cost := yes_cost + no_cost in
    let min_filled :=
      min (Client.filled_amount yes_order) (Client.filled_amount no_order) in
    let guaranteed_return := min_filled in
    let profit := guaranteed_return - total_cost in
    Ok (_active_arbs ++ [ {| arb_market_id := market_id sg;
                             yes_shares := Client.filled_amount yes_order;
                             no_shares := Client.filled_amount no_order;
                             arb_total_cost := total_cost;
                             expected_return := guaranteed_return;
                             expected_profit := profit;
                             arb_time := now |} ],
        mkResult name true profit 2 1 [])
  else
    Ok (_active_arbs,
        failure
          ((if filled (Client.status yes_order) then []
            else [("Yes order failed: " ++ Client.status yes_order)%string])
           ++ (if filled (Client.status no_order) then []
               else [("No order failed: " ++ Client.status no_order)%string]))).

(** [pos.token_id == yes_token], the token being a metadata entry: a
    missing entry is [None] and equals no token. *)
Definition is_token (entry : option value) (token : string) : bool :=
  match entry with
  | Some (Str s) => String.eqb token s
  | _ => false
  end.

(** The loop of [_execute_sell_both] over the positions: the last
    position on each token; a position on the Yes token is never taken for
    the No side. *)
Fixpoint held (positions : list Client.Position) (yes_token no_token : option value)
    (yes_pos no_pos : option Client.Position)
  : option Client.Position * option Client.Position :=
  match positions with
  | [] => (yes_pos, no_pos)
  | pos :: rest =>
      if is_token yes_token (Client.pos_token_id pos)
      then held rest yes_token no_token (Some pos) no_pos
      else if is_token no_token (Client.pos_token_id pos)
      then held rest yes_token no_token yes_pos (Some pos)
      else held rest yes_token no_token yes_pos no_pos
  end.

(** [arb_type == 'BUY_BOTH']. *)
Definition is_type (entry : option value) (wanted : string) : bool :=
  match entry with
  | Some (Str s) => String.eqb s wanted
  | _ => false
  end.

(** [place_order] handed a metadata entry for its price.  A missing entry
    is [None]: the dry run raises where it logs the price with [:.4f];
    live, the order goes out with the text of [None] for a price, the
    venue answers with [post_unpriced], and the fill price is read from
    the reply, [float(None)] raising when the reply has none.  A text
    entry, which no producer of signals stores, is read as a missing
    one. *)
Definition place_order_at (token : string) (sd : Client.order_side)
    (price : option value) (sz : Q) (ty : Client.order_type)
  : result Client.OrderResponse :=
  match price with
  | Some (Num p) => Ok (Client.place_order dry_run v now token sd p sz ty)
  | _ =>
      if dry_run then Raise TypeError
      else
        let response := post_unpriced token sd sz ty in
        match Client.avgPrice response with
        | Some avg =>
            Ok {| Client.order_id :=
                    Client.venue_id (default ""%string (Client.orderID response));
                  Client.status :=
                    default "unknown"%string (Client.reply_status response);
                  Client.filled_amount := default 0 (Client.filledSize response);
                  Client.avg_price := avg;
                  Client.response_time := now |}
        | None => Raise TypeError
        end
  end.

(** [_execute_sell_both].  The orders are placed on the tokens of the
    signal, which are those of the two positions found. *)
Definition _execute_sell_both (sg : signal) : result StrategyResult :=
  let yes_token := metadata sg !! "yes_token" in
  let no_token := metadata sg !! "no_token" in
  positions ← Client.get_positions dry_run v;
  match held positions yes_token no_token None None with
  | (Some yes_pos, Some no_pos) =>
      let sell_amount := min (Client.pos_size yes_pos) (Client.pos_size no_pos) in
      yes_order ← place_order_at (text (get (metadata sg) "yes_token" (Str "")))
                    Client.SELL (metadata sg !! "yes_price") sell_amount Client.FOK;
      no_order ← place_order_at (text (get (metadata sg) "no_token" (Str "")))
                   Client.SELL (metadata sg !! "no_price") sell_amount Client.FOK;
      if filled (Client.status yes_order) && filled (Client.status no_order) then
        let proceeds :=
          Client.filled_amount yes_order * Client.avg_price yes_order
          + Client.filled_amount no_order * Client.avg_price no_order in
        let profit :=
          proceeds
          - min (Client.filled_amount yes_order) (Client.filled_amount no_order) in
        Ok (mkResult name true profit 2 1 [])
      else Ok (failure ["Sell orders failed"%string])
  | _ => Ok (failure ["No existing positions to sell for SELL_BOTH arb"%string])
  end.

(** [execute]: an exception of either branch becomes a failed result. *)
Definition execute (_active_arbs : list active_arb) (sg : signal)
  : list active_arb * StrategyResult :=
  if negb (validate_signal sg) then (_active_arbs, failure ["Invalid signal"%string])
  else
    let arb_type := metadata sg !! "arb_type" in
    if is_type arb_type "BUY_BOTH" then
      match _execute_buy_both _active_arbs sg with
      | Ok done => done
      | Raise e => (_active_arbs, failure [str e])
      end
    else if is_type arb_type "SELL_BOTH" then
      match _execute_sell_both sg with
      | Ok done => (_active_arbs, done)
      | Raise e => (_active_arbs, failure [str e])
      end
    else
      (_active_arbs, failure [("Unknown arb type: " ++ format arb_type)%string]).

End execute.

End ArbitrageOps.
(* ===================================================================== *)
(** ** strategies/range_coverage.py: execution and resolution *)
(* ===================================================================== *)

Module CoverageOps.
Import StrategyBase RangeCoverage.

(** One entry of [orders_executed]. *)
Record executed : Type := mkExecuted {
  ex_outcome : string;
  ex_token : string;
  ex_shares : Q;
  ex_price : Q;
  ex_cost : Q
}.

(** One entry of [_active_coverages]. *)
Record active_coverage : Type := mkActive {
  orders : list executed;
  active_cost : Q;
  min_shares : Q;
  active_profit : Q;
  active_time : datetime
}.

(** [status in ['filled', 'simulated', 'partial']]. *)
Definition filled (status : string) : bool :=
  String.eqb status "filled" || String.eqb status "simulated"
  || String.eqb status "partial".

(** [min(o['shares'] for o in orders_executed)]. *)
Definition min_of (first : Q) (rest : list Q) : Q := fold_left min rest first.

Section execute.
Variable cfg : params.
(** [validate_signal] is inherited from the base class, which is not among
    the sources; [str] is the text of an exception. *)
Variable validate_signal : signal -> bool.
Variable dry_run : bool.
Variable v : Client.venue.
Variable now : datetime.
Variable str : exn -> string.

(** The body of the loop of [execute]: the order for one outcome.  On
    the machine the shares are [Binary64.shares_to_buy]. *)
Definition buy_outcome (c : coverage) (total_budget : Q) (o : outcome)
  : result (list executed) :=
  weight ← truediv (outcome_price o) (total_cost c);
  let outcome_budget := total_budget * weight in
  shares_to_buy ← truediv outcome_budget (outcome_price o);
  let order :=
    Client.place_order dry_run v now (outcome_token o) Client.BUY (outcome_price o)
      shares_to_buy Client.GTC in
  if filled (Client.status order) then
    let actual_cost := Client.filled_amount order * Client.avg_price order in
    Ok [ {| ex_outcome := outcome_name o;
            ex_token := outcome_token o;
            ex_shares := Client.filled_amount order;
            ex_price := Client.avg_price order;
            ex_cost := actual_cost |} ]
  else Ok [].

(** [execute]: the coverages held afterwards, and the result. *)
Definition execute (_active_coverages : gmap string active_coverage) (sg : signal)
  : gmap string active_coverage * StrategyResult :=
  if negb (validate_signal sg) then
    (_active_coverages, mkResult name false 0 0 1 ["Invalid signal"%string])
  else
    let c := meta_coverage (metadata sg) in
    match covered c with
    | [] => (_active_coverages, mkResult name false 0 0 1 ["No outcomes in coverage"%string])
    | _ :: _ =>
        let total_budget := min (size sg * total_cost c) (max_position cfg) in
        match mapM (buy_outcome c total_budget) (covered c) with
        | Raise e => (_active_coverages, mkResult name false 0 0 1 [str e])
        | Ok bought =>
            match concat bought with
            | [] => (_active_coverages, mkResult name false 0 0 1 ["No orders filled"%string])
            | first :: rest =>
                let orders_executed := first :: rest in
                let total_cost :=
                  fold_left (fun acc o => acc + ex_cost o) orders_executed 0 in
                let min_shares := min_of (ex_shares first) (map ex_shares rest) in
                let expected_profit := min_shares - total_cost in
                (<[market_id sg := {| orders := orders_executed;
                                      active_cost := total_cost;
                                      min_shares := min_shares;
                                      active_profit := expected_profit;
                                      active_time := now |}]> _active_coverages,
                 mkResult name true expected_profit (length orders_executed) 1 [])
            end
        end
    end.

(** One turn of the loop of [check_resolutions], for the coverage held on
    [market_id]. *)
Definition resolve (_active_coverages : gmap string active_coverage)
    (market_id : string)
  : gmap string active_coverage * option StrategyResult :=
  match _active_coverages !! market_id with
  | Some held =>
      if Client.resolved (Client.market_of v market_id) then
        let payout := min_shares held in
        let profit := payout - active_cost held in
        (delete market_id _active_coverages,
         Some (mkResult name true profit 0 0 []))
      else (_active_coverages, None)
  | None => (_active_coverages, None)
  end.

End execute.

End CoverageOps.

(* ===================================================================== *)
(** ** The arithmetic of the machine *)
(* ===================================================================== *)

(** The loop of [_find_optimal_coverage] once more, over any numbers:
    [zero], [add] and [le] stand for [0], [+] and [<=], [price] reads
    [outcome['price']].  [RangeCoverage.greedy_walk] is this loop on the
    rationals, [Binary64.greedy_walk] on the floats of the machine. *)
Module CoverageWalk.

Section walk.
Context {A num : Type}.
Variable zero : num.
Variable add : num -> num -> num.
Variable le : num -> num -> bool.
Variable price : A -> num.
Variable max_total_cost : num.

Fixpoint greedy_walk (outcomes : list A) (chosen : list A) (total : num)
  : list A * num :=
  match outcomes with
  | [] => (chosen, total)
  | o :: rest =>
      if le (price o) zero then greedy_walk rest chosen total
      else
        let potential_cost := add total (price o) in
        if le potential_cost max_total_cost
        then greedy_walk rest (chosen ++ [o]) potential_cost
        else (chosen, total)
  end.

(** The outcomes the loop does not skip. *)
Definition priced (o : A) : bool := negb (le (price o) zero).

(** [coverage['total_cost']] once the outcomes [taken] have been added to
    [total], one after the other. *)
Definition running_total (taken : list A) (total : num) : num :=
  fold_left (fun cost o => add cost (price o)) taken total.

End walk.

End CoverageWalk.

(** Python's floats are the binary64 numbers of the machine.  Where the
    rounding of an operation changes what a formula of the program comes
    to, the formula is repeated here on those numbers, operation by
    operation as the source writes it. *)
Module Binary64.
Local Open Scope float_scope.

Definition le (a b : float) : bool := a <=? b.
Definition lt (a b : float) : bool := a <? b.
Definition gt (a b : float) : bool := b <? a.

(** Built-in [min] on two arguments: the first one wins ties. *)
Definition min (a b : float) : float := if lt b a then b else a.

(** near_resolved.py, [execute]: the size of the order, cut to the
    available capital. *)
Definition snipe_size (available size price : float) : float :=
  let cost := size * price in
  if gt cost available then available / price else size.

(** The capital a dry-run fill of that order leaves: [filled_amount] is
    the size of the order and [avg_price] its price. *)
Definition capital_after_snipe (available size price : float) : float :=
  let filled_amount := snipe_size available size price in
  let actual_cost := filled_amount * price in
  available - actual_cost.

(** range_coverage.py, [_find_optimal_coverage]: the outcomes taken and
    their total cost; an outcome is its name and its price. *)
Definition greedy_walk (max_total_cost : float) (outcomes : list (string * float))
  : list (string * float) * float :=
  CoverageWalk.greedy_walk 0 PrimFloat.add le snd max_total_cost outcomes [] 0.

(** range_coverage.py, [scan]: the profit the gate compares with
    [target_profit]. *)
Definition profit_pct (total_cost : float) : float := (1 - total_cost) / total_cost.

(** range_coverage.py, [execute]: the shares bought of one outcome. *)
Definition shares_to_buy (total_budget total_cost price : float) : float :=
  let weight := price / total_cost in
  let outcome_budget := total_budget * weight in
  outcome_budget / price.

(** client.py, [check_yes_no_arbitrage]: the total the pair is bought
    for. *)
Definition total_buy (yes_ask no_ask : float) : float := yes_ask + no_ask.

(** yes_no_arbitrage.py, [_execute_buy_both]: the pairs bought, and what a
    dry-run fill of the two orders costs. *)
Definition pairs_to_buy (size max_position yes_price no_price : float) : float :=
  min size (max_position / (yes_price + no_price)).

Definition pair_cost (pairs yes_price no_price : float) : float :=
  let yes_cost := pairs * yes_price in
  let no_cost := pairs * no_price in
  yes_cost + no_cost.

(** orderbook.py, [get_price_impact]: the loop over the levels, best
    first, each a price and a size, and the average fill price with its
    impact. *)
Fixpoint fill_levels (levels : list (float * float)) (remaining total_cost : float)
  : float * float :=
  match levels with
  | [] => (remaining, total_cost)
  | (price, size) :: rest =>
      let fill_size := min remaining size in
      let total_cost := total_cost + fill_size * price in
      let remaining := remaining - fill_size in
      if le remaining 0 then (remaining, total_cost)
      else fill_levels rest remaining total_cost
  end.

Definition get_price_impact (levels : list (float * float)) (size : float)
  : float * float :=
  match levels with
  | [] => (0, 0)
  | (best, _) :: _ =>
      let '(remaining, total_cost) := fill_levels levels size 0 in
      if le (size - remaining) 0 then (best, 0)
      else
        let avg_price := total_cost / (size - remaining) in
        (avg_price, PrimFloat.abs (avg_price - best) / best)
  end.

(** orderbook.py, [get_vwap]: the loop over the levels, best first, and
    the price it comes to. *)
Fixpoint vwap_levels (levels : list (float * float))
    (depth total_volume total_value : float) : float * float :=
  match levels with
  | [] => (total_volume, total_value)
  | (price, size) :: rest =>
      let level_value := price * size in
      if gt (total_value + level_value) depth then
        let remaining_value := depth - total_value in
        let remaining_volume := remaining_value / price in
        (total_volume + remaining_volume, depth)
      else vwap_levels rest depth (total_volume + size) (total_value + level_value)
  end.

Definition get_vwap (levels : list (float * float)) (depth : float) : float :=
  let '(total_volume, total_value) := vwap_levels levels depth 0 0 in
  if gt total_volume 0 then total_value / total_volume else 0.

(** near_resolved.py: what a fill of [cost] dollars does to
    [_available_capital] and [_total_invested]. *)
Definition book_cost (counters : float * float) (cost : float) : float * float :=
  let '(available, invested) := counters in
  (available - cost, invested + cost).

End Binary64.

(* ===================================================================== *)
(** ** Concrete inputs: a pair held and sold *)
(* ===================================================================== *)

Module PairSaleScenario.

(** Bids of 0.52 on Yes and 0.50 on No: the pair sells for 1.02. *)
Definition market : Client.market_data :=
  {| Client.id := "market";
     Client.question := "Will BTC close above 100k?";
     Client.clobTokenIds := ["yes-token"; "no-token"]%string;
     Client.outcomes := ["Yes"; "No"]%string;
     Client.outcomePrices := [52 # 100; 50 # 100];
     Client.endDate := None;
     Client.resolved := false |}.

(** A venue that fills every order in full at its limit price, and on
    which a hundred shares of each token are held. *)
Definition venue : Client.venue :=
  {| Client.market_of := fun _ => market;
     Client.book_of := fun token =>
       if String.eqb token "yes-token"
       then Client.mkRawBook [Client.mkRawLevel (52 # 100) 1000] []
       else Client.mkRawBook [Client.mkRawLevel (50 # 100) 1000] [];
     Client.post_order := fun o =>
       Client.mkReply (Some "order-1"%string) (Some "filled"%string)
         (Some (Client.order_size o)) (Some (Client.order_price o));
     Client.positions_of :=
       [ Client.mkRow "market" "yes-token" "YES" 100 (48 # 100);
         Client.mkRow "market" "no-token" "NO" 100 (49 # 100) ] |}.

(** The pair-sale signal on that market. *)
Definition pair_sale : YesNoArbitrage.signal :=
  StrategyBase.mkSignal YesNoArbitrage.name StrategyBase.SELL "market" "yes-token"
    "BOTH" (102 # 100) 100 (95 # 100) (2 # 100)
    (<["arb_type" := Str "SELL_BOTH"]>
     (<["yes_token" := Str "yes-token"]>
     (<["no_token" := Str "no-token"]>
     (<["yes_price" := Num (52 # 100)]>
     (<["no_price" := Num (50 # 100)]> ∅))))).

(** No order of the scenario goes out without a price. *)
Definition post_unpriced (token : string) (sd : Client.order_side) (sz : Q)
    (ty : Client.order_type) : Client.order_reply :=
  Client.mkReply None None None None.

(** The same signal without its two prices. *)
Definition unpriced_sale : YesNoArbitrage.signal :=
  StrategyBase.mkSignal YesNoArbitrage.name StrategyBase.SELL "market" "yes-token"
    "BOTH" (102 # 100) 100 (95 # 100) (2 # 100)
    (<["arb_type" := Str "SELL_BOTH"]>
     (<["yes_token" := Str "yes-token"]>
     (<["no_token" := Str "no-token"]> ∅))).

(** A venue that fills an order without a price at 0.51. *)
Definition filling_unpriced (token : string) (sd : Client.order_side) (sz : Q)
    (ty : Client.order_type) : Client.order_reply :=
  Client.mkReply (Some "order-2"%string) (Some "filled"%string) (Some sz)
    (Some (51 # 100)).

End PairSaleScenario.

(* ===================================================================== *)
(** ** Concrete inputs: where rounding shows *)
(* ===================================================================== *)

Module Rounding.

(** Scenario S3 in the numbers of the machine, highest price first. *)
Definition range_outcomes : list (string * float) :=
  [ ("100k-110k"%string, 0.40%float); ("110k-120k"%string, 0.30%float);
    ("120k-130k"%string, 0.15%float); ("below 100k"%string, 0.10%float);
    ("above 130k"%string, 0.05%float) ].

(** Three outcomes at 0.41, 0.40 and 0.17: 0.98 in all. *)
Definition tight_outcomes : list (string * float) :=
  [ ("low"%string, 0.41%float); ("middle"%string, 0.40%float);
    ("high"%string, 0.17%float) ].

(** Three outcomes at 0.28, 0.27 and 0.25: 0.80 in all, a profit of a
    quarter. *)
Definition quarter_outcomes : list (string * float) :=
  [ ("low"%string, 0.28%float); ("middle"%string, 0.27%float);
    ("high"%string, 0.25%float) ].

(** The three outcomes at 0.41, 0.40 and 0.17, priced in exact
    hundredths. *)
Definition tight_outcomes_exact : list RangeCoverage.outcome :=
  [ RangeCoverage.mkOutcome "low" "t-low" (41 # 100);
    RangeCoverage.mkOutcome "middle" "t-middle" (40 # 100);
    RangeCoverage.mkOutcome "high" "t-high" (17 # 100) ].

End Rounding.

(* ===================================================================== *)
(** ** Predicates the properties are stated with *)
(* ===================================================================== *)

Module Kept.
Import Compounding CompoundingOps.

(** What a signal kept by the compounding scan owes to the answer
    [signals] of the sub-strategy it came from: it is one of those
    signals, certain enough, with the compound size in place of its own. *)
Definition kept_from {M} (min_certainty max_position_pct : Q) (l : ledger)
    (signals : list (StrategyBase.TradeSignal M))
    (sg : StrategyBase.TradeSignal M) : Prop :=
  min_certainty <= StrategyBase.confidence sg
  /\ 0 < StrategyBase.size sg
  /\ StrategyBase.size sg <= _current_capital l * max_position_pct
  /\ exists original,
       In original signals
       /\ sg = StrategyBase.set_size original (StrategyBase.size sg)
       /\ calculate_compound_size max_position_pct l
            (StrategyBase.confidence original)
            (StrategyBase.expected_profit_pct original)
          = Ok (StrategyBase.size sg).

End Kept.

Module Fills.
Import RangeCoverage CoverageOps.

(** The order the dry run of a coverage fills for one outcome: the
    shares asked for, at the listed price. *)
Definition dry_fill (c : coverage) (budget : Q) (o : outcome) : executed :=
  let shares := budget * (outcome_price o / total_cost c) / outcome_price o in
  {| ex_outcome := outcome_name o;
     ex_token := outcome_token o;
     ex_shares := shares;
     ex_price := outcome_price o;
     ex_cost := shares * outcome_price o |}.

End Fills.

Module Quoted.
Import SpreadOps.


End Quoted.

(* ===================================================================== *)
(** * Properties *)
(* ===================================================================== *)

(** ** Comparisons and division *)

Section comparisons.
Implicit Types a b : Q.

Lemma le_true a b : le a b = true <-> a <= b.
Proof. apply Qle_bool_iff. Qed.

Lemma ge_true a b : ge a b = true <-> b <= a.
Proof. apply Qle_bool_iff. Qed.

Lemma lt_true a b : lt a b = true <-> a < b.
Proof.
  unfold lt. rewrite negb_true_iff, <- not_true_iff_false, Qle_bool_iff.
  split; [apply Qnot_le_lt | apply Qlt_not_le].
Qed.

Lemma gt_true a b : gt a b = true <-> b < a.
Proof. apply lt_true. Qed.

Lemma eq_true a b : eq a b = true <-> a == b.
Proof. apply Qeq_bool_iff. Qed.

Lemma le_false a b : le a b = false <-> b < a.
Proof.
  rewrite <- not_true_iff_false, le_true.
  split; [apply Qnot_le_lt | apply Qlt_not_le].
Qed.

Lemma ge_false a b : ge a b = false <-> a < b.
Proof. apply le_false. Qed.

Lemma lt_false a b : lt a b = false <-> b <= a.
Proof.
  rewrite <- not_true_iff_false, lt_true.
  split; [apply Qnot_lt_le | apply Qle_not_lt].
Qed.

Lemma gt_false a b : gt a b = false <-> a <= b.
Proof. apply lt_false. Qed.

Lemma eq_false a b : eq a b = false <-> ~ a == b.
Proof. now rewrite <- not_true_iff_false, eq_true. Qed.

Lemma truediv_ok a b : ~ b == 0 -> truediv a b = Ok (a / b).
Proof. intros H. unfold truediv. now apply eq_false in H as ->. Qed.

Lemma truediv_zero a b : b == 0 -> truediv a b = Raise ZeroDivisionError.
Proof. intros H. unfold truediv. now apply eq_true in H as ->. Qed.

End comparisons.

(** Case analysis on the first comparison met in the goal, keeping the
    fact it decides among the hypotheses. *)
Ltac split_test :=
  match goal with
  | |- context [le ?a ?b] =>
      let H := fresh "Hle" in
      destruct (le a b) eqn:H; [apply le_true in H | apply le_false in H]
  | |- context [ge ?a ?b] =>
      let H := fresh "Hge" in
      destruct (ge a b) eqn:H; [apply ge_true in H | apply ge_false in H]
  | |- context [lt ?a ?b] =>
      let H := fresh "Hlt" in
      destruct (lt a b) eqn:H; [apply lt_true in H | apply lt_false in H]
  | |- context [gt ?a ?b] =>
      let H := fresh "Hgt" in
      destruct (gt a b) eqn:H; [apply gt_true in H | apply gt_false in H]
  | |- context [eq ?a ?b] =>
      let H := fresh "Heq" in
      destruct (eq a b) eqn:H; [apply eq_true in H | apply eq_false in H]
  end.

Lemma max_spec (a b : Q) : max a b == Qmax a b.
Proof.
  unfold max. split_test.
  - now rewrite Q.max_r by lra.
  - now rewrite Q.max_l by lra.
Qed.

Lemma min_spec (a b : Q) : min a b == Qmin a b.
Proof.
  unfold min. split_test.
  - now rewrite Q.min_r by lra.
  - now rewrite Q.min_l by lra.
Qed.

Lemma max_ge_l (a b : Q) : a <= max a b.
Proof. unfold max. split_test; lra. Qed.

Lemma max_ge_r (a b : Q) : b <= max a b.
Proof. unfold max. split_test; lra. Qed.

(** ** Order book defaults *)

Lemma client_get_price_ok (ob : Client.raw_book) :
  exists q, Client.get_price ob = Ok q.
Proof.
  unfold Client.get_price.
  set (bb := match Client.raw_bids ob with _ :: _ => _ | [] => _ end).
  set (ba := match Client.raw_asks ob with _ :: _ => _ | [] => _ end).
  split_test.
  - rewrite truediv_ok by lra. cbn. eauto.
  - cbn. eauto.
Qed.

(** C10: an empty ask side reads as best ask 1.0 and an empty bid side as
    best bid 0.0, whatever the other side holds; the spread percentage of
    every snapshot is defined, and is 0 when the mid price is 0; the
    client's price query answers for every book, and on the empty book it
    answers bid 0, ask 1, mid 1/2. *)
Theorem C10_empty_sides_have_defaults :
  (forall tok ts bids, OrderBook.best_ask (OrderBook.mkSnapshot tok ts bids []) = 1)
  /\ (forall tok ts asks, OrderBook.best_bid (OrderBook.mkSnapshot tok ts [] asks) = 0)
  /\ (forall s, OrderBook.spread_pct s =
        Ok (if eq (OrderBook.mid_price s) 0 then 0
            else OrderBook.spread s / OrderBook.mid_price s))
  /\ (forall ob, exists q, Client.get_price ob = Ok q)
  /\ Client.get_price (Client.mkRawBook [] []) =
       Ok (Client.mkQuote 0 1 (1 # 2) 1 2)
  /\ (forall tok ts,
        let s := OrderBook.get_snapshot (OrderBook.mkBook tok [] [] ts) in
        OrderBook.best_bid s = 0 /\ OrderBook.best_ask s = 1
        /\ OrderBook.mid_price s = 1 # 2 /\ OrderBook.spread_pct s = Ok 2).
Proof.
  repeat split; try reflexivity.
  - intros s. unfold OrderBook.spread_pct. split_test; [reflexivity|].
    now apply truediv_ok.
  - apply client_get_price_ok.
Qed.

(** ** The mid price of a price update *)

(** C9: the streaming handler stores [(bid + ask) / 2] as the price of
    every update it builds; the REST query stores [bid + ask / 2], which
    is the mid plus half the bid: for a ticker at 100 / 102 the price is
    151, not the mid 101. *)
Theorem C9_rest_price_is_not_the_mid :
  (forall now data,
      let u := Binance._handle_book_ticker now data in
      ExchangeBase.price u = (ExchangeBase.bid u + ExchangeBase.ask u) / 2)
  /\ (forall sym now t,
      let u := Binance.get_price sym now t in
      ExchangeBase.price u
      == (ExchangeBase.bid u + ExchangeBase.ask u) / 2 + ExchangeBase.bid u / 2)
  /\ (let u := Binance.get_price "BTCUSDT" 0%Z (Binance.mkTicker 100 102) in
      ExchangeBase.price u == 151
      /\ (ExchangeBase.bid u + ExchangeBase.ask u) / 2 == 101
      /\ ~ ExchangeBase.price u == (ExchangeBase.bid u + ExchangeBase.ask u) / 2).
Proof.
  split; [reflexivity|]. split.
  - intros sym now t. cbn. field.
  - cbn. repeat split; try reflexivity. intros H. discriminate H.
Qed.

(** ** Inventory skew of the market maker *)

(** C6: with 2000 shares in inventory and the default order size of 100,
    the imbalance the code computes is 2, not the clamped value 1, and the
    bid size it sends for a 100-share signal is -100. *)
Theorem C6_imbalance_is_not_clamped :
  exists imbalance bid_size ask_size,
    SpreadTrading._get_inventory_imbalance SpreadTrading.default_params
      Scenario.long_inventory "token" = Ok imbalance
    /\ imbalance == 2
    /\ Spec.inventory_imbalance 2000 100 == 1
    /\ SpreadTrading.execute_sizes SpreadTrading.default_params
         Scenario.long_inventory "token" 100 = Ok (bid_size, ask_size)
    /\ bid_size == -100
    /\ ask_size == 300
    /\ bid_size < 0.
Proof.
  eexists _, _, _. split; [vm_compute; reflexivity|].
  split; [reflexivity|]. split; [reflexivity|].
  split; [vm_compute; reflexivity|].
  repeat split.
Qed.

(** ** Sizing of a near-resolved snipe *)

Lemma snipe_size_positive_capital (capital y prob : Q) :
  0 < capital ->
  NearResolved._calculate_snipe_size capital y prob ==
  Qmax 10 (capital * (20 # 100) * Qmin ((prob - (90 # 100)) / (10 # 100)) 1).
Proof.
  intros Hc. unfold NearResolved._calculate_snipe_size.
  split_test; [lra|].
  rewrite max_spec, min_spec.
  set (f := (prob - (90 # 100)) / (10 # 100)).
  set (m := capital * (20 # 100)).
  assert (Hm : 0 < m) by (unfold m; lra).
  apply Q.max_compat; [reflexivity|].
  destruct (Qlt_le_dec f 1) as [Hf|Hf].
  - rewrite (Q.min_l f 1) by lra. apply Q.min_l. nra.
  - rewrite (Q.min_r f 1) by lra. rewrite Q.min_r by nra. lra.
Qed.

Lemma snipe_size_at_least_10 (capital y prob : Q) :
  0 < capital -> 10 <= NearResolved._calculate_snipe_size capital y prob.
Proof.
  intros Hc. rewrite snipe_size_positive_capital by assumption. apply Q.le_max_l.
Qed.

(** C5, as the code has it: for a positive capital the dollar position is
    max(10, capital x 0.20 x min((prob - 0.90)/0.10, 1)); it is the
    specification's capital x clamp((prob - 0.90)/0.10, 0, 1) x 0.20
    whenever that amount is at least the 10-dollar floor; an opportunity
    that passes the yield and end-date filters yields one signal whose
    share size is the dollar position divided by the price.  With capital
    1,000 and an outcome at 0.97 the position is 140 dollars, 14000/97
    shares. *)
Theorem C5_snipe_size (cfg : NearResolved.params) (capital : Q) (now : datetime)
    (o : NearResolved.opportunity) :
  0 < capital ->
  ~ NearResolved.probability o == 0 ->
  NearResolved.min_yield cfg <= NearResolved.potential_yield o ->
  NearResolved.too_far cfg now o = false ->
  let prob := NearResolved.probability o in
  let dollars :=
    NearResolved._calculate_snipe_size capital (NearResolved.potential_yield o) prob in
  dollars == Qmax 10 (capital * (20 # 100) * Qmin ((prob - (90 # 100)) / (10 # 100)) 1)
  /\ (10 <= Spec.snipe_dollars capital prob -> dollars == Spec.snipe_dollars capital prob)
  /\ (exists sg,
        NearResolved.scan_opportunity cfg capital now o = Ok [sg]
        /\ StrategyBase.size sg = dollars / prob
        /\ StrategyBase.price sg = prob)
  /\ NearResolved._calculate_snipe_size 1000 (3 # 100) (97 # 100) == 140
  /\ 140 / (97 # 100) == 14000 # 97.
Proof.
  intros Hc Hp Hy Hfar prob dollars.
  assert (Hd : dollars ==
      Qmax 10 (capital * (20 # 100) * Qmin ((prob - (90 # 100)) / (10 # 100)) 1))
    by (apply snipe_size_positive_capital; assumption).
  split; [exact Hd|]. split; [|split; [|split; reflexivity]].
  - intros Hfloor. rewrite Hd. unfold Spec.snipe_dollars, Spec.clamp in *.
    set (f := (prob - (90 # 100)) / (10 # 100)) in *.
    destruct (Qlt_le_dec (Qmin f 1) 0) as [Hneg|Hpos].
    + rewrite (Q.max_l 0 (Qmin f 1)) in Hfloor by lra. lra.
    + rewrite (Q.max_r 0 (Qmin f 1)) in * by lra.
      rewrite Q.max_r by lra. lra.
  - unfold NearResolved.scan_opportunity.
    apply lt_false in Hy as ->. rewrite Hfar.
    fold prob. fold dollars.
    assert (H10 : lt dollars 10 = false)
      by (apply lt_false, snipe_size_at_least_10; assumption).
    rewrite H10, truediv_ok by exact Hp.
    eexists. split; [reflexivity|]. split; reflexivity.
Qed.

(** The scenario of the specification: 1,000 dollars, Yes at 0.97. *)
Lemma C5_snipe_size_witness :
  exists sg,
    NearResolved.scan_opportunity NearResolved.default_params 1000 0%Z
      Scenario.yes_at_97 = Ok [sg]
    /\ StrategyBase.size sg == 14000 # 97
    /\ StrategyBase.size sg * StrategyBase.price sg == 140.
Proof.
  destruct (C5_snipe_size NearResolved.default_params 1000 0%Z Scenario.yes_at_97)
    as (_ & _ & (sg & Hscan & Hsize & Hprice) & _).
  - reflexivity.
  - intros H; discriminate H.
  - intros H; discriminate H.
  - reflexivity.
  - exists sg. split; [exact Hscan|]. rewrite Hsize, Hprice.
    split; reflexivity.
Defined.

(** The floor: with 20 dollars of capital and an outcome at 0.97 the
    specification's formula gives 2.80 dollars, the code 10. *)
Lemma C5_floor_counterexample :
  ~ NearResolved._calculate_snipe_size 20 (3 # 100) (97 # 100)
    == Spec.snipe_dollars 20 (97 # 100).
Proof. intros H. discriminate H. Qed.

(** ** Range coverage: the greedy walk *)

Section walk.
Context {A num : Type}.
Variable zero : num.
Variable add : num -> num -> num.
Variable le : num -> num -> bool.
Variable price : A -> num.
Variable max_total_cost : num.

(** The walk, started from any state and over any arithmetic: it takes a
    prefix of the outcomes it does not skip, in their order; its total is
    the running total of what it took, which passed the test of the loop;
    and the first outcome it leaves out, if any, is one that failed the
    test. *)
Lemma greedy_walk_prefix (outcomes chosen : list A) (total : num) :
  exists taken rest,
    List.filter (CoverageWalk.priced zero le price) outcomes = taken ++ rest
    /\ CoverageWalk.greedy_walk zero add le price max_total_cost outcomes chosen total
       = (chosen ++ taken, CoverageWalk.running_total add price taken total)
    /\ match taken with
       | [] => True
       | _ :: _ =>
           le (CoverageWalk.running_total add price taken total) max_total_cost = true
       end
    /\ match rest with
       | [] => True
       | o :: _ =>
           le (add (CoverageWalk.running_total add price taken total) (price o))
              max_total_cost = false
       end.
Proof.
  revert chosen total.
  induction outcomes as [|o outcomes IH]; intros chosen total;
    cbn [CoverageWalk.greedy_walk List.filter].
  - exists [], []. rewrite (app_nil_r chosen). cbn. repeat split.
  - unfold CoverageWalk.priced at 1.
    destruct (le (price o) zero); cbn [negb]; [apply IH|].
    destruct (le (add total (price o)) max_total_cost) eqn:Htest.
    + destruct (IH (chosen ++ [o]) (add total (price o)))
        as (taken & rest & Hf & Hwalk & Htotal & Hrest).
      exists (o :: taken), rest. rewrite Hf, Hwalk, <- app_assoc.
      cbn [CoverageWalk.running_total fold_left app].
      repeat split; [|exact Hrest].
      destruct taken; [exact Htest | exact Htotal].
    + exists [], (o :: List.filter (CoverageWalk.priced zero le price) outcomes).
      rewrite (app_nil_r chosen). cbn. repeat split. exact Htest.
Qed.

End walk.

(** [RangeCoverage.greedy_walk] is that walk on the rationals. *)
Lemma greedy_walk_exact (cfg : RangeCoverage.params)
    (outcomes chosen : list RangeCoverage.outcome) (total : Q) :
  RangeCoverage.greedy_walk cfg outcomes chosen total
  = CoverageWalk.greedy_walk 0 Qplus le RangeCoverage.outcome_price
      (RangeCoverage.max_total_cost cfg) outcomes chosen total.
Proof.
  revert chosen total. induction outcomes as [|o outcomes IH]; intros chosen total;
    cbn [RangeCoverage.greedy_walk CoverageWalk.greedy_walk]; [reflexivity|].
  rewrite !IH. reflexivity.
Qed.

(** [sorted_reverse] puts the highest key first. *)
Lemma insert_by_descending {A} (key : A -> Q) (x : A) (l : list A) :
  Sorted (fun a b => key b <= key a) l ->
  Sorted (fun a b => key b <= key a)
    (insert_by (fun a b => ge (key a) (key b)) x l).
Proof.
  induction 1 as [|y l Hs IH Hhd]; cbn.
  - repeat constructor.
  - split_test.
    + constructor; [constructor; assumption|]. constructor. exact Hge.
    + constructor; [exact IH|].
      destruct Hhd as [|z l Hz]; cbn.
      * constructor. lra.
      * destruct (ge (key x) (key z)); constructor; lra.
Qed.

Lemma sorted_reverse_descending {A} (key : A -> Q) (l : list A) :
  Sorted (fun a b => key b <= key a) (sorted_reverse key l).
Proof.
  induction l as [|x l IH]; cbn.
  - constructor.
  - apply insert_by_descending, IH.
Qed.

(** The walk over scenario S3, whatever the profit target. *)
Lemma range_scenario_coverage (tp mp : Q) :
  exists c,
    RangeCoverage._find_optimal_coverage (RangeScenario.params tp mp)
      (RangeCoverage.outcome_data RangeScenario.venue RangeScenario.market)
    = Ok (Some c)
    /\ RangeCoverage.covered c =
       firstn 4 (RangeCoverage.outcome_data RangeScenario.venue RangeScenario.market)
    /\ map RangeCoverage.outcome_price (RangeCoverage.covered c)
       = [40 # 100; 30 # 100; 15 # 100; 10 # 100]
    /\ RangeCoverage.total_cost c == 95 # 100
    /\ ~ RangeCoverage.total_cost c == 0
    /\ (1 - RangeCoverage.total_cost c) / RangeCoverage.total_cost c == 1 # 19
    /\ length (RangeCoverage.covered c) = 4%nat.
Proof.
  eexists. split; [vm_compute; reflexivity|]. cbn.
  repeat split. intros H; discriminate H.
Qed.

(** C3, as the code has it: on scenario S3 with max_total_cost = 0.98 and
    min_outcomes = 3 the sorted prices are 0.40, 0.30, 0.15, 0.10, 0.05,
    the greedy selection is the first four outcomes at a total cost of
    0.95, and the detector emits its signal, with expected_profit_pct
    (1 - 0.95)/0.95, when the configured target profit is at most that
    value and nothing otherwise.  In general the outcomes are walked
    highest price first; the walk takes a prefix of the positively priced
    ones, its total is the running total of their prices, which passed the
    test against max_total_cost, and it stops at the first outcome whose
    price takes the running total over it.  The running total is the one
    the program accumulates: the statement holds of the loop over any
    arithmetic, the exact one and that of the machine.  In binary64 the
    selection on S3 is the same, at the same total 0.95; on prices 0.41,
    0.40 and 0.17 the walk stops after two outcomes there (the third
    running total rounds above 0.98), where exact arithmetic takes all
    three; and on prices 0.28, 0.27 and 0.25 the profit the gate of the
    scan sees is 0.24999999999999994, below a target of 0.25. *)
Theorem C3_greedy_coverage (tp mp : Q) :
  let cfg := RangeScenario.params tp mp in
  let data := RangeCoverage.outcome_data RangeScenario.venue RangeScenario.market in
  map RangeCoverage.outcome_price data = [40 # 100; 30 # 100; 15 # 100; 10 # 100; 5 # 100]
  /\ (exists c,
        RangeCoverage._find_optimal_coverage cfg data = Ok (Some c)
        /\ RangeCoverage.covered c = firstn 4 data
        /\ RangeCoverage.total_cost c == 95 # 100)
  /\ (exists sg,
        StrategyBase.expected_profit_pct sg == (1 - (95 # 100)) / (95 # 100)
        /\ StrategyBase.price sg == 95 # 100
        /\ StrategyBase.size sg == mp / (95 # 100)
        /\ RangeCoverage.scan cfg RangeScenario.venue [RangeScenario.market]
           = if ge (StrategyBase.expected_profit_pct sg) tp then [sg] else [])
  /\ (forall v m,
        Sorted (fun a b => RangeCoverage.outcome_price b <= RangeCoverage.outcome_price a)
          (RangeCoverage.outcome_data v m))
  /\ (forall (A num : Type) (zero : num) (add : num -> num -> num)
             (le : num -> num -> bool) (price : A -> num) (max_total_cost : num)
             (outcomes : list A),
        exists taken rest,
          List.filter (CoverageWalk.priced zero le price) outcomes = taken ++ rest
          /\ CoverageWalk.greedy_walk zero add le price max_total_cost outcomes [] zero
             = (taken, CoverageWalk.running_total add price taken zero)
          /\ match taken with
             | [] => True
             | _ :: _ =>
                 le (CoverageWalk.running_total add price taken zero) max_total_cost
                 = true
             end
          /\ match rest with
             | [] => True
             | o :: _ =>
                 le (add (CoverageWalk.running_total add price taken zero) (price o))
                    max_total_cost = false
             end)
  /\ (forall (cfg' : RangeCoverage.params) outcomes,
        RangeCoverage.greedy_walk cfg' outcomes [] 0
        = CoverageWalk.greedy_walk 0 Qplus le RangeCoverage.outcome_price
            (RangeCoverage.max_total_cost cfg') outcomes [] 0)
  /\ Binary64.greedy_walk 0.98 Rounding.range_outcomes
     = (firstn 4 Rounding.range_outcomes, 0.95%float)
  /\ fst (Binary64.greedy_walk 0.98 Rounding.tight_outcomes)
     = firstn 2 Rounding.tight_outcomes
  /\ fst (RangeCoverage.greedy_walk cfg Rounding.tight_outcomes_exact [] 0)
     = Rounding.tight_outcomes_exact
  /\ fst (Binary64.greedy_walk 0.98 Rounding.quarter_outcomes)
     = Rounding.quarter_outcomes
  /\ Binary64.profit_pct (snd (Binary64.greedy_walk 0.98 Rounding.quarter_outcomes))
     = 0.24999999999999994%float
  /\ Binary64.lt
       (Binary64.profit_pct (snd (Binary64.greedy_walk 0.98 Rounding.quarter_outcomes)))
       0.25 = true.
Proof.
  intros cfg data. subst cfg data.
  destruct (range_scenario_coverage tp mp) as (c & Hfind & Hcov & Hprices & Htotal & Hnz & Hpct & Hlen).
  split; [reflexivity|].
  split; [exists c; auto|].
  split; [|split; [|split; [|split]]].
  - unfold RangeCoverage.scan, RangeCoverage.scan_market, RangeCoverage.scan_market_body.
    cbn [map concat Client.outcomes RangeScenario.market length Nat.ltb Nat.leb].
    rewrite Hfind. cbn [mbind Py.result_bind].
    rewrite Hlen. cbn [RangeCoverage.min_outcomes_covered RangeScenario.params Nat.leb].
    unfold RangeCoverage.coverage_signal.
    rewrite !truediv_ok by exact Hnz. cbn [mbind Py.result_bind].
    exists (StrategyBase.mkSignal RangeCoverage.name StrategyBase.BUY
              (Client.id RangeScenario.market)
              (match RangeCoverage.covered c with
               | o :: _ => RangeCoverage.outcome_token o
               | [] => ""%string
               end)
              "MULTIPLE" (RangeCoverage.total_cost c)
              (mp / RangeCoverage.total_cost c) (95 # 100)
              ((1 - RangeCoverage.total_cost c) / RangeCoverage.total_cost c)
              (RangeCoverage.mkMeta c (Client.question RangeScenario.market))).
    cbn [StrategyBase.expected_profit_pct StrategyBase.price StrategyBase.size
         RangeCoverage.target_profit RangeCoverage.max_position RangeScenario.params].
    split; [rewrite Hpct; reflexivity|].
    split; [exact Htotal|].
    split; [rewrite Htotal; reflexivity|].
    destruct (ge _ tp); [rewrite app_nil_r|]; reflexivity.
  - intros v m. apply sorted_reverse_descending.
  - intros A num zero add le price max_total_cost outcomes.
    apply (greedy_walk_prefix zero add le price max_total_cost outcomes [] zero).
  - intros cfg' outcomes. apply greedy_walk_exact.
  - repeat split; vm_compute; reflexivity.
Qed.

(** Under the default configuration (target profit 0.25) the detector
    emits nothing on scenario S3. *)
Lemma C3_default_target_counterexample :
  RangeCoverage.max_total_cost RangeCoverage.default_params = 98 # 100
  /\ RangeCoverage.min_outcomes_covered RangeCoverage.default_params = 3%nat
  /\ ~ exists sg,
        In sg (RangeCoverage.scan RangeCoverage.default_params
                 RangeScenario.venue [RangeScenario.market]).
Proof.
  split; [reflexivity|]. split; [reflexivity|].
  intros [sg Hin]. vm_compute in Hin. exact Hin.
Qed.

(** ** Scans with a single signal *)

Lemma of_scan_singleton {M} (r : result (list (StrategyBase.TradeSignal M)))
    (p s e : Q) :
  Figures.of_scan r = Some [(p, s, e)] ->
  exists sg, r = Ok [sg]
    /\ StrategyBase.price sg = p
    /\ StrategyBase.size sg = s
    /\ StrategyBase.expected_profit_pct sg = e.
Proof.
  destruct r as [[|sg [|sg' rest]]|err]; cbn; try discriminate.
  intros [= <- <- <-]. exists sg. auto.
Qed.

(** ** Parity: the path through the REST listing *)

(** Reading a key of a dictionary written as a chain of insertions. *)
Ltac read_key :=
  unfold get;
  repeat first [ rewrite lookup_insert_eq
               | rewrite lookup_insert_ne by discriminate
               | rewrite lookup_empty ];
  cbn [default from_option Datatypes.id].

Section rest_path.
Import YesNoArbitrage.
Variable cfg : params.
Variable v : Client.venue.
Variable market : Client.market_data.
Variables yes no : string.
Variable others : list string.
Variables yes_prices no_prices : Client.quote.
Hypothesis tokens_listed : Client.clobTokenIds market = yes :: no :: others.
Hypothesis tokens_served :
  Client.clobTokenIds (Client.market_of v (Client.id market)) = yes :: no :: others.
Hypothesis yes_quote : Client.get_price (Client.book_of v yes) = Ok yes_prices.
Hypothesis no_quote : Client.get_price (Client.book_of v no) = Ok no_prices.
Hypothesis target_set : ~ target_profit cfg == 0.
Hypothesis gate_open : min_spread cfg <= 5 # 995.

Variable total : Q.
Hypothesis total_asked : total = Client.ask yes_prices + Client.ask no_prices.
Hypothesis total_positive : 0 < total.

(** Below 0.995 the listing path emits the pair signal, sized and priced
    from the total. *)
Lemma rest_path_buy_pair :
  total < 995 # 1000 ->
  exists sg,
    scan_market cfg v market = Ok [sg]
    /\ StrategyBase.signal_type sg = StrategyBase.BUY
    /\ StrategyBase.expected_profit_pct sg = (1 - total) / total
    /\ StrategyBase.size sg = max_position cfg / total.
Proof.
  intros Hlt. unfold scan_market. rewrite tokens_listed. cbn [length Nat.ltb Nat.leb].
  unfold Client.check_yes_no_arbitrage. rewrite tokens_served, yes_quote, no_quote.
  cbn [mbind result_bind]. rewrite <- total_asked.
  apply lt_true in Hlt as Hlt'. rewrite Hlt'.
  rewrite truediv_ok by lra. cbn [mbind result_bind].
  unfold signal_of. read_key. cbn [num mbind result_bind].
  assert (Hgate : ge ((1 - total) / total) (min_spread cfg) = true).
  { apply ge_true. eapply Qle_trans; [exact gate_open|].
    apply Qle_shift_div_l; [exact total_positive | lra]. }
  rewrite Hgate. unfold _create_arb_signal. read_key.
  cbn [text String.eqb Ascii.eqb Bool.eqb num mbind result_bind].
  rewrite !truediv_ok by (try exact target_set; lra).
  cbn [mbind result_bind]. eexists. split; [reflexivity|]. repeat split.
Qed.

(** From 0.995 up it emits no pair purchase. *)
Lemma rest_path_no_buy_pair :
  995 # 1000 <= total ->
  exists sigs,
    scan_market cfg v market = Ok sigs
    /\ Forall (fun sg => StrategyBase.signal_type sg = StrategyBase.SELL) sigs.
Proof.
  intros Hge. unfold scan_market. rewrite tokens_listed. cbn [length Nat.ltb Nat.leb].
  unfold Client.check_yes_no_arbitrage. rewrite tokens_served, yes_quote, no_quote.
  cbn [mbind result_bind]. rewrite <- total_asked.
  apply lt_false in Hge as Hge'. rewrite Hge'.
  destruct (gt _ (1005 # 1000)); cbn [mbind result_bind];
    [|exists []; split; [reflexivity | constructor]].
  unfold signal_of. read_key. cbn [num mbind result_bind].
  destruct (ge _ (min_spread cfg)); [|exists []; split; [reflexivity | constructor]].
  unfold _create_arb_signal. read_key.
  cbn [text String.eqb Ascii.eqb Bool.eqb num mbind result_bind].
  rewrite !truediv_ok by exact target_set.
  cbn [mbind result_bind]. eexists. split; [reflexivity|].
  repeat constructor.
Qed.

End rest_path.

(** The total is the sum as the client computes it.  On the machine the
    asks 0.30 and 0.695 add up to 0.99499999999999988, below the 0.995
    that their exact sum reaches. *)
Lemma parity_total_rounds_below :
  Binary64.total_buy 0.30 0.695 = 0.99499999999999988%float
  /\ Binary64.lt (Binary64.total_buy 0.30 0.695) 0.995 = true
  /\ lt ((30 # 100) + (695 # 1000)) (995 # 1000) = false.
Proof. repeat split; vm_compute; reflexivity. Qed.

(** ** Parity: the two detection paths *)

(** C1: on scenario S1 (asks 0.48 and 0.49, max_position 10,000) the scan
    of the REST listing emits the pair signal with expected_profit_pct
    (1 - 0.97)/0.97 and size 10000/0.97; the scan of the real-time books,
    on the same prices, emits it with the same expected profit but with
    size 10000 and price 1: the opportunity dictionary of the books
    carries the total under the key [total], and the signal is built from
    the key [total_cost]. *)
Theorem C1_monitored_pair_size :
  (exists sg,
      YesNoArbitrage.scan YesNoArbitrage.default_params ParityScenario.venue
        [ParityScenario.market] ParityScenario.no_books [] = Ok [sg]
      /\ StrategyBase.expected_profit_pct sg == (1 - (97 # 100)) / (97 # 100)
      /\ StrategyBase.size sg == 10000 / (97 # 100))
  /\ (exists sg,
      YesNoArbitrage.scan YesNoArbitrage.default_params ParityScenario.venue
        [] ParityScenario.multi_book ParityScenario.monitored_markets = Ok [sg]
      /\ StrategyBase.expected_profit_pct sg == (1 - (97 # 100)) / (97 # 100)
      /\ StrategyBase.size sg == 10000
      /\ StrategyBase.price sg == 1
      /\ ~ StrategyBase.size sg == 10000 / (97 # 100)).
Proof.
  split.
  - destruct (of_scan_singleton
                (YesNoArbitrage.scan YesNoArbitrage.default_params ParityScenario.venue
                   [ParityScenario.market] ParityScenario.no_books [])
                (9700 # 10000) (100000000 # 9700) (3000000 # 97000000))
      as (sg & Hscan & _ & Hsize & Hprofit); [vm_compute; reflexivity|].
    exists sg. rewrite Hsize, Hprofit. repeat split. exact Hscan.
  - destruct (of_scan_singleton
                (YesNoArbitrage.scan YesNoArbitrage.default_params ParityScenario.venue
                   [] ParityScenario.multi_book ParityScenario.monitored_markets)
                1 10000 (3000000 # 97000000))
      as (sg & Hscan & Hprice & Hsize & Hprofit); [vm_compute; reflexivity|].
    exists sg. rewrite Hsize, Hprofit, Hprice. repeat split; [exact Hscan|].
    intros H; discriminate H.
Qed.

(** ** Impulse detection: the baseline *)

(** In a history kept in arrival order the forward loop can only ever stop
    at the first entry: the baseline is the oldest price in the buffer,
    however long ago it was recorded. *)
Lemma old_price_is_oldest (history : list Aggregator.entry) (window_start : datetime) :
  Sorted Z.le (map Aggregator.entry_timestamp history) ->
  Aggregator.old_price history window_start
  = match history with e :: _ => Aggregator.entry_price e | [] => 0 end.
Proof.
  intros Hs. unfold Aggregator.old_price.
  destruct history as [|e rest]; [reflexivity|]. cbn.
  destruct (Aggregator.entry_timestamp e <=? window_start)%Z eqn:He; [reflexivity|].
  apply Z.leb_gt in He.
  assert (Hall : Forall (fun t => (window_start < t)%Z)
                   (map Aggregator.entry_timestamp rest)).
  { apply Sorted_StronglySorted in Hs; [|intros x y z; apply Z.le_trans].
    apply StronglySorted_inv in Hs as [_ Hs].
    eapply Forall_impl; [exact Hs|]. cbn. intros t Ht. lia. }
  clear Hs. induction rest as [|e' rest IH]; [reflexivity|].
  cbn in *. apply Forall_cons_iff in Hall as [Ht Hall].
  apply Z.leb_gt in Ht as ->. apply IH, Hall.
Qed.

(** C4: BTC at 100 at time 0, 103 fifty seconds later, 103.5 two minutes
    in; window 60 s, threshold 2 %.  The entry the specification's
    backward walk reaches is the one at 103 (a change of 0.5/103, under
    the threshold); the code's loop runs forward, takes the entry at 100,
    and emits an upward impulse of 3.5 %, with confidence 1/1. *)
Theorem C4_baseline_walks_forward :
  let window_start := (120000 - 60000)%Z in
  map Aggregator.entry_price ImpulseScenario.history = [100; 103; 1035 # 10]
  /\ Spec.baseline_backwards ImpulseScenario.history window_start = 103
  /\ abs (((1035 # 10) - 103) / 103) < 2 # 100
  /\ Aggregator.old_price ImpulseScenario.history window_start = 100
  /\ exists impulse,
       snd (Aggregator._on_price_update ImpulseScenario.aggregator ImpulseScenario.update)
       = Ok (Some impulse)
       /\ Aggregator.from_price impulse = 100
       /\ Aggregator.impulse_direction impulse = ExchangeBase.up
       /\ Aggregator.change_pct impulse == 35 # 1000
       /\ Aggregator.confidence impulse == 1.
Proof.
  cbn zeta.
  split; [vm_compute; reflexivity|].
  split; [vm_compute; reflexivity|].
  split; [vm_compute; reflexivity|].
  split; [vm_compute; reflexivity|].
  eexists. split; [vm_compute; reflexivity|].
  cbn. repeat split.
Qed.

(** ** The capital ledgers *)

Section compounding_ledger.
Import Compounding.

Lemma set_initial_capital_counts (c : Q) : counts_and_peak (set_initial_capital init c).
Proof. split; [apply Nat.le_refl | apply Qle_refl]. Qed.

Lemma process_result_counts (l : ledger) (p : Q) :
  counts_and_peak l -> counts_and_peak (_process_result l p).
Proof.
  intros [Hw Hp]. unfold _process_result.
  destruct (ge p 0); unfold counts_and_peak; cbn; (split; [lia | apply max_ge_r]).
Qed.

Lemma run_counts (profits : list Q) (l : ledger) :
  counts_and_peak l -> counts_and_peak (run l profits).
Proof.
  revert l. induction profits as [|p rest IH]; intros l Hl; [exact Hl|].
  apply IH, process_result_counts, Hl.
Qed.

Lemma process_result_capital (l : ledger) (p : Q) :
  _current_capital (_process_result l p) == _current_capital l + p.
Proof. unfold _process_result. destruct (ge p 0); reflexivity. Qed.

Lemma run_capital_covered (profits : list Q) (l : ledger) :
  0 <= _current_capital l -> losses_covered l profits ->
  0 <= _current_capital (run l profits).
Proof.
  revert l. induction profits as [|p rest IH]; intros l Hl Hcov; [exact Hl|].
  destruct Hcov as [Hp Hrest]. apply IH; [|exact Hrest].
  rewrite process_result_capital. exact Hp.
Qed.

End compounding_ledger.

Section bankroll.
Import NearResolved Bankroll.
Variable validate_signal : signal -> bool.
Variable dry_run : bool.
Variable v : Client.venue.
Variable now : datetime.
Hypothesis fills : fills_within dry_run v now.

(** An order that fits the capital at hand leaves none of it negative. *)
Lemma execute_sound (st : state) (sg : signal) :
  sound st -> 0 <= StrategyBase.size sg ->
  StrategyBase.size sg * StrategyBase.price sg <= _available_capital st ->
  exists st' r,
    execute validate_signal dry_run v now st sg = Ok (st', r) /\ sound st'.
Proof.
  intros [Hcap Hpos] Hsize Hfits. unfold execute.
  destruct (validate_signal sg); cbn [negb];
    [|eexists _, _; split; [reflexivity | split; assumption]].
  rewrite (proj2 (gt_false _ _) Hfits). cbn [mbind result_bind].
  destruct (fills (StrategyBase.token_id sg) Client.BUY (StrategyBase.price sg)
              (StrategyBase.size sg) Client.GTC Hsize) as [Hfilled Hspent].
  destruct (accepted _);
    [|eexists _, _; split; [reflexivity | split; assumption]].
  eexists _, _. split; [reflexivity|]. split; cbn.
  - lra.
  - apply map_Forall_insert_2; [exact Hfilled | exact Hpos].
Qed.

Lemma resolve_sound (st : state) (market_id : string) :
  sound st -> sound (fst (resolve v st market_id)).
Proof.
  intros [Hcap Hpos]. unfold resolve.
  destruct (_active_positions st !! market_id) as [p|] eqn:Hp; [|split; assumption].
  destruct (Client.resolved _); [|split; assumption].
  split; cbn.
  - pose proof (Hpos market_id p Hp) as Hshares. cbn in Hshares. lra.
  - apply map_Forall_delete, Hpos.
Qed.

Lemma final_sound (ops : list op) (st : state) :
  sound st -> sizes_nonnegative ops ->
  fits validate_signal dry_run v now st ops ->
  exists st', final validate_signal dry_run v now st ops = Ok st' /\ sound st'.
Proof.
  revert st. induction ops as [|o rest IH]; intros st Hst Hops Hfits; cbn [final].
  - exists st. split; [reflexivity | exact Hst].
  - apply Forall_cons_iff in Hops as [Ho Hrest].
    destruct Hfits as [Hfit Hlater].
    destruct o as [sg|market_id]; cbn [step] in *.
    + destruct (execute_sound st sg Hst Ho Hfit) as (st' & r & Hrun & Hst').
      rewrite Hrun in *. cbn [mbind result_bind fst] in *. apply IH; assumption.
    + cbn [mbind result_bind] in *. apply IH; [apply resolve_sound| |]; assumption.
Qed.

End bankroll.

(** A dry-run fill is the order itself. *)
Lemma dry_run_fills_within (v : Client.venue) (now : datetime) :
  Bankroll.fills_within true v now.
Proof.
  intros token sd price size ty Hsize. cbn. split; [exact Hsize | apply Qle_refl].
Qed.

(** C2, as the code has it: in every state of the compounding ledger
    reached from a positive initial capital by booking trade results,
    win_count <= trade_count and peak_capital >= current capital; the
    current capital stays non-negative as long as no booked loss exceeds
    the capital it is booked on (nothing in the code bounds a loss).  The
    available capital of the near-resolved bankroll stays non-negative
    through every sequence of executions and resolutions whose orders ask
    for non-negative sizes, fit the capital at hand (size x price <=
    available capital, so that [execute] cuts none of them) and come back
    filled for no more than they asked to spend, which every dry-run fill
    does.  An order that [execute] cuts to available / price is not
    covered: the machine books (available / price) x price, which can
    round above the capital.  With 1000 dollars and a price of 0.97 the
    cut order is for 1030.9278350515465 shares and its dry-run fill
    leaves -1.1368683772161603e-13 dollars. *)
Theorem C2_ledger_invariants (c : Q) (profits : list Q) :
  0 < c ->
  let start := Compounding.set_initial_capital Compounding.init c in
  let l := Compounding.run start profits in
  (Compounding._win_count l <= Compounding._trade_count l)%nat
  /\ Compounding._current_capital l <= Compounding._peak_capital l
  /\ (Compounding.losses_covered start profits -> 0 <= Compounding._current_capital l)
  /\ (forall validate dry_run v now ops,
        Bankroll.fills_within dry_run v now ->
        Bankroll.sizes_nonnegative ops ->
        Bankroll.fits validate dry_run v now
          (NearResolved.set_capital NearResolved.init c) ops ->
        exists st,
          Bankroll.final validate dry_run v now
            (NearResolved.set_capital NearResolved.init c) ops = Ok st
          /\ 0 <= NearResolved._available_capital st)
  /\ (forall v now, Bankroll.fills_within true v now)
  /\ Binary64.snipe_size 1000 2000 0.97 = 1030.9278350515465%float
  /\ Binary64.capital_after_snipe 1000 2000 0.97 = (-1.1368683772161603e-13)%float
  /\ Binary64.lt (Binary64.capital_after_snipe 1000 2000 0.97) 0 = true.
Proof.
  intros Hc start l.
  destruct (run_counts profits start (set_initial_capital_counts c)) as [Hw Hp].
  split; [exact Hw|]. split; [exact Hp|].
  split; [|split; [|split; [|split; [|split]]]].
  - apply run_capital_covered. cbn. lra.
  - intros validate dry_run v now ops Hfills Hops Hfits.
    destruct (final_sound validate dry_run v now Hfills ops
                (NearResolved.set_capital NearResolved.init c))
      as (st & Hfinal & Hcap & _); [|exact Hops|exact Hfits|].
    + split; [cbn; lra | apply map_Forall_empty].
    + exists st. split; assumption.
  - apply dry_run_fills_within.
  - vm_compute. reflexivity.
  - vm_compute. reflexivity.
  - vm_compute. reflexivity.
Qed.

(** A hundred dollars, a win of five and a loss of three. *)
Lemma C2_ledger_invariants_witness :
  let l := Compounding.run
             (Compounding.set_initial_capital Compounding.init 100) [5; -3] in
  (Compounding._win_count l <= Compounding._trade_count l)%nat
  /\ Compounding._current_capital l <= Compounding._peak_capital l
  /\ 0 <= Compounding._current_capital l.
Proof.
  destruct (C2_ledger_invariants 100 [5; -3]) as (Hw & Hp & Hcov & _);
    [reflexivity|].
  split; [exact Hw|]. split; [exact Hp|]. apply Hcov.
  cbn. repeat split; intros H; discriminate H.
Defined.

(** A hundred dollars and one booked loss of a hundred and fifty: the
    capital is -50. *)
Lemma C2_loss_counterexample :
  let l := Compounding.run
             (Compounding.set_initial_capital Compounding.init 100) [-150] in
  Compounding._current_capital l == -50 /\ ~ 0 <= Compounding._current_capital l.
Proof.
  cbn. split; [reflexivity|]. intros H. apply H. reflexivity.
Qed.

(** ** Dry run and live execution *)

Section dry_and_live.
Import NearResolved Bankroll.
Variable validate_signal : signal -> bool.
Variable v : Client.venue.
Variable now : datetime.
Hypothesis full : fills_in_full v.

(** Against a venue that fills in full, a live order reports what the
    dry run makes up. *)
Lemma live_order_is_full (token : string) (sd : Client.order_side)
    (price size : Q) (ty : Client.order_type) :
  let order := Client.place_order false v now token sd price size ty in
  Client.status order = "filled"%string
  /\ Client.filled_amount order = size
  /\ Client.avg_price order = price.
Proof.
  destruct (full (Client.mkOrder token sd price size ty)) as (Hs & Hf & Ha).
  cbn in *. rewrite Hs, Hf, Ha. repeat split.
Qed.

Lemma execute_same (st : state) (sg : signal) :
  execute validate_signal true v now st sg
  = execute validate_signal false v now st sg.
Proof.
  unfold execute. destruct (validate_signal sg); cbn [negb]; [|reflexivity].
  destruct (if gt _ _ then _ else _) as [sz|e]; cbn [mbind result_bind];
    [|reflexivity].
  destruct (live_order_is_full (StrategyBase.token_id sg) Client.BUY
              (StrategyBase.price sg) sz Client.GTC) as (Hs & Hf & Ha).
  rewrite Hs, Hf, Ha. reflexivity.
Qed.

Lemma trajectory_same (ops : list op) (st : state) :
  trajectory validate_signal true v now st ops
  = trajectory validate_signal false v now st ops.
Proof.
  revert st. induction ops as [|o rest IH]; intros st; cbn [trajectory];
    [reflexivity|].
  assert (Hstep : step validate_signal true v now st o
                  = step validate_signal false v now st o)
    by (destruct o; cbn [step]; [rewrite execute_same|]; reflexivity).
  rewrite Hstep. destruct (step _ false _ _ _ _) as [st'|e];
    cbn [mbind result_bind]; [|reflexivity].
  rewrite IH. reflexivity.
Qed.

End dry_and_live.

(** C7, as the code has it: in dry run every order is made up as a full
    fill of the size at the target price, with status [simulated], and the
    position query answers with no positions.  The near-resolved bankroll
    then goes through the same states as in live mode whenever the venue
    fills every live order in full at its limit price; the live states
    follow what the venue reports.  A strategy that reads positions does
    not behave as in live mode even then: the sale of a Yes/No pair never
    finds a position in dry run and fails without a trade, where the live
    run against a venue that fills in full sells the pair held. *)
Theorem C7_dry_run_is_a_full_fill (validate : NearResolved.signal -> bool)
    (v : Client.venue) (now : datetime) (st : NearResolved.state)
    (ops : list Bankroll.op) :
  Bankroll.fills_in_full v ->
  (forall token sd price size ty,
      let order := Client.place_order true v now token sd price size ty in
      Client.status order = "simulated"%string
      /\ Client.filled_amount order = size
      /\ Client.avg_price order = price)
  /\ Bankroll.trajectory validate true v now st ops
     = Bankroll.trajectory validate false v now st ops
  /\ Client.get_positions true v = Ok []
  /\ (forall post_unpriced (sg : YesNoArbitrage.signal),
        ArbitrageOps._execute_sell_both true v now post_unpriced sg
        = Ok (ArbitrageOps.failure
                ["No existing positions to sell for SELL_BOTH arb"%string]))
  /\ Bankroll.fills_in_full PairSaleScenario.venue
  /\ ArbitrageOps.execute YesNoArbitrage.default_params (fun _ => true) true
       PairSaleScenario.venue now (fun _ => ""%string) (fun _ => ""%string)
       PairSaleScenario.post_unpriced [] PairSaleScenario.pair_sale
     = ([], StrategyBase.mkResult YesNoArbitrage.name false 0 0 1
              ["No existing positions to sell for SELL_BOTH arb"%string])
  /\ exists profit,
       ArbitrageOps.execute YesNoArbitrage.default_params (fun _ => true) false
         PairSaleScenario.venue now (fun _ => ""%string) (fun _ => ""%string)
         PairSaleScenario.post_unpriced [] PairSaleScenario.pair_sale
       = ([], StrategyBase.mkResult YesNoArbitrage.name true profit 2 1 [])
       /\ profit == 2.
Proof.
  intros Hfull. split; [|split; [|split; [|split; [|split; [|split]]]]].
  - intros. repeat split.
  - apply trajectory_same, Hfull.
  - reflexivity.
  - intros post_unpriced sg. reflexivity.
  - intros o. repeat split.
  - reflexivity.
  - eexists. split; [reflexivity|]. reflexivity.
Qed.

(** Scenario S2 bought and resolved, against a venue that fills in full. *)
Lemma C7_dry_run_is_a_full_fill_witness :
  Bankroll.trajectory FillScenario.accept_all true FillScenario.full_filling 0
    FillScenario.bankroll
    [Bankroll.Execute FillScenario.snipe; Bankroll.Resolve "market"]
  = Bankroll.trajectory FillScenario.accept_all false FillScenario.full_filling 0
      FillScenario.bankroll
      [Bankroll.Execute FillScenario.snipe; Bankroll.Resolve "market"].
Proof.
  apply (C7_dry_run_is_a_full_fill FillScenario.accept_all FillScenario.full_filling 0
           FillScenario.bankroll
           [Bankroll.Execute FillScenario.snipe; Bankroll.Resolve "market"]).
  intros o. repeat split.
Defined.

(** Scenario S2 against a venue that fills half of the order: the dry run
    leaves 860 dollars available, the live run 930. *)
Lemma C7_partial_fill_counterexample :
  Bankroll.capitals
    (Bankroll.trajectory FillScenario.accept_all true FillScenario.half_filling 0
       FillScenario.bankroll [Bankroll.Execute FillScenario.snipe])
  <> Bankroll.capitals
       (Bankroll.trajectory FillScenario.accept_all false FillScenario.half_filling 0
          FillScenario.bankroll [Bankroll.Execute FillScenario.snipe])
  /\ Bankroll.trajectory FillScenario.accept_all true FillScenario.half_filling 0
       FillScenario.bankroll [Bankroll.Execute FillScenario.snipe]
     <> Bankroll.trajectory FillScenario.accept_all false FillScenario.half_filling 0
          FillScenario.bankroll [Bankroll.Execute FillScenario.snipe].
Proof.
  assert (Hcap :
    Bankroll.capitals
      (Bankroll.trajectory FillScenario.accept_all true FillScenario.half_filling 0
         FillScenario.bankroll [Bankroll.Execute FillScenario.snipe])
    <> Bankroll.capitals
         (Bankroll.trajectory FillScenario.accept_all false FillScenario.half_filling 0
            FillScenario.bankroll [Bankroll.Execute FillScenario.snipe])).
  { vm_compute. intros H. discriminate H. }
  split; [exact Hcap|]. intros H. apply Hcap. rewrite H. reflexivity.
Qed.

(** ** The risk limit of the orchestrator *)

Section risk_limit.
Import Bot.
Variable max_daily_loss : Q.

(** A loop that ran out of ticks ran one iteration per tick, and goes on
    from where it stood when more ticks follow. *)
Lemma run_loop_exhausted (before after : list tick) (st st' : state) (i n : nat) :
  run_loop max_daily_loss st before i = (st', ticks_exhausted, n) ->
  n = (i + length before)%nat
  /\ run_loop max_daily_loss st (before ++ after) i
     = run_loop max_daily_loss st' after n.
Proof.
  revert st i. induction before as [|tk rest IH]; intros st i; cbn [run_loop app length].
  - intros [= -> ->]. split; [lia | reflexivity].
  - destruct (shutdown_signal tk); [discriminate|].
    destruct (duration_reached tk); [discriminate|].
    destruct (_check_risk_limits _ _); [|discriminate].
    intros H. destruct (IH _ _ H) as [-> ->]. split; [lia | reflexivity].
Qed.

(** The loop leaves with [risk_limit] only on a breached limit. *)
Lemma run_loop_risk_limit (ticks : list tick) (st st' : state) (i n : nat) :
  run_loop max_daily_loss st ticks i = (st', risk_limit, n) ->
  _total_profit st' < - max_daily_loss.
Proof.
  revert st i. induction ticks as [|tk rest IH]; intros st i; cbn [run_loop];
    [discriminate|].
  destruct (shutdown_signal tk); [discriminate|].
  destruct (duration_reached tk); [discriminate|].
  destruct (_check_risk_limits _ _) eqn:Hrisk; [apply IH|].
  intros [= <- <-]. unfold _check_risk_limits in Hrisk.
  destruct (lt _ _) eqn:Hlt; [|discriminate]. now apply lt_true in Hlt.
Qed.

End risk_limit.

(** C8, as the code has it: the limit is checked once per iteration, after
    every strategy has run.  When the iteration that follows the ticks
    [before] brings the total profit below -max_daily_loss, the loop stops
    there: the later ticks are never run, the session ends in the state of
    that iteration, and [main] returns with exit status 0.  The loop never
    reports the risk limit without the breach, and no run that started
    exits with a status other than 0. *)
Theorem C8_risk_halt (max_daily_loss : Q) (before after : list Bot.tick)
    (tk : Bot.tick) (st : Bot.state) (n : nat) :
  Bot.run max_daily_loss before = (st, Bot.ticks_exhausted, n) ->
  Bot.shutdown_signal tk = false ->
  Bot.duration_reached tk = false ->
  Bot._total_profit (Bot.run_once st tk) < - max_daily_loss ->
  Bot.run max_daily_loss (before ++ tk :: after)
  = (Bot.run_once st tk, Bot.risk_limit, S (length before))
  /\ Bot.main max_daily_loss true (before ++ tk :: after)
     = (Some (Bot.run_once st tk, Bot.risk_limit, S (length before)), 0%Z)
  /\ (forall ticks st' k,
        Bot.run max_daily_loss ticks = (st', Bot.risk_limit, k) ->
        Bot._total_profit st' < - max_daily_loss)
  /\ (forall ticks, snd (Bot.main max_daily_loss true ticks) = 0%Z).
Proof.
  intros Hbefore Hsig Hdur Hloss.
  assert (Hrun : Bot.run max_daily_loss (before ++ tk :: after)
                 = (Bot.run_once st tk, Bot.risk_limit, S (length before))).
  { unfold Bot.run in *.
    destruct (run_loop_exhausted max_daily_loss before (tk :: after) _ _ _ _ Hbefore)
      as [-> ->].
    cbn [Bot.run_loop]. rewrite Hsig, Hdur. unfold Bot._check_risk_limits.
    apply lt_true in Hloss as ->. reflexivity. }
  split; [exact Hrun|]. split; [|split].
  - unfold Bot.main. rewrite Hrun. reflexivity.
  - intros ticks st' k. apply run_loop_risk_limit.
  - reflexivity.
Qed.

(** Scenario S6: a limit of 500 and a first iteration that loses 501. *)
Lemma C8_risk_halt_witness :
  Bot.run 500 RiskScenario.ticks
  = (Bot.run_once (Bot.mkState 0 0) RiskScenario.losing, Bot.risk_limit, 1%nat)
  /\ Bot._total_profit (Bot.run_once (Bot.mkState 0 0) RiskScenario.losing) == -501.
Proof.
  destruct (C8_risk_halt 500 [] [RiskScenario.quiet; RiskScenario.quiet]
              RiskScenario.losing (Bot.mkState 0 0) 0) as (Hrun & _).
  - reflexivity.
  - reflexivity.
  - reflexivity.
  - reflexivity.
  - split; [exact Hrun | reflexivity].
Defined.

(** Scenario S6 ends the session on the risk limit, and the process exits
    with status 0, not 2. *)
Lemma C8_exit_status_counterexample :
  exists st,
    Bot.main 500 true RiskScenario.ticks = (Some (st, Bot.risk_limit, 1%nat), 0%Z)
    /\ Bot._total_profit st == -501
    /\ Bot._total_profit st < - 500
    /\ snd (Bot.main 500 true RiskScenario.ticks) <> 2%Z.
Proof.
  eexists. split; [vm_compute; reflexivity|]. repeat split. discriminate.
Qed.

(* ===================================================================== *)
(** * Further properties of the code *)
(* ===================================================================== *)

(** ** Sorting keeps the elements *)

Lemma insert_by_In {A} (before : A -> A -> bool) (x y : A) (l : list A) :
  In y (insert_by before x l) <-> y = x \/ In y l.
Proof.
  induction l as [|z l IH]; cbn; [intuition congruence|].
  destruct (before x z); cbn; [intuition congruence|].
  rewrite IH. intuition congruence.
Qed.

Lemma sorted_In {A} (key : A -> Q) (y : A) (l : list A) :
  In y (sorted key l) <-> In y l.
Proof.
  induction l as [|x l IH]; cbn; [reflexivity|].
  unfold sorted in IH. rewrite insert_by_In, IH. intuition congruence.
Qed.

Lemma sorted_reverse_In {A} (key : A -> Q) (y : A) (l : list A) :
  In y (sorted_reverse key l) <-> In y l.
Proof.
  induction l as [|x l IH]; cbn; [reflexivity|].
  unfold sorted_reverse in IH. rewrite insert_by_In, IH. intuition congruence.
Qed.

Lemma insert_by_ascending {A} (key : A -> Q) (x : A) (l : list A) :
  Sorted (fun a b => key a <= key b) l ->
  Sorted (fun a b => key a <= key b)
    (insert_by (fun a b => le (key a) (key b)) x l).
Proof.
  induction 1 as [|y l Hs IH Hhd]; cbn.
  - repeat constructor.
  - split_test.
    + constructor; [constructor; assumption|]. constructor. exact Hle.
    + constructor; [exact IH|].
      destruct Hhd as [|z l Hz]; cbn.
      * constructor. lra.
      * destruct (le (key x) (key z)); constructor; lra.
Qed.

Lemma sorted_ascending {A} (key : A -> Q) (l : list A) :
  Sorted (fun a b => key a <= key b) (sorted key l).
Proof.
  induction l as [|x l IH]; cbn.
  - constructor.
  - apply insert_by_ascending, IH.
Qed.

(** The head of a sorted list bounds every element. *)
Lemma ascending_head {A} (key : A -> Q) (x : A) (l : list A) :
  Sorted (fun a b => key a <= key b) (x :: l) ->
  forall y, In y (x :: l) -> key x <= key y.
Proof.
  intros Hs y Hy.
  apply Sorted_StronglySorted in Hs; [|intros a b c; apply Qle_trans].
  apply StronglySorted_inv in Hs as [_ Hall].
  destruct Hy as [<-|Hy]; [apply Qle_refl|].
  rewrite List.Forall_forall in Hall. apply Hall, Hy.
Qed.

Lemma descending_head {A} (key : A -> Q) (x : A) (l : list A) :
  Sorted (fun a b => key b <= key a) (x :: l) ->
  forall y, In y (x :: l) -> key y <= key x.
Proof.
  intros Hs y Hy.
  apply Sorted_StronglySorted in Hs; [|intros a b c Hab Hbc; eapply Qle_trans; eassumption].
  apply StronglySorted_inv in Hs as [_ Hall].
  destruct Hy as [<-|Hy]; [apply Qle_refl|].
  rewrite List.Forall_forall in Hall. apply Hall, Hy.
Qed.

(** ** The live order book *)

(** X1: the snapshot of a book holds exactly the levels of the book.  Its
    best bid is the price of a bid of the book, and no bid is priced
    higher; its best ask is the price of an ask of the book, and no ask
    is priced lower.  On a side without levels the best bid reads 0 and
    the best ask 1. *)
Theorem X1_snapshot_touch (bk : OrderBook.book) (level : OrderBook.OrderLevel) :
  (In level (OrderBook.bids (OrderBook.get_snapshot bk)) <-> In level (OrderBook._bids bk))
  /\ (In level (OrderBook.asks (OrderBook.get_snapshot bk)) <-> In level (OrderBook._asks bk))
  /\ (In level (OrderBook._bids bk) ->
      OrderBook.price level <= OrderBook.best_bid (OrderBook.get_snapshot bk))
  /\ (In level (OrderBook._asks bk) ->
      OrderBook.best_ask (OrderBook.get_snapshot bk) <= OrderBook.price level)
  /\ match OrderBook._bids bk with
     | [] => OrderBook.best_bid (OrderBook.get_snapshot bk) = 0
     | _ :: _ =>
         exists top,
           In top (OrderBook._bids bk)
           /\ OrderBook.best_bid (OrderBook.get_snapshot bk) = OrderBook.price top
     end
  /\ match OrderBook._asks bk with
     | [] => OrderBook.best_ask (OrderBook.get_snapshot bk) = 1
     | _ :: _ =>
         exists top,
           In top (OrderBook._asks bk)
           /\ OrderBook.best_ask (OrderBook.get_snapshot bk) = OrderBook.price top
     end.
Proof.
  split; [apply sorted_reverse_In|]. split; [apply sorted_In|].
  split; [|split; [|split]].
  - intros Hin. apply (sorted_reverse_In OrderBook.price) in Hin.
    unfold OrderBook.best_bid. cbn [OrderBook.bids OrderBook.get_snapshot].
    pose proof (sorted_reverse_descending OrderBook.price (OrderBook._bids bk)) as Hs.
    destruct (sorted_reverse OrderBook.price (OrderBook._bids bk)) as [|top rest];
      [destruct Hin|].
    exact (descending_head OrderBook.price top rest Hs level Hin).
  - intros Hin. apply (sorted_In OrderBook.price) in Hin.
    unfold OrderBook.best_ask. cbn [OrderBook.asks OrderBook.get_snapshot].
    pose proof (sorted_ascending OrderBook.price (OrderBook._asks bk)) as Hs.
    destruct (sorted OrderBook.price (OrderBook._asks bk)) as [|top rest];
      [destruct Hin|].
    exact (ascending_head OrderBook.price top rest Hs level Hin).
  - unfold OrderBook.best_bid. cbn [OrderBook.bids OrderBook.get_snapshot].
    destruct (OrderBook._bids bk) as [|first others] eqn:Hbids; [reflexivity|].
    destruct (sorted_reverse OrderBook.price (first :: others)) as [|top rest] eqn:Hs.
    + assert (Hin : In first (sorted_reverse OrderBook.price (first :: others)))
        by (apply sorted_reverse_In; left; reflexivity).
      rewrite Hs in Hin. destruct Hin.
    + exists top. split; [|reflexivity].
      apply (sorted_reverse_In OrderBook.price). rewrite Hs. left. reflexivity.
  - unfold OrderBook.best_ask. cbn [OrderBook.asks OrderBook.get_snapshot].
    destruct (OrderBook._asks bk) as [|first others] eqn:Hasks; [reflexivity|].
    destruct (sorted OrderBook.price (first :: others)) as [|top rest] eqn:Hs.
    + assert (Hin : In first (sorted OrderBook.price (first :: others)))
        by (apply sorted_In; left; reflexivity).
      rewrite Hs in Hin. destruct Hin.
    + exists top. split; [|reflexivity].
      apply (sorted_In OrderBook.price). rewrite Hs. left. reflexivity.
Qed.

(** A book with two bids and an ask. *)
Lemma X1_snapshot_touch_witness :
  let bk := OrderBook.mkBook "token"
              [OrderBook.mkLevel (48 # 100) 10 1; OrderBook.mkLevel (50 # 100) 20 1]
              [OrderBook.mkLevel (55 # 100) 5 1] 0 in
  OrderBook.price (OrderBook.mkLevel (48 # 100) 10 1)
  <= OrderBook.best_bid (OrderBook.get_snapshot bk)
  /\ OrderBook.best_bid (OrderBook.get_snapshot bk) = 50 # 100.
Proof.
  split; [|reflexivity].
  apply (X1_snapshot_touch
           (OrderBook.mkBook "token"
              [OrderBook.mkLevel (48 # 100) 10 1; OrderBook.mkLevel (50 # 100) 20 1]
              [OrderBook.mkLevel (55 # 100) 5 1] 0)
           (OrderBook.mkLevel (48 # 100) 10 1)).
  cbn. left. reflexivity.
Defined.

Section depth.
Import OrderBook BookOps.

Lemma depth_from (levels : list OrderLevel) (a : Q) :
  fold_left (fun acc level => acc + size level) levels a == a + depth levels.
Proof.
  unfold depth. revert a. induction levels as [|l rest IH]; intros a; cbn.
  - lra.
  - rewrite (IH (a + size l)), (IH (0 + size l)). lra.
Qed.

Lemma depth_nonnegative (levels : list OrderLevel) :
  Forall (fun l => 0 <= size l) levels -> 0 <= depth levels.
Proof.
  induction 1 as [|l rest Hl _ IH]; [apply Qle_refl|].
  unfold depth. cbn. rewrite depth_from. lra.
Qed.

End depth.

(** X2: with no negative size on either side the order-book imbalance is
    always defined and lies between -1 and 1; a book with no depth has
    imbalance 0. *)
Theorem X2_imbalance_bounded (s : OrderBook.OrderBookSnapshot) :
  Forall (fun l => 0 <= OrderBook.size l) (OrderBook.bids s) ->
  Forall (fun l => 0 <= OrderBook.size l) (OrderBook.asks s) ->
  exists q, BookOps.imbalance s = Ok q /\ -1 <= q /\ q <= 1
    /\ (BookOps.bid_depth s + BookOps.ask_depth s == 0 -> q = 0).
Proof.
  intros Hb Ha. apply depth_nonnegative in Hb, Ha.
  unfold BookOps.imbalance. fold (BookOps.bid_depth s) in Hb.
  fold (BookOps.ask_depth s) in Ha.
  set (B := BookOps.bid_depth s) in *. set (A := BookOps.ask_depth s) in *.
  split_test.
  - exists 0. repeat split; [discriminate | discriminate].
  - rewrite truediv_ok by exact Heq. eexists. split; [reflexivity|].
    assert (0 < B + A) by lra.
    split; [|split].
    + apply Qle_shift_div_l; [assumption | lra].
    + apply Qle_shift_div_r; [assumption | lra].
    + intros Hz. contradiction.
Qed.

Lemma X2_imbalance_bounded_witness :
  exists q,
    BookOps.imbalance
      (OrderBook.mkSnapshot "token" 0 [OrderBook.mkLevel (50 # 100) 30 1]
         [OrderBook.mkLevel (55 # 100) 10 1]) = Ok q
    /\ -1 <= q /\ q <= 1.
Proof.
  destruct (X2_imbalance_bounded
              (OrderBook.mkSnapshot "token" 0 [OrderBook.mkLevel (50 # 100) 30 1]
                 [OrderBook.mkLevel (55 # 100) 10 1]))
    as (q & Hq & Hlo & Hhi & _).
  - repeat constructor. intros H; discriminate H.
  - repeat constructor. intros H; discriminate H.
  - exists q. auto.
Defined.

Section book_dictionary.
Import OrderBook BookOps.

Lemma eq_sym_false (a b c : Q) : a == b -> ~ c == b -> eq a c = false.
Proof. intros Hab Hcb. apply eq_false. intros Hac. apply Hcb. rewrite <- Hac, Hab. reflexivity. Qed.

Lemma size_at_dict_set (p : Q) (level : OrderLevel) (d : list OrderLevel) :
  price level == p -> size_at p (dict_set p level d) = Some (size level).
Proof.
  intros Hp. apply eq_true in Hp.
  induction d as [|l rest IH]; cbn; [now rewrite Hp|].
  destruct (eq (price l) p) eqn:Hl; cbn; [now rewrite Hp | now rewrite Hl].
Qed.

Lemma size_at_dict_set_other (p q : Q) (level : OrderLevel) (d : list OrderLevel) :
  price level == p -> ~ q == p -> size_at q (dict_set p level d) = size_at q d.
Proof.
  intros Hp Hq. induction d as [|l rest IH]; cbn.
  - now rewrite (eq_sym_false _ _ _ Hp Hq).
  - destruct (eq (price l) p) eqn:Hl; cbn.
    + apply eq_true in Hl.
      now rewrite (eq_sym_false _ _ _ Hp Hq), (eq_sym_false _ _ _ Hl Hq).
    + now rewrite IH.
Qed.

Lemma size_at_dict_pop_other (p q : Q) (d : list OrderLevel) :
  ~ q == p -> size_at q (dict_pop p d) = size_at q d.
Proof.
  intros Hq. induction d as [|l rest IH]; cbn; [reflexivity|].
  destruct (eq (price l) p) eqn:Hl; cbn.
  - apply eq_true in Hl. now rewrite (eq_sym_false _ _ _ Hl Hq).
  - now rewrite IH.
Qed.

Lemma size_at_absent (p : Q) (d : list OrderLevel) :
  Forall (fun l => ~ price l == p) d -> size_at p d = None.
Proof.
  induction 1 as [|l rest Hl _ IH]; cbn; [reflexivity|].
  apply eq_false in Hl as ->. exact IH.
Qed.

Lemma size_at_dict_pop (p : Q) (d : list OrderLevel) :
  distinct_prices d -> size_at p (dict_pop p d) = None.
Proof.
  induction 1 as [|l rest Hl _ IH]; cbn; [reflexivity|].
  destruct (eq (price l) p) eqn:Hp; cbn; [|now rewrite Hp].
  apply eq_true in Hp. apply size_at_absent.
  eapply Forall_impl; [exact Hl|]. cbn. intros l' Hne Hl'. apply Hne.
  rewrite Hp, Hl'. reflexivity.
Qed.

Lemma dict_pop_subset (p : Q) (d : list OrderLevel) (l : OrderLevel) :
  In l (dict_pop p d) -> In l d.
Proof.
  induction d as [|x rest IH]; cbn; [tauto|].
  destruct (eq (price x) p); cbn; intuition.
Qed.

Lemma dict_pop_distinct (p : Q) (d : list OrderLevel) :
  distinct_prices d -> distinct_prices (dict_pop p d).
Proof.
  induction 1 as [|l rest Hl Hrest IH]; cbn; [constructor|].
  destruct (eq (price l) p); [exact Hrest|].
  constructor; [|exact IH].
  rewrite List.Forall_forall in *. intros x Hx. apply Hl, (dict_pop_subset p), Hx.
Qed.

Lemma dict_set_distinct (p : Q) (level : OrderLevel) (d : list OrderLevel) :
  price level == p -> distinct_prices d -> distinct_prices (dict_set p level d).
Proof.
  intros Hp. induction 1 as [|l rest Hl Hrest IH]; cbn.
  - repeat constructor.
  - destruct (eq (price l) p) eqn:Hlp.
    + apply eq_true in Hlp. constructor; [|exact Hrest].
      eapply Forall_impl; [exact Hl|]. cbn. intros x Hne Hx. apply Hne.
      rewrite Hlp, <- Hp. exact Hx.
    + apply eq_false in Hlp. constructor; [|exact IH].
      clear IH Hrest. induction rest as [|x rest IH]; cbn.
      * constructor; [|constructor]. intros H. apply Hlp. rewrite H. exact Hp.
      * apply Forall_cons_iff in Hl as [Hx Hl].
        destruct (eq (price x) p); constructor; auto.
        intros H. apply Hlp. rewrite H. exact Hp.
Qed.

Lemma apply_entry_distinct (d : list OrderLevel) (entry : Q * Q) :
  distinct_prices d -> distinct_prices (apply_entry d entry).
Proof.
  destruct entry as [p s]. unfold apply_entry. destruct (eq s 0).
  - apply dict_pop_distinct.
  - apply dict_set_distinct. reflexivity.
Qed.

Lemma apply_side_distinct (entries : list (Q * Q)) (d : list OrderLevel) :
  distinct_prices d -> distinct_prices (apply_side d entries).
Proof.
  revert d. induction entries as [|e rest IH]; intros d Hd; [exact Hd|].
  apply IH, apply_entry_distinct, Hd.
Qed.

End book_dictionary.

(** X3: applying the entries of a book message keeps the prices of a side
    distinct; after an entry [(p, s)] the side holds size [s] at price [p]
    when [s] is not zero and no level at [p] when it is, and the size
    stored at every other price is unchanged. *)
Theorem X3_book_entry_round_trip (d : list OrderBook.OrderLevel)
    (entries : list (Q * Q)) (p s q : Q) :
  BookOps.distinct_prices d ->
  let d' := BookOps.apply_side d entries in
  BookOps.distinct_prices d'
  /\ BookOps.size_at p (BookOps.apply_entry d' (p, s))
     = (if eq s 0 then None else Some s)
  /\ (~ q == p ->
      BookOps.size_at q (BookOps.apply_entry d' (p, s)) = BookOps.size_at q d').
Proof.
  intros Hd d'.
  assert (Hd' : BookOps.distinct_prices d') by (apply apply_side_distinct, Hd).
  split; [exact Hd'|]. unfold BookOps.apply_entry. destruct (eq s 0); split.
  - apply size_at_dict_pop, Hd'.
  - intros Hq. apply size_at_dict_pop_other, Hq.
  - apply size_at_dict_set. reflexivity.
  - intros Hq. apply size_at_dict_set_other; [reflexivity | exact Hq].
Qed.

(** The empty book takes a bid at 0.50, a bid at 0.49, then the deletion
    of the first. *)
Lemma X3_book_entry_round_trip_witness :
  let d' := BookOps.apply_side [] [(50 # 100, 100); (49 # 100, 40)] in
  BookOps.size_at (50 # 100) (BookOps.apply_entry d' (50 # 100, 0)) = None
  /\ BookOps.size_at (49 # 100) (BookOps.apply_entry d' (50 # 100, 0)) = Some 40.
Proof.
  destruct (X3_book_entry_round_trip [] [(50 # 100, 100); (49 # 100, 40)]
              (50 # 100) 0 (49 # 100)) as (_ & Hgone & Hkept).
  - constructor.
  - split; [exact Hgone|]. rewrite Hkept; [reflexivity|].
    intros H; discriminate H.
Defined.

Section price_impact.
Import OrderBook BookOps.



End price_impact.



(** ** The client's arbitrage check and near-resolved search *)

Lemma client_get_price_ask (ob : Client.raw_book) (q : Client.quote) :
  Client.get_price ob = Ok q ->
  Client.ask q = match Client.raw_asks ob with
                 | l :: _ => Client.level_price l
                 | [] => 1
                 end
  /\ Client.bid q = match Client.raw_bids ob with
                    | l :: _ => Client.level_price l
                    | [] => 0
                    end.
Proof.
  unfold Client.get_price.
  destruct (if gt _ 0 then _ else _) as [pct|e]; cbn; [|discriminate].
  intros [= <-]. split; reflexivity.
Qed.

(** X5: when no book of the venue quotes a negative ask, every opportunity
    [check_yes_no_arbitrage] reports is a BUY_BOTH or a SELL_BOTH whose
    profit_pct is above 0.005, so the default [min_spread] gate of the
    strategy lets every reported opportunity through. *)
Theorem X5_reported_arbitrage_clears_gate (v : Client.venue) (market_id : string)
    (d : gmap string value) :
  (forall token, Forall (fun l => 0 <= Client.level_price l)
                   (Client.raw_asks (Client.book_of v token))) ->
  Client.check_yes_no_arbitrage v market_id = Ok (Some d) ->
  exists p,
    d !! "profit_pct"%string = Some (Num p)
    /\ 5 # 1000 < p
    /\ ge p (YesNoArbitrage.min_spread YesNoArbitrage.default_params) = true
    /\ (d !! "type"%string = Some (Str "BUY_BOTH")
        \/ d !! "type"%string = Some (Str "SELL_BOTH")).
Proof.
  intros Hasks. unfold Client.check_yes_no_arbitrage.
  destruct (Client.clobTokenIds _) as [|yes [|no others]]; try discriminate.
  destruct (Client.get_price (Client.book_of v yes)) as [yq|e] eqn:Hy; [|discriminate].
  destruct (Client.get_price (Client.book_of v no)) as [nq|e] eqn:Hn; [|discriminate].
  cbn [mbind result_bind].
  assert (Hask : forall token q, Client.get_price (Client.book_of v token) = Ok q ->
                                 0 <= Client.ask q).
  { intros token q Hq. apply client_get_price_ask in Hq as [-> _].
    specialize (Hasks token). destruct (Client.raw_asks _) as [|l rest]; [lra|].
    apply Forall_cons_iff in Hasks as [Hl _]. exact Hl. }
  pose proof (Hask yes yq Hy) as Hy0. pose proof (Hask no nq Hn) as Hn0.
  set (total := Client.ask yq + Client.ask nq) in *.
  split_test.
  - unfold truediv. split_test; cbn [mbind result_bind]; [discriminate|].
    intros [= <-]. exists ((1 - total) / total). read_key.
    assert (Hpos : 0 < total).
    { destruct (Qlt_le_dec 0 total) as [|Hneg]; [assumption|].
      exfalso. apply Heq. unfold total in *. lra. }
    assert (Hp : 5 # 1000 < (1 - total) / total)
      by (apply Qlt_shift_div_l; [exact Hpos | lra]).
    repeat split; [exact Hp | apply ge_true, Qlt_le_weak, Hp | left; reflexivity].
  - split_test; [|discriminate].
    intros [= <-]. eexists. read_key.
    set (sell := Client.bid yq + Client.bid nq) in *.
    assert (Hp : 5 # 1000 < (sell - 1) / 1)
      by (apply Qlt_shift_div_l; [reflexivity | lra]).
    repeat split; [exact Hp | apply ge_true, Qlt_le_weak, Hp | right; reflexivity].
Qed.

(** Scenario S1. *)
Lemma X5_reported_arbitrage_clears_gate_witness :
  exists d p,
    Client.check_yes_no_arbitrage ParityScenario.venue "market" = Ok (Some d)
    /\ d !! "profit_pct"%string = Some (Num p)
    /\ 5 # 1000 < p.
Proof.
  destruct (Client.check_yes_no_arbitrage ParityScenario.venue "market")
    as [[d|]|e] eqn:Hrun; try (vm_compute in Hrun; discriminate Hrun).
  destruct (X5_reported_arbitrage_clears_gate ParityScenario.venue "market" d)
    as (p & Hp & Hgt & _).
  - intros token. cbn. destruct (String.eqb token "yes-token");
      repeat constructor; intros H; discriminate H.
  - exact Hrun.
  - exists d, p. auto.
Defined.

Lemma Forall_concat_imap {A B} (P : B -> Prop) (f : nat -> A -> list B) (l : list A) :
  (forall i x, Forall P (f i x)) -> Forall P (concat (imap f l)).
Proof.
  revert f. induction l as [|x l IH]; intros f Hf; cbn; [constructor|].
  apply Forall_app. split; [apply Hf|]. apply IH. intros i y. apply Hf.
Qed.

Lemma Forall_concat_map {A B} (P : B -> Prop) (f : A -> list B) (l : list A) :
  (forall x, Forall P (f x)) -> Forall P (concat (map f l)).
Proof.
  intros Hf. induction l as [|x l IH]; cbn; [constructor|].
  apply Forall_app. split; [apply Hf | exact IH].
Qed.

(** X6: every opportunity [find_near_resolved_markets] returns has its
    probability inside the band asked for, a potential yield of one minus
    that probability, and the list comes highest yield first. *)
Theorem X6_near_resolved_search (v : Client.venue) (markets : list Client.market_data)
    (min_probability max_probability : Q) :
  let found := ClientOps.find_near_resolved_markets v markets
                 min_probability max_probability in
  Forall (fun o =>
            min_probability <= NearResolved.probability o
            /\ NearResolved.probability o <= max_probability
            /\ NearResolved.potential_yield o = 1 - NearResolved.probability o
            /\ 1 - max_probability <= NearResolved.potential_yield o)
         found
  /\ Sorted (fun a b => NearResolved.potential_yield b <= NearResolved.potential_yield a)
       found.
Proof.
  intros found. split; [|apply sorted_reverse_descending].
  unfold found, ClientOps.find_near_resolved_markets.
  rewrite List.Forall_forall. intros o Ho. apply sorted_reverse_In in Ho.
  revert o Ho. rewrite <- List.Forall_forall.
  apply Forall_concat_map. intros market. apply Forall_concat_imap. intros i token.
  unfold ClientOps.near_resolved_entry.
  destruct (Client.get_price _) as [prices|e]; [|constructor].
  destruct (le min_probability _) eqn:Hmin; cbn [andb]; [|constructor].
  destruct (le _ max_probability) eqn:Hmax; [|constructor].
  apply le_true in Hmin, Hmax.
  constructor; [|constructor]. cbn. repeat split; try assumption. lra.
Qed.

(** ** The near-resolved bankroll: closing and bookkeeping *)

(** X7: every operation of the near-resolved strategy that changes the
    bankroll moves one amount between its counters.  An execution takes
    the cost it books from the available capital, adds that same amount to
    the total invested and files it as the cost of the position; a
    resolution sweep adds the shares of the position it drops to the
    available capital and the same number to the total returned; a close
    does the same with the proceeds of the sale.  Nothing else changes a
    counter.  The counters are sums the machine rounds one by one, so
    capital minus invested need not be the capital at hand: from 1000
    dollars, dry-run fills of 100 shares at 0.97 and 33 at 0.96 leave
    871.32000000000005 at hand and 128.68000000000001 invested, and 1000
    minus that is 871.31999999999994. *)
Theorem X7_bankroll_bookkeeping (validate : NearResolved.signal -> bool)
    (dry_run : bool) (v : Client.venue) (now : datetime)
    (a : SnipeOps.action) (st st' : NearResolved.state) :
  SnipeOps.act validate dry_run v now st a = Ok st' ->
  match a with
  | SnipeOps.Open sg =>
      st' = st
      \/ exists position,
           NearResolved._active_positions st'
           = <[StrategyBase.market_id sg := position]> (NearResolved._active_positions st)
           /\ NearResolved._available_capital st'
              = NearResolved._available_capital st - NearResolved.cost position
           /\ NearResolved._total_invested st'
              = NearResolved._total_invested st + NearResolved.cost position
           /\ NearResolved._total_returned st' = NearResolved._total_returned st
  | SnipeOps.Sweep market_id =>
      st' = st
      \/ exists position,
           NearResolved._active_positions st !! market_id = Some position
           /\ NearResolved._active_positions st'
              = delete market_id (NearResolved._active_positions st)
           /\ NearResolved._available_capital st'
              = NearResolved._available_capital st + NearResolved.shares position
           /\ NearResolved._total_returned st'
              = NearResolved._total_returned st + NearResolved.shares position
           /\ NearResolved._total_invested st' = NearResolved._total_invested st
  | SnipeOps.Close market_id =>
      st' = st
      \/ exists position proceeds,
           NearResolved._active_positions st !! market_id = Some position
           /\ NearResolved._active_positions st'
              = delete market_id (NearResolved._active_positions st)
           /\ NearResolved._available_capital st'
              = NearResolved._available_capital st + proceeds
           /\ NearResolved._total_returned st'
              = NearResolved._total_returned st + proceeds
           /\ NearResolved._total_invested st' = NearResolved._total_invested st
  end
  /\ (Binary64.book_cost (Binary64.book_cost (1000, 0) (100 * 0.97)) (33 * 0.96)
      = (871.32000000000005, 128.68000000000001))%float
  /\ (1000 - 128.68000000000001 = 871.31999999999994)%float.
Proof.
  intros Hact. split; [|split; vm_compute; reflexivity].
  destruct a as [sg|market_id|market_id]; cbn [SnipeOps.act] in Hact.
  - unfold NearResolved.execute in Hact.
    destruct (validate sg); cbn [negb] in Hact;
      [|injection Hact as <-; left; reflexivity].
    destruct (if gt _ _ then _ else _) as [sz|e]; cbn [mbind result_bind] in Hact;
      [|discriminate].
    destruct (NearResolved.accepted _); cbn [mbind result_bind fst] in Hact;
      injection Hact as <-; [|left; reflexivity].
    right. eexists. cbn. repeat split.
  - injection Hact as <-. unfold NearResolved.resolve.
    destruct (_ !! market_id) as [position|] eqn:Hheld; [|left; reflexivity].
    destruct (Client.resolved _); [|left; reflexivity].
    right. exists position. cbn. repeat split.
  - unfold SnipeOps.close_position in Hact.
    destruct (_ !! market_id) as [position|] eqn:Hheld;
      [|injection Hact as <-; left; reflexivity].
    destruct (ClientOps.place_market_order _ _ _ _ _ _) as [order|e];
      cbn [mbind result_bind] in Hact; [|discriminate].
    destruct (SnipeOps.sold _); cbn [mbind result_bind fst] in Hact;
      injection Hact as <-; [|left; reflexivity].
    right. exists position. eexists. cbn. repeat split.
Qed.

(** Scenario S2 bought in dry run. *)
Lemma X7_bankroll_bookkeeping_witness :
  exists st',
    SnipeOps.act FillScenario.accept_all true FillScenario.full_filling 0
      FillScenario.bankroll (SnipeOps.Open FillScenario.snipe) = Ok st'
    /\ (st' = FillScenario.bankroll
        \/ exists position,
             NearResolved._active_positions st'
             = <["market" := position]> (NearResolved._active_positions FillScenario.bankroll)
             /\ NearResolved._available_capital st'
                = NearResolved._available_capital FillScenario.bankroll
                  - NearResolved.cost position
             /\ NearResolved._total_invested st'
                = NearResolved._total_invested FillScenario.bankroll
                  + NearResolved.cost position
             /\ NearResolved._total_returned st'
                = NearResolved._total_returned FillScenario.bankroll).
Proof.
  eexists. split; [reflexivity|].
  exact (proj1 (X7_bankroll_bookkeeping FillScenario.accept_all true
                  FillScenario.full_filling 0 (SnipeOps.Open FillScenario.snipe)
                  FillScenario.bankroll _ eq_refl)).
Defined.

(** X8: in dry run, closing a held position sells all of its shares at the
    best bid of the token's book - at 0 when the book has no bid: the
    proceeds join the available capital, the position leaves the table and
    the result reports proceeds minus cost.  Closing a market with no
    position changes nothing and fails. *)
Theorem X8_dry_run_close (v : Client.venue) (now : datetime)
    (st : NearResolved.state) (market_id : string) (position : NearResolved.position) :
  NearResolved._active_positions st !! market_id = Some position ->
  let best_bid :=
    match Client.raw_bids (Client.book_of v (NearResolved.pos_token_id position)) with
    | l :: _ => Client.level_price l
    | [] => 0
    end in
  (exists st' r,
      SnipeOps.close_position true v now st market_id = Ok (st', r)
      /\ NearResolved._available_capital st'
         = NearResolved._available_capital st + NearResolved.shares position * best_bid
      /\ NearResolved._active_positions st' !! market_id = None
      /\ StrategyBase.success r = true
      /\ StrategyBase.profit_loss r
         = NearResolved.shares position * best_bid - NearResolved.cost position)
  /\ (forall st0 other,
        NearResolved._active_positions st0 !! other = None ->
        exists r, SnipeOps.close_position true v now st0 other = Ok (st0, r)
                  /\ StrategyBase.success r = false).
Proof.
  intros Hheld best_bid. split.
  - unfold SnipeOps.close_position, ClientOps.place_market_order. rewrite Hheld.
    destruct (client_get_price_ok (Client.book_of v (NearResolved.pos_token_id position)))
      as [q Hq].
    rewrite Hq. apply client_get_price_ask in Hq as [_ Hbid].
    cbn [mbind result_bind Client.place_order Client.status Client.filled_amount
         Client.avg_price SnipeOps.sold String.eqb Ascii.eqb Bool.eqb orb].
    rewrite Hbid. eexists _, _. split; [reflexivity|]. cbn.
    repeat split. apply lookup_delete_eq.
  - intros st0 other Hnone. unfold SnipeOps.close_position. rewrite Hnone.
    eexists. split; reflexivity.
Qed.

(** The bankroll after scenario S2 was bought, closed against a book with
    no bids: the 140 dollars are gone. *)
Lemma X8_dry_run_close_witness :
  exists st' r,
    SnipeOps.close_position true FillScenario.full_filling 0
      (NearResolved.mkState 860
         (<["market" := NearResolved.mkPos "yes-token" (14000 # 97) (97 # 100) 140
                          (14000 # 97) ((14000 # 97) - 140) 0 "Will BTC close above 100k?"]> ∅)
         140 0) "market" = Ok (st', r)
    /\ NearResolved._available_capital st' == 860
    /\ StrategyBase.profit_loss r == -140.
Proof.
  destruct (X8_dry_run_close FillScenario.full_filling 0
              (NearResolved.mkState 860
                 (<["market" := NearResolved.mkPos "yes-token" (14000 # 97) (97 # 100) 140
                                  (14000 # 97) ((14000 # 97) - 140) 0
                                  "Will BTC close above 100k?"]> ∅)
                 140 0) "market"
              (NearResolved.mkPos "yes-token" (14000 # 97) (97 # 100) 140
                 (14000 # 97) ((14000 # 97) - 140) 0 "Will BTC close above 100k?"))
    as ((st' & r & Hrun & Hcap & _ & _ & Hprofit) & _).
  - apply lookup_insert_eq.
  - exists st', r. split; [exact Hrun|]. rewrite Hcap, Hprofit. split; reflexivity.
Defined.

(** ** The near-resolved scan *)





(** A dry-run execution whose cost fits the capital at hand. *)
Lemma execute_dry_run_plain (validate : NearResolved.signal -> bool)
    (v : Client.venue) (now : datetime) (st : NearResolved.state)
    (sg : NearResolved.signal) :
  validate sg = true ->
  StrategyBase.size sg * StrategyBase.price sg <= NearResolved._available_capital st ->
  NearResolved.execute validate true v now st sg
  = Ok ({| NearResolved._available_capital :=
             NearResolved._available_capital st
             - StrategyBase.size sg * StrategyBase.price sg;
           NearResolved._active_positions :=
             <[StrategyBase.market_id sg :=
                 NearResolved.mkPos (StrategyBase.token_id sg) (StrategyBase.size sg)
                   (StrategyBase.price sg)
                   (StrategyBase.size sg * StrategyBase.price sg)
                   (StrategyBase.size sg)
                   (StrategyBase.size sg
                    - StrategyBase.size sg * StrategyBase.price sg)
                   now (NearResolved.meta_question (StrategyBase.metadata sg))]>
             (NearResolved._active_positions st);
           NearResolved._total_invested :=
             NearResolved._total_invested st
             + StrategyBase.size sg * StrategyBase.price sg;
           NearResolved._total_returned := NearResolved._total_returned st |},
        StrategyBase.mkResult NearResolved.name true 0 1 1 []).
Proof.
  intros Hvalid Hcost. unfold NearResolved.execute. rewrite Hvalid. cbn [negb].
  apply gt_false in Hcost as ->. reflexivity.
Qed.

(** X10: the position table holds one position per market.  In dry run,
    two executions on the same market followed by its resolution pay out
    the shares of the second execution only: the capital spent on the
    first is never returned. *)
Theorem X10_second_fill_replaces_first (validate : NearResolved.signal -> bool)
    (v : Client.venue) (now : datetime) (st : NearResolved.state)
    (first second : NearResolved.signal) :
  validate first = true ->
  validate second = true ->
  StrategyBase.market_id first = StrategyBase.market_id second ->
  Client.resolved (Client.market_of v (StrategyBase.market_id second)) = true ->
  0 <= StrategyBase.size second * StrategyBase.price second ->
  StrategyBase.size first * StrategyBase.price first
  + StrategyBase.size second * StrategyBase.price second
  <= NearResolved._available_capital st ->
  exists st',
    SnipeOps.run validate true v now st
      [SnipeOps.Open first; SnipeOps.Open second;
       SnipeOps.Sweep (StrategyBase.market_id second)] = Ok st'
    /\ NearResolved._available_capital st'
       == NearResolved._available_capital st
          - StrategyBase.size first * StrategyBase.price first
          - StrategyBase.size second * StrategyBase.price second
          + StrategyBase.size second
    /\ NearResolved._total_returned st'
       == NearResolved._total_returned st + StrategyBase.size second
    /\ NearResolved._active_positions st' !! StrategyBase.market_id second = None.
Proof.
  intros Hv1 Hv2 Hsame Hresolved Hc2 Hsum.
  cbn [SnipeOps.run SnipeOps.act].
  rewrite (execute_dry_run_plain validate v now st first Hv1) by lra.
  cbn [mbind result_bind fst].
  rewrite (execute_dry_run_plain validate v now _ second Hv2) by (cbn; lra).
  cbn [mbind result_bind fst]. unfold NearResolved.resolve.
  cbn [NearResolved._active_positions]. rewrite lookup_insert_eq, Hresolved.
  eexists. split; [reflexivity|]. cbn. split; [lra|]. split; [lra|].
  apply lookup_delete_eq.
Qed.

(** A hundred shares at 0.97 twice on the resolved market of scenario S2,
    from 1,000 dollars: 194 dollars spent, 100 paid out. *)
Lemma X10_second_fill_replaces_first_witness :
  let sg := StrategyBase.set_size FillScenario.snipe 100 in
  exists st',
    SnipeOps.run FillScenario.accept_all true FillScenario.full_filling 0
      FillScenario.bankroll
      [SnipeOps.Open sg; SnipeOps.Open sg; SnipeOps.Sweep "market"] = Ok st'
    /\ NearResolved._available_capital st' == 906.
Proof.
  destruct (X10_second_fill_replaces_first FillScenario.accept_all
              FillScenario.full_filling 0 FillScenario.bankroll
              (StrategyBase.set_size FillScenario.snipe 100)
              (StrategyBase.set_size FillScenario.snipe 100))
    as (st' & Hrun & Hcap & _); try reflexivity.
  - intros H; discriminate H.
  - intros H; discriminate H.
  - exists st'. split; [exact Hrun|]. rewrite Hcap. reflexivity.
Defined.

(** ** Market making: the two quotes *)

Section quotes.
Import SpreadTrading.
Variable cfg : params.

(** With a non-negative cap, a long inventory never bids for more than the
    signal asks, and a short one never offers more. *)
Lemma quote_sizes_lean (signal_size imbalance : Q) :
  0 <= max_inventory_imbalance cfg -> 0 <= signal_size ->
  (0 <= imbalance ->
   fst (quote_sizes cfg signal_size imbalance) <= signal_size
   /\ signal_size <= snd (quote_sizes cfg signal_size imbalance))
  /\ (imbalance <= 0 ->
      snd (quote_sizes cfg signal_size imbalance) <= signal_size
      /\ signal_size <= fst (quote_sizes cfg signal_size imbalance)).
Proof.
  intros Hcap Hsize. unfold quote_sizes, abs.
  split; intros Hi; repeat split_test; cbn; nra.
Qed.

End quotes.

(** A venue that answers takes the order as [Client.place_order] says. *)
Lemma live_place_order_answered (dry_run : bool) (v : Client.venue) (now : datetime)
    (token : string) (sd : Client.order_side) (price size : Q)
    (ty : Client.order_type) :
  Live.place_order dry_run (Live.answering v) now token sd price size ty
  = Ok (Client.place_order dry_run v now token sd price size ty).
Proof. destruct dry_run; reflexivity. Qed.

(** X11: a valid signal of the market maker is quoted on both sides.  The
    sizes of the two orders are those of the inventory skew: with a
    non-negative cap, a long inventory never bids for more than the
    signal's size nor offers less, and a short inventory the other way
    round.  In dry run both orders are made up, nothing is sent, the
    quotes are filed and the result is a success of two trades and no
    profit.  Live, the quotes are filed and the result is that success
    exactly when the venue answers both orders.  When the request for
    the bid raises, the ask is never sent and nothing is filed; when the
    request for the ask raises after the bid was answered, the result is
    a failure without a trade and nothing is filed, although the venue
    has answered the bid. *)
Theorem X11_two_sided_quote (cfg : SpreadTrading.params)
    (validate : SpreadOps.signal -> bool) (dry_run : bool) (v : Live.venue)
    (now : datetime) (str : exn -> string)
    (inventory : gmap string SpreadTrading.inventory) (sg : SpreadOps.signal) :
  validate sg = true ->
  0 < SpreadTrading.order_size cfg ->
  0 <= SpreadTrading.max_inventory_imbalance cfg ->
  0 <= StrategyBase.size sg ->
  let held :=
    match inventory !! StrategyBase.token_id sg with
    | Some p => SpreadTrading.size p
    | None => 0
    end in
  exists bid_size ask_size,
    SpreadTrading.execute_sizes cfg inventory (StrategyBase.token_id sg)
      (StrategyBase.size sg) = Ok (bid_size, ask_size)
    /\ (0 <= held -> bid_size <= StrategyBase.size sg <= ask_size)
    /\ (held <= 0 -> ask_size <= StrategyBase.size sg <= bid_size)
    /\ let bid := Client.mkOrder (StrategyBase.token_id sg) Client.BUY
                    (SpreadOps.our_bid (StrategyBase.metadata sg)) bid_size Client.GTC in
       let ask := Client.mkOrder (StrategyBase.token_id sg) Client.SELL
                    (SpreadOps.our_ask (StrategyBase.metadata sg)) ask_size Client.GTC in
       let done := SpreadOps.execute cfg validate dry_run v now str inventory sg in
       let filed (placed : SpreadOps.active_orders) :=
         SpreadOps.active_token placed = StrategyBase.token_id sg
         /\ SpreadOps.bid_price placed = Client.order_price bid
         /\ SpreadOps.ask_price placed = Client.order_price ask
         /\ SpreadOps.bid_size placed = bid_size
         /\ SpreadOps.ask_size placed = ask_size in
       if dry_run then
         exists placed,
           done = ([], Some placed, StrategyBase.mkResult SpreadOps.name true 0 2 1 [])
           /\ filed placed
       else
         match Live.post_order v bid, Live.post_order v ask with
         | Ok _, Ok _ =>
             exists placed,
               done = ([bid; ask], Some placed,
                       StrategyBase.mkResult SpreadOps.name true 0 2 1 [])
               /\ filed placed
         | Ok _, Raise e =>
             done = ([bid], None, StrategyBase.mkResult SpreadOps.name false 0 0 1 [str e])
         | Raise e, _ =>
             done = ([], None, StrategyBase.mkResult SpreadOps.name false 0 0 1 [str e])
         end.
Proof.
  intros Hvalid Horder Hcap Hsize held.
  assert (Himb : exists imbalance,
             SpreadTrading._get_inventory_imbalance cfg inventory (StrategyBase.token_id sg)
             = Ok imbalance
             /\ (0 <= held -> 0 <= imbalance) /\ (held <= 0 -> imbalance <= 0)).
  { unfold SpreadTrading._get_inventory_imbalance. fold held. split_test.
    - exists 0. split; [reflexivity|]. split; intros _; lra.
    - rewrite truediv_ok by lra. eexists. split; [reflexivity|].
      assert (Hten : 0 < SpreadTrading.order_size cfg * 10) by lra.
      split; intros Hheld.
      + apply Qle_shift_div_l; [exact Hten | lra].
      + apply Qle_shift_div_r; [exact Hten | lra]. }
  destruct Himb as (imbalance & Himb & Hlong & Hshort).
  unfold SpreadOps.execute, SpreadTrading.execute_sizes.
  rewrite Hvalid, Himb. cbn [negb mbind result_bind].
  destruct (quote_sizes_lean cfg (StrategyBase.size sg) imbalance Hcap Hsize)
    as [Hl Hs].
  destruct (SpreadTrading.quote_sizes cfg (StrategyBase.size sg) imbalance)
    as [bid_size ask_size] eqn:Hsizes.
  cbn [fst snd] in Hl, Hs.
  exists bid_size, ask_size. split; [reflexivity|].
  split; [intros Hheld; apply Hl, Hlong, Hheld|].
  split; [intros Hheld; apply Hs, Hshort, Hheld|].
  unfold Live.place_order, Live.posted. destruct dry_run.
  - eexists. split; [reflexivity|]. cbn. repeat split.
  - destruct (Live.post_order v (Client.mkOrder _ Client.BUY _ _ _)) as [bid_reply|e];
      cbn [mbind result_bind]; [|reflexivity].
    destruct (Live.post_order v (Client.mkOrder _ Client.SELL _ _ _)) as [ask_reply|e];
      cbn [mbind result_bind]; [|reflexivity].
    eexists. split; [reflexivity|]. cbn. repeat split.
Qed.

(** 2,000 shares held under the default configuration: the signal for
    100 shares is quoted on both sides in dry run, the bid below its size
    and the ask above it. *)
Lemma X11_two_sided_quote_witness :
  exists bid_size ask_size placed,
    SpreadOps.execute SpreadTrading.default_params (fun _ => true) true
      (Live.answering FillScenario.full_filling) 0 (fun _ => ""%string)
      (SpreadTrading.update_inventory ∅ "token" Client.BUY 2000 (1 # 2))
      (StrategyBase.mkSignal SpreadOps.name StrategyBase.BUY "market" "token"
         "BOTH" (1 # 2) 100 (8 # 10) (4 # 100)
         (SpreadOps.mkMeta (45 # 100) (55 # 100) (451 # 1000) (549 # 1000)
            (98 # 1000) ""))
    = ([], Some placed, StrategyBase.mkResult SpreadOps.name true 0 2 1 [])
    /\ SpreadOps.bid_size placed = bid_size
    /\ SpreadOps.ask_size placed = ask_size
    /\ bid_size <= 100 <= ask_size.
Proof.
  destruct (X11_two_sided_quote SpreadTrading.default_params (fun _ => true) true
              (Live.answering FillScenario.full_filling) 0 (fun _ => ""%string)
              (SpreadTrading.update_inventory ∅ "token" Client.BUY 2000 (1 # 2))
              (StrategyBase.mkSignal SpreadOps.name StrategyBase.BUY "market" "token"
                 "BOTH" (1 # 2) 100 (8 # 10) (4 # 100)
                 (SpreadOps.mkMeta (45 # 100) (55 # 100) (451 # 1000) (549 # 1000)
                    (98 # 1000) "")))
    as (bid_size & ask_size & _ & Hlong & _ & placed & Hrun & _ & _ & _ & Hb & Ha).
  - reflexivity.
  - reflexivity.
  - intros H; discriminate H.
  - intros H; discriminate H.
  - exists bid_size, ask_size, placed. split; [exact Hrun|].
    split; [exact Hb|]. split; [exact Ha|]. apply Hlong. intros H; discriminate H.
Defined.

(** ** Market making: the inventory *)



(** ** Compounding: sizing, the scan and the ledger *)

Section compound_size.
Import Compounding CompoundingOps.

Lemma min_le_l (a b : Q) : min a b <= a.
Proof. unfold min. split_test; lra. Qed.

Lemma min_le_r (a b : Q) : min a b <= b.
Proof. unfold min. split_test; lra. Qed.


(** The odds [b] the sizing assumes are positive whatever the expected
    profit, so the Kelly quotient never divides by zero. *)
Lemma compound_size_formula (max_position_pct : Q) (l : ledger)
    (confidence expected_profit : Q) :
  let b := if gt expected_profit 0 then expected_profit / 1 else 1 # 100 in
  0 < b
  /\ calculate_compound_size max_position_pct l confidence expected_profit
     = Ok (if le (_current_capital l) 0 then 0
           else _current_capital l
                * min (max 0 ((confidence * b - (1 - confidence)) / b * (5 # 10)))
                      max_position_pct).
Proof.
  intros b.
  assert (Hb : 0 < b).
  { subst b. split_test; [|reflexivity]. unfold Qdiv. rewrite Qmult_1_r. exact Hgt. }
  split; [exact Hb|]. unfold calculate_compound_size. split_test; [reflexivity|].
  fold b. apply gt_true in Hb as Hgt. rewrite Hgt, truediv_ok by lra. reflexivity.
Qed.

End compound_size.

(** The size is never above the cap's share of the capital. *)
Lemma compound_size_capped (max_position_pct : Q) (l : Compounding.ledger)
    (confidence expected_profit : Q) :
  0 <= max_position_pct ->
  exists sz,
    CompoundingOps.calculate_compound_size max_position_pct l confidence expected_profit
    = Ok sz
    /\ (0 < sz -> sz <= Compounding._current_capital l * max_position_pct).
Proof.
  intros Hcap.
  destruct (compound_size_formula max_position_pct l confidence expected_profit)
    as [_ ->].
  eexists. split; [reflexivity|]. split_test; [lra|].
  intros _. pose proof (min_le_r
    (max 0 ((confidence * (if gt expected_profit 0 then expected_profit / 1 else 1 # 100)
             - (1 - confidence))
            / (if gt expected_profit 0 then expected_profit / 1 else 1 # 100)
            * (5 # 10)))
    max_position_pct) as Hmin.
  nra.
Qed.



Section compound_scan.
Import Compounding CompoundingOps Kept.
Context {M : Type}.
Variable min_certainty max_position_pct : Q.
Variable l : ledger.
Hypothesis cap_nonnegative : 0 <= max_position_pct.

Lemma keep_kept (signals : list (StrategyBase.TradeSignal M)) :
  Forall (kept_from min_certainty max_position_pct l signals)
         (keep min_certainty max_position_pct l signals).
Proof.
  induction signals as [|sg rest IH]; cbn [keep]; [constructor|].
  assert (Hrest : Forall (kept_from min_certainty max_position_pct l (sg :: rest))
                    (keep min_certainty max_position_pct l rest)).
  { eapply Forall_impl; [exact IH|].
    intros kept (Hc & Hs & Hup & original & Hin & Hsame & Hsize).
    repeat split; try assumption. exists original. split; [right; exact Hin|].
    split; assumption. }
  split_test; [|exact Hrest].
  destruct (compound_size_capped max_position_pct l (StrategyBase.confidence sg)
              (StrategyBase.expected_profit_pct sg) cap_nonnegative)
    as (sz & Hsz & Hpos).
  rewrite Hsz. split_test; [|exact Hrest].
  constructor; [|exact Hrest].
  pose proof (Hpos Hgt) as Hup.
  repeat split; try assumption. exists sg. split; [left; reflexivity|].
  split; [reflexivity | exact Hsz].
Qed.

Lemma keep_no_capital (signals : list (StrategyBase.TradeSignal M)) :
  _current_capital l <= 0 -> keep min_certainty max_position_pct l signals = [].
Proof.
  intros Hcap. induction signals as [|sg rest IH]; cbn [keep]; [reflexivity|].
  unfold calculate_compound_size. apply le_true in Hcap as Hle. rewrite Hle.
  destruct (ge _ _); [|exact IH].
  assert (Hgt : gt 0 0 = false) by reflexivity. rewrite Hgt. exact IH.
Qed.

End compound_scan.

(** X14: what the compounding scan returns comes highest expected value
    (confidence times expected profit) first; each signal is a signal of
    an enabled sub-strategy whose scan answered, at least [min_certainty]
    confident, whose size has been replaced by the compound size, which
    is positive and at most [max_position_pct] of the current capital.
    Without capital the scan returns nothing. *)
Theorem X14_compound_scan {M : Type} (min_certainty max_position_pct : Q)
    (l : Compounding.ledger) (strategies : list (CompoundingOps.sub_strategy M)) :
  0 <= max_position_pct ->
  let found := CompoundingOps.scan min_certainty max_position_pct l strategies in
  Sorted (fun a b =>
            StrategyBase.confidence b * StrategyBase.expected_profit_pct b
            <= StrategyBase.confidence a * StrategyBase.expected_profit_pct a) found
  /\ Forall (fun sg =>
               exists sub signals,
                 In sub strategies
                 /\ CompoundingOps.enabled sub = true
                 /\ CompoundingOps.scanned sub = Ok signals
                 /\ Kept.kept_from min_certainty max_position_pct l signals sg)
            found
  /\ (Compounding._current_capital l <= 0 -> found = []).
Proof.
  intros Hcap found. subst found. unfold CompoundingOps.scan.
  split; [apply sorted_reverse_descending|]. split.
  - rewrite List.Forall_forall. intros sg Hsg. apply sorted_reverse_In in Hsg.
    apply in_concat in Hsg as (sigs & Hsigs & Hsg).
    apply in_map_iff in Hsigs as (sub & <- & Hsub).
    unfold CompoundingOps.scan_strategy in Hsg.
    destruct (CompoundingOps.enabled sub) eqn:Hon; [|destruct Hsg].
    destruct (CompoundingOps.scanned sub) as [signals|e] eqn:Hscan; [|destruct Hsg].
    exists sub, signals. split; [exact Hsub|]. split; [exact Hon|].
    split; [exact Hscan|].
    pose proof (keep_kept min_certainty max_position_pct l Hcap signals) as Hall.
    rewrite List.Forall_forall in Hall. apply Hall, Hsg.
  - intros Hbroke.
    assert (Hnone : concat (map (CompoundingOps.scan_strategy min_certainty
                                   max_position_pct l) strategies) = []).
    { induction strategies as [|sub rest IH]; [reflexivity|]. cbn. rewrite IH.
      unfold CompoundingOps.scan_strategy.
      destruct (CompoundingOps.enabled sub); [|reflexivity].
      destruct (CompoundingOps.scanned sub); [|reflexivity].
      rewrite keep_no_capital by exact Hbroke. reflexivity. }
    rewrite Hnone. reflexivity.
Qed.

(** 1,000 dollars, a cap of 10 %: of two signals of an enabled
    sub-strategy, the one of confidence 0.98 and expected profit 10 % is
    kept, sized at most 100 dollars; the one of confidence 0.90 is not. *)
Lemma X14_compound_scan_witness :
  Forall (fun sg : StrategyBase.TradeSignal unit =>
            95 # 100 <= StrategyBase.confidence sg /\ StrategyBase.size sg <= 100)
    (CompoundingOps.scan (95 # 100) (1 # 10)
       (Compounding.set_initial_capital Compounding.init 1000)
       [CompoundingOps.mkSub true
          (Ok [StrategyBase.mkSignal "NearResolvedSniping" StrategyBase.BUY "m" "t" "YES"
                 (98 # 100) 50 (98 # 100) (10 # 100) tt;
               StrategyBase.mkSignal "NearResolvedSniping" StrategyBase.BUY "m" "u" "YES"
                 (90 # 100) 50 (90 # 100) (10 # 100) tt])]).
Proof.
  destruct (X14_compound_scan (95 # 100) (1 # 10)
              (Compounding.set_initial_capital Compounding.init 1000)
              [CompoundingOps.mkSub true
                 (Ok [StrategyBase.mkSignal "NearResolvedSniping" StrategyBase.BUY "m" "t"
                        "YES" (98 # 100) 50 (98 # 100) (10 # 100) tt;
                      StrategyBase.mkSignal "NearResolvedSniping" StrategyBase.BUY "m" "u"
                        "YES" (90 # 100) 50 (90 # 100) (10 # 100) tt])])
    as (_ & Hall & _).
  - intros H; discriminate H.
  - eapply Forall_impl; [exact Hall|]. cbn.
    intros sg (sub & signals & _ & _ & _ & Hc & _ & Hup & _).
    split; [exact Hc|]. cbn in Hup. lra.
Defined.

Section ledger_sums.
Import Compounding CompoundingOps.







End ledger_sums.




Section ledger_ratios.
Import Compounding CompoundingOps.




End ledger_ratios.



(** ** The Binance connector: reconnection, reference price, price change *)

(** X17: the delay slept before reconnecting doubles with every failure
    in a row and is capped at 60 seconds: after [n] failures it is
    min(2^n, 60), so it never falls from one failure to the next, starts
    at one second and stays at 60 from the sixth failure on. *)
Theorem X17_reconnect_backoff (failures : nat) :
  BinanceOps.delay_after failures = Z.min (2 ^ Z.of_nat failures) 60
  /\ (1 <= BinanceOps.delay_after failures <= 60)%Z
  /\ (BinanceOps.delay_after failures <= BinanceOps.delay_after (S failures))%Z
  /\ ((6 <= failures)%nat -> BinanceOps.delay_after failures = 60%Z).
Proof.
  assert (Hclosed : forall n, BinanceOps.delay_after n = Z.min (2 ^ Z.of_nat n) 60).
  { induction n as [|n IH]; [reflexivity|].
    cbn [BinanceOps.delay_after]. unfold BinanceOps.next_delay. rewrite IH.
    rewrite Nat2Z.inj_succ, Z.pow_succ_r by lia. lia. }
  assert (Hpow : forall n : nat, (1 <= 2 ^ Z.of_nat n)%Z).
  { intros n. apply (Z.pow_le_mono_r 2 0); lia. }
  split; [apply Hclosed|]. split; [|split].
  - rewrite Hclosed. specialize (Hpow failures). lia.
  - rewrite !Hclosed, Nat2Z.inj_succ, Z.pow_succ_r by lia.
    specialize (Hpow failures). lia.
  - intros Hsix. rewrite Hclosed.
    assert (H64 : (2 ^ 6 <= 2 ^ Z.of_nat failures)%Z)
      by (apply Z.pow_le_mono_r; lia).
    change (2 ^ 6)%Z with 64%Z in H64. lia.
Qed.

(** The seventh failure in a row still sleeps 60 seconds. *)
Lemma X17_reconnect_backoff_witness : BinanceOps.delay_after 7 = 60%Z.
Proof.
  destruct (X17_reconnect_backoff 7) as (_ & _ & _ & Hcap).
  apply Hcap. repeat constructor.
Defined.





Section price_change.
Import ExchangeBase BinanceOps.


End price_change.





(** ** The orchestrator: what a session adds up to *)

Section session.
Import Bot.
Variable max_daily_loss : Q.

(** A strategy that raised leaves the totals of the iteration as they
    were, wherever it stands among the others. *)
Lemma totals_skip_raised (before after : list outcome) (trades : nat) (profit : Q) :
  totals (before ++ raised :: after) trades profit
  = totals (before ++ after) trades profit.
Proof.
  revert trades profit. induction before as [|o before IH]; intros trades profit;
    [reflexivity|].
  destruct o; cbn; apply IH.
Qed.

(** The loop, from any state: it ran on a prefix of the ticks, its state
    is the fold of [run_once] over that prefix, and it reports the risk
    limit exactly on a state that breaches it, provided the state it
    started from did not. *)
Lemma run_loop_accounts (ticks : list tick) (st st' : state) (why : stop) (i n : nat) :
  _check_risk_limits max_daily_loss st = true ->
  run_loop max_daily_loss st ticks i = (st', why, n) ->
  (i <= n <= i + length ticks)%nat
  /\ st' = fold_left run_once (firstn (n - i) ticks) st
  /\ (why = risk_limit <-> _check_risk_limits max_daily_loss st' = false)
  /\ (why = ticks_exhausted -> n = (i + length ticks)%nat).
Proof.
  revert st i. induction ticks as [|tk rest IH]; intros st i Hsafe;
    cbn [run_loop length].
  - intros [= <- <- <-]. rewrite Nat.sub_diag. cbn.
    split; [lia|]. split; [reflexivity|]. split; [|lia].
    rewrite Hsafe. split; discriminate.
  - destruct (shutdown_signal tk).
    { intros [= <- <- <-]. rewrite Nat.sub_diag. cbn.
      split; [lia|]. split; [reflexivity|]. rewrite Hsafe.
      split; [split; discriminate | discriminate]. }
    destruct (duration_reached tk).
    { intros [= <- <- <-]. rewrite Nat.sub_diag. cbn.
      split; [lia|]. split; [reflexivity|]. rewrite Hsafe.
      split; [split; discriminate | discriminate]. }
    destruct (_check_risk_limits max_daily_loss (run_once st tk)) eqn:Hrisk.
    + intros Hrun. destruct (IH _ _ Hrisk Hrun) as (Hn & Hst & Hwhy & Hall).
      split; [lia|]. split; [|split; [exact Hwhy | intros H; rewrite (Hall H); lia]].
      replace (n - i)%nat with (S (n - S i)) by lia. exact Hst.
    + intros [= <- <- <-]. replace (S i - i)%nat with 1%nat by lia. cbn.
      split; [lia|]. split; [reflexivity|]. rewrite Hrisk.
      split; [split; reflexivity | discriminate].
Qed.

End session.

(** X21: with a non-negative loss limit, a session ran its iterations on
    a prefix of the turns it was given: the state it ends in is the fold
    of [run_once] over that prefix, starting from no profit and no trade.
    It reports the risk limit if and only if the total profit it ends
    with is below minus the limit; if it ran out of turns it ran them
    all.  Within an iteration a strategy that raised changes neither
    total, wherever it stands among the others. *)
Theorem X21_session_accounting (max_daily_loss : Q) (ticks : list Bot.tick)
    (st : Bot.state) (why : Bot.stop) (n : nat) :
  0 <= max_daily_loss ->
  Bot.run max_daily_loss ticks = (st, why, n) ->
  (n <= length ticks)%nat
  /\ st = fold_left Bot.run_once (firstn n ticks) (Bot.mkState 0 0)
  /\ (why = Bot.risk_limit <-> Bot._total_profit st < - max_daily_loss)
  /\ (why = Bot.ticks_exhausted -> n = length ticks)
  /\ (forall before after trades profit,
        Bot.totals (before ++ Bot.raised :: after) trades profit
        = Bot.totals (before ++ after) trades profit).
Proof.
  intros Hlimit Hrun. unfold Bot.run in Hrun.
  assert (Hstart : Bot._check_risk_limits max_daily_loss (Bot.mkState 0 0) = true).
  { unfold Bot._check_risk_limits. cbn.
    assert (Hsafe : lt 0 (- max_daily_loss) = false) by (apply lt_false; lra).
    rewrite Hsafe. reflexivity. }
  destruct (run_loop_accounts max_daily_loss ticks _ _ _ _ _ Hstart Hrun)
    as (Hn & Hst & Hwhy & Hall).
  rewrite Nat.sub_0_r in Hst. split; [lia|]. split; [exact Hst|].
  split; [|split; [exact Hall | apply totals_skip_raised]].
  rewrite Hwhy. unfold Bot._check_risk_limits.
  destruct (lt (Bot._total_profit st) (- max_daily_loss)) eqn:Hlt.
  - apply lt_true in Hlt. split; [intros _; exact Hlt | reflexivity].
  - apply lt_false in Hlt. split; [discriminate | intros H; lra].
Qed.

(** Scenario S6: the session stops on the first of its three turns,
    below the limit of 500. *)
Lemma X21_session_accounting_witness :
  exists st,
    Bot.run 500 RiskScenario.ticks = (st, Bot.risk_limit, 1%nat)
    /\ st = fold_left Bot.run_once (firstn 1 RiskScenario.ticks) (Bot.mkState 0 0)
    /\ Bot._total_profit st < - 500.
Proof.
  destruct (Bot.run 500 RiskScenario.ticks) as [[st why] n] eqn:Hrun.
  destruct (X21_session_accounting 500 RiskScenario.ticks st why n)
    as (_ & Hst & Hwhy & _).
  - intros H; discriminate H.
  - exact Hrun.
  - assert (Hshape : why = Bot.risk_limit /\ n = 1%nat)
      by (vm_compute in Hrun; split; congruence).
    destruct Hshape as [-> ->]. exists st. split; [reflexivity|].
    split; [exact Hst|]. apply Hwhy. reflexivity.
Defined.

(** ** The aggregator: the price buffer and the impulses it emits *)

Section buffer.
Import ExchangeBase Aggregator.

Lemma deque_append_spec {A} (maxlen : nat) (d : list A) (x : A) :
  (0 < maxlen)%nat ->
  exists dropped older,
    d ++ [x] = dropped ++ deque_append maxlen d x
    /\ deque_append maxlen d x = older ++ [x]
    /\ length (deque_append maxlen d x) = Nat.min (S (length d)) maxlen.
Proof.
  intros Hmax. unfold deque_append, last_n.
  set (k := (length (d ++ [x]) - maxlen)%nat).
  assert (Hlen : length (d ++ [x]) = S (length d))
    by (rewrite length_app; cbn; lia).
  assert (Hk : (k <= length d)%nat) by (subst k; lia).
  exists (firstn k (d ++ [x])), (skipn k d).
  split; [symmetry; apply firstn_skipn|]. split.
  - rewrite skipn_app. replace (k - length d)%nat with 0%nat by lia. reflexivity.
  - rewrite length_skipn, Hlen. subst k. lia.
Qed.

End buffer.

(** X22: an update is filed at the end of the buffer of its symbol, which
    keeps the last [_history_size] entries in arrival order: the buffer
    afterwards ends in the entry of the update and is what was there
    before, plus that entry, less what was dropped from the front.  The
    buffers of the other symbols and the settings are left alone, and the
    first update ever seen for a symbol emits no impulse, whatever its
    price. *)
Theorem X22_price_buffer (agg : Aggregator.t) (update : ExchangeBase.PriceUpdate) :
  (0 < Aggregator._history_size agg)%nat ->
  let agg' := fst (Aggregator._on_price_update agg update) in
  let entry := Aggregator.mkEntry (ExchangeBase.timestamp update)
                 (ExchangeBase.exchange update) (ExchangeBase.price update) in
  let before :=
    default [] (Aggregator._price_history agg !! ExchangeBase.symbol update) in
  exists after dropped older,
    Aggregator._price_history agg' !! ExchangeBase.symbol update = Some after
    /\ before ++ [entry] = dropped ++ after
    /\ after = older ++ [entry]
    /\ length after = Nat.min (S (length before)) (Aggregator._history_size agg)
    /\ (forall other,
          other <> ExchangeBase.symbol update ->
          Aggregator._price_history agg' !! other
          = Aggregator._price_history agg !! other)
    /\ Aggregator._exchanges agg' = Aggregator._exchanges agg
    /\ Aggregator._impulse_threshold agg' = Aggregator._impulse_threshold agg
    /\ Aggregator._impulse_window_ms agg' = Aggregator._impulse_window_ms agg
    /\ Aggregator._history_size agg' = Aggregator._history_size agg
    /\ (before = [] -> snd (Aggregator._on_price_update agg update) = Ok None).
Proof.
  intros Hsize agg' entry before.
  destruct (deque_append_spec (Aggregator._history_size agg) before entry Hsize)
    as (dropped & older & Hsplit & Hlast & Hlen).
  exists (Aggregator.deque_append (Aggregator._history_size agg) before entry),
    dropped, older.
  subst agg'. unfold Aggregator._on_price_update. cbn [fst snd].
  cbn [Aggregator._price_history Aggregator._exchanges Aggregator._impulse_threshold
       Aggregator._impulse_window_ms Aggregator._history_size].
  split; [apply lookup_insert_eq|]. split; [exact Hsplit|]. split; [exact Hlast|].
  split; [exact Hlen|].
  split; [intros other Hother; apply lookup_insert_ne; congruence|].
  repeat (split; [reflexivity|]).
  intros Hfirst. unfold Aggregator._check_impulse.
  cbn [Aggregator._price_history]. rewrite lookup_insert_eq.
  cbn [default from_option Datatypes.id]. fold before entry.
  rewrite Hlen, Hfirst. cbn [length].
  destruct (Aggregator._history_size agg) as [|[|k]]; [lia | reflexivity | reflexivity].
Qed.

(** BTC at 100 and 103 on record: the buffer for BTCUSDT holds two
    entries before the update at 103.5 and three after it. *)
Lemma X22_price_buffer_witness :
  exists after,
    Aggregator._price_history
      (fst (Aggregator._on_price_update ImpulseScenario.aggregator
              ImpulseScenario.update))
    !! ExchangeBase.symbol ImpulseScenario.update = Some after
    /\ length after = 3%nat.
Proof.
  destruct (X22_price_buffer ImpulseScenario.aggregator ImpulseScenario.update)
    as (after & dropped & older & Hafter & _ & _ & Hlen & _).
  - cbn. lia.
  - exists after. split; [exact Hafter|]. rewrite Hlen. reflexivity.
Defined.

Section impulse.
Import ExchangeBase Aggregator.




End impulse.



(** ** The aggregator: arbitrage between exchanges *)

Section extremes.
Context {A : Type}.
Variable key : A -> Q.



End extremes.

(** Filing an update keeps one entry per exchange and puts the update
    under its exchange. *)
Lemma dict_set_files (name : string) (update : ExchangeBase.PriceUpdate)
    (d : list (string * ExchangeBase.PriceUpdate)) :
  List.NoDup (map fst d) ->
  List.NoDup (map fst (AggregatorOps.dict_set name update d))
  /\ In (name, update) (AggregatorOps.dict_set name update d)
  /\ (forall other u, other <> name ->
        In (other, u) (AggregatorOps.dict_set name update d) <-> In (other, u) d).
Proof.
  induction d as [|[k u] rest IH]; cbn [AggregatorOps.dict_set map fst].
  - intros _. split; [constructor; [intros []|constructor]|].
    split; [left; reflexivity|]. intros other u' Hother. cbn.
    split; [intros [[= -> ->]|[]]; congruence | intros []].
  - intros Hnodup. apply List.NoDup_cons_iff in Hnodup as [Hk Hrest].
    destruct (String.eqb k name) eqn:Hname.
    + apply String.eqb_eq in Hname as ->. cbn [map fst].
      split; [constructor; assumption|]. split; [left; reflexivity|].
      intros other u' Hother. cbn. split; intros [[= <- <-]|Hin]; try congruence;
        right; exact Hin.
    + apply String.eqb_neq in Hname. destruct (IH Hrest) as (Hnd & Hin & Hothers).
      cbn [map fst]. split; [|split].
      * constructor; [|exact Hnd]. intros Hbad. apply Hk.
        apply in_map_iff in Hbad as ([k' u'] & Hk' & Hin').
        cbn in Hk'. subst k'. apply (Hothers k u' Hname) in Hin'.
        apply in_map_iff. exists (k, u'). split; [reflexivity | exact Hin'].
      * right. exact Hin.
      * intros other u' Hother. cbn. rewrite (Hothers other u' Hother). reflexivity.
Qed.



(** ** Parity: executing the pair *)

Section pair_execution.
Import YesNoArbitrage ArbitrageOps.
Variable cfg : params.
Variable validate : signal -> bool.
Variable v : Client.venue.
Variable now : datetime.
Variable str : exn -> string.
Variable format : option value -> string.

Lemma min_same (a : Q) : min a a = a.
Proof. unfold min. destruct (lt a a); reflexivity. Qed.

(** The dry run of a pair purchase with both prices in the metadata. *)
Lemma buy_both_dry_run (arbs : list active_arb) (sg : signal) (y n : Q) :
  StrategyBase.metadata sg !! "yes_price" = Some (Num y) ->
  StrategyBase.metadata sg !! "no_price" = Some (Num n) ->
  ~ y + n == 0 ->
  let pairs := min (StrategyBase.size sg) (max_position cfg / (y + n)) in
  _execute_buy_both cfg true v now arbs sg
  = Ok (arbs ++ [ {| arb_market_id := StrategyBase.market_id sg;
                     yes_shares := pairs;
                     no_shares := pairs;
                     arb_total_cost := pairs * y + pairs * n;
                     expected_return := pairs;
                     expected_profit := pairs - (pairs * y + pairs * n);
                     arb_time := now |} ],
        StrategyBase.mkResult name true (pairs - (pairs * y + pairs * n)) 2 1 []).
Proof.
  intros Hy Hn Htotal pairs. unfold _execute_buy_both.
  rewrite Hy, Hn. cbn [number mbind result_bind].
  rewrite truediv_ok by exact Htotal. cbn [mbind result_bind].
  fold pairs. cbn. rewrite min_same. reflexivity.
Qed.

End pair_execution.

(** A pair sale whose signal carries no price.  The dry run never gets
    as far as the orders; live, the orders go out without a price and
    are booked at the fill price of the venue, and fail only when the
    venue reports none. *)
Lemma sell_both_without_prices (now : datetime) :
  (exists profit,
     ArbitrageOps._execute_sell_both false PairSaleScenario.venue now
       PairSaleScenario.filling_unpriced PairSaleScenario.unpriced_sale
     = Ok (StrategyBase.mkResult YesNoArbitrage.name true profit 2 1 [])
     /\ profit == 2)
  /\ ArbitrageOps._execute_sell_both false PairSaleScenario.venue now
       PairSaleScenario.post_unpriced PairSaleScenario.unpriced_sale
     = Raise TypeError.
Proof.
  split; [|reflexivity]. eexists. split; [reflexivity|]. reflexivity.
Qed.

(** X25: in dry run, a valid pair-purchase signal whose two prices do not
    add up to zero is always executed: two trades, the same number of
    shares on both sides, the smaller of the size of the signal and of
    max_position / (yes + no).  The cost recorded is shares x yes +
    shares x no and the profit booked is the shares less that cost.  The
    cap on the shares holds the cost at [max_position] only as far as the
    machine's rounding goes: at asks 0.46 and 0.50 the dry run buys
    10416.666666666668 pairs for 10000.000000000002 dollars against a
    [max_position] of 10000.  A valid pair-sale signal is never executed
    in dry run, where no position is ever held: it fails with no trade.
    Either way the list of arbitrages held changes only by the purchase
    made. *)
Theorem X25_pair_dry_run (cfg : YesNoArbitrage.params)
    (validate : YesNoArbitrage.signal -> bool) (v : Client.venue) (now : datetime)
    (str : exn -> string) (format : option value -> string)
    (post_unpriced :
       string -> Client.order_side -> Q -> Client.order_type -> Client.order_reply)
    (arbs : list ArbitrageOps.active_arb) (sg : YesNoArbitrage.signal) :
  validate sg = true ->
  (forall y n,
      StrategyBase.metadata sg !! "arb_type" = Some (Str "BUY_BOTH") ->
      StrategyBase.metadata sg !! "yes_price" = Some (Num y) ->
      StrategyBase.metadata sg !! "no_price" = Some (Num n) ->
      ~ y + n == 0 ->
      exists entry profit,
        ArbitrageOps.execute cfg validate true v now str format post_unpriced arbs sg
        = (arbs ++ [entry], StrategyBase.mkResult YesNoArbitrage.name true profit 2 1 [])
        /\ ArbitrageOps.yes_shares entry = ArbitrageOps.no_shares entry
        /\ ArbitrageOps.yes_shares entry
           = min (StrategyBase.size sg) (YesNoArbitrage.max_position cfg / (y + n))
        /\ ArbitrageOps.yes_shares entry <= StrategyBase.size sg
        /\ ArbitrageOps.yes_shares entry <= YesNoArbitrage.max_position cfg / (y + n)
        /\ ArbitrageOps.arb_total_cost entry
           = ArbitrageOps.yes_shares entry * y + ArbitrageOps.yes_shares entry * n
        /\ ArbitrageOps.expected_profit entry = profit
        /\ profit = ArbitrageOps.yes_shares entry - ArbitrageOps.arb_total_cost entry)
  /\ (StrategyBase.metadata sg !! "arb_type" = Some (Str "SELL_BOTH") ->
      ArbitrageOps.execute cfg validate true v now str format post_unpriced arbs sg
      = (arbs, StrategyBase.mkResult YesNoArbitrage.name false 0 0 1
                 ["No existing positions to sell for SELL_BOTH arb"%string]))
  /\ (Binary64.pairs_to_buy 20000 10000 0.46 0.50 = 10416.666666666668)%float
  /\ (Binary64.pair_cost (Binary64.pairs_to_buy 20000 10000 0.46 0.50) 0.46 0.50
      = 10000.000000000002)%float
  /\ Binary64.lt 10000
       (Binary64.pair_cost (Binary64.pairs_to_buy 20000 10000 0.46 0.50) 0.46 0.50)
     = true.
Proof.
  intros Hvalid. split; [|split; [|split; [|split]]]; try (vm_compute; reflexivity).
  - intros y n Htype Hy Hn Htotal. unfold ArbitrageOps.execute.
    rewrite Hvalid, Htype. cbn [negb ArbitrageOps.is_type String.eqb Ascii.eqb Bool.eqb].
    rewrite (buy_both_dry_run cfg v now arbs sg y n Hy Hn) by exact Htotal.
    do 2 eexists. split; [reflexivity|]. cbn.
    split; [reflexivity|]. split; [reflexivity|]. split; [apply min_le_l|].
    split; [apply min_le_r|]. repeat split.
  - intros Htype. unfold ArbitrageOps.execute.
    rewrite Hvalid, Htype. reflexivity.
Qed.

(** A signal for 20,000 pairs at 0.48 and 0.49 under the default
    configuration: the dry run buys the pairs 10,000 dollars pay for. *)
Lemma X25_pair_dry_run_witness :
  let sg :=
    StrategyBase.mkSignal YesNoArbitrage.name StrategyBase.BUY "market" "yes" "BOTH"
      (97 # 100) 20000 (95 # 100) (3 # 97)
      (<["arb_type" := Str "BUY_BOTH"]>
       (<["yes_price" := Num (48 # 100)]>
       (<["no_price" := Num (49 # 100)]> (∅ : gmap string value)))) in
  exists entry profit,
    ArbitrageOps.execute YesNoArbitrage.default_params (fun _ => true) true
      ParityScenario.venue 0 (fun _ => ""%string) (fun _ => ""%string)
      PairSaleScenario.post_unpriced [] sg
    = ([entry], StrategyBase.mkResult YesNoArbitrage.name true profit 2 1 [])
    /\ ArbitrageOps.yes_shares entry <= 20000
    /\ ArbitrageOps.yes_shares entry <= 10000 / ((48 # 100) + (49 # 100)).
Proof.
  intros sg.
  destruct (X25_pair_dry_run YesNoArbitrage.default_params (fun _ => true)
              ParityScenario.venue 0 (fun _ => ""%string) (fun _ => ""%string)
              PairSaleScenario.post_unpriced [] sg)
    as [Hbuy _]; [reflexivity|].
  destruct (Hbuy (48 # 100) (49 # 100))
    as (entry & profit & Hrun & _ & _ & Hsize & Hcap & _);
    [reflexivity | reflexivity | reflexivity | intros H; discriminate H |].
  exists entry, profit. split; [exact Hrun|]. split; [exact Hsize | exact Hcap].
Defined.

Section rest_path_execution.
Import YesNoArbitrage.
Variable cfg : params.
Variable v : Client.venue.
Variable market : Client.market_data.
Variables yes no : string.
Variable others : list string.
Variables yes_prices no_prices : Client.quote.
Hypothesis tokens_listed : Client.clobTokenIds market = yes :: no :: others.
Hypothesis tokens_served :
  Client.clobTokenIds (Client.market_of v (Client.id market)) = yes :: no :: others.
Hypothesis yes_quote : Client.get_price (Client.book_of v yes) = Ok yes_prices.
Hypothesis no_quote : Client.get_price (Client.book_of v no) = Ok no_prices.
Hypothesis target_set : ~ target_profit cfg == 0.
Hypothesis gate_open : min_spread cfg <= 5 # 995.
Variable total : Q.
Hypothesis total_asked : total = Client.ask yes_prices + Client.ask no_prices.
Hypothesis total_positive : 0 < total.
Hypothesis total_low : total < 995 # 1000.

(** The pair signal of the listing path carries what the execution reads. *)
Lemma rest_path_signal_metadata :
  exists sg,
    scan_market cfg v market = Ok [sg]
    /\ StrategyBase.metadata sg !! "arb_type" = Some (Str "BUY_BOTH")
    /\ StrategyBase.metadata sg !! "yes_price" = Some (Num (Client.ask yes_prices))
    /\ StrategyBase.metadata sg !! "no_price" = Some (Num (Client.ask no_prices))
    /\ StrategyBase.expected_profit_pct sg = (1 - total) / total
    /\ StrategyBase.size sg = max_position cfg / total.
Proof.
  unfold scan_market. rewrite tokens_listed. cbn [length Nat.ltb Nat.leb].
  unfold Client.check_yes_no_arbitrage. rewrite tokens_served, yes_quote, no_quote.
  cbn [mbind result_bind]. rewrite <- total_asked.
  apply lt_true in total_low as Hlt'. rewrite Hlt'.
  rewrite truediv_ok by lra. cbn [mbind result_bind].
  unfold signal_of. read_key. cbn [num mbind result_bind].
  assert (Hgate : ge ((1 - total) / total) (min_spread cfg) = true).
  { apply ge_true. eapply Qle_trans; [exact gate_open|].
    apply Qle_shift_div_l; [exact total_positive | lra]. }
  rewrite Hgate. unfold _create_arb_signal. read_key.
  cbn [text String.eqb Ascii.eqb Bool.eqb num mbind result_bind].
  rewrite !truediv_ok by (try exact target_set; lra).
  cbn [mbind result_bind]. eexists. split; [reflexivity|].
  cbn [StrategyBase.metadata StrategyBase.expected_profit_pct StrategyBase.size].
  unfold copy_key. read_key. repeat split.
Qed.

End rest_path_execution.

(** X26: the listing path from end to end, in dry run.  When the two asks
    of a market add up to a total that is positive and below 0.995, the
    scan emits one pair signal, for max_position / total pairs at an
    expected profit of (1 - total) / total, and executing it buys exactly
    the pairs the signal asks for: the cap of the execution is the size
    of the signal, computed from the same two asks, and never binds.  The
    cost recorded is pairs x yes + pairs x no and the profit booked is the
    pairs less that cost. *)
Theorem X26_listing_pair_executed (cfg : YesNoArbitrage.params)
    (validate : YesNoArbitrage.signal -> bool) (v : Client.venue) (now : datetime)
    (str : exn -> string) (format : option value -> string)
    (post_unpriced :
       string -> Client.order_side -> Q -> Client.order_type -> Client.order_reply)
    (arbs : list ArbitrageOps.active_arb)
    (market : Client.market_data) (yes no : string) (others : list string)
    (yes_prices no_prices : Client.quote) :
  Client.clobTokenIds market = yes :: no :: others ->
  Client.clobTokenIds (Client.market_of v (Client.id market)) = yes :: no :: others ->
  Client.get_price (Client.book_of v yes) = Ok yes_prices ->
  Client.get_price (Client.book_of v no) = Ok no_prices ->
  ~ YesNoArbitrage.target_profit cfg == 0 ->
  YesNoArbitrage.min_spread cfg <= 5 # 995 ->
  0 < Client.ask yes_prices + Client.ask no_prices ->
  Client.ask yes_prices + Client.ask no_prices < 995 # 1000 ->
  (forall sg, validate sg = true) ->
  let total := Client.ask yes_prices + Client.ask no_prices in
  exists sg entry profit,
    YesNoArbitrage.scan_market cfg v market = Ok [sg]
    /\ StrategyBase.size sg = YesNoArbitrage.max_position cfg / total
    /\ StrategyBase.expected_profit_pct sg = (1 - total) / total
    /\ ArbitrageOps.execute cfg validate true v now str format post_unpriced arbs sg
       = (arbs ++ [entry], StrategyBase.mkResult YesNoArbitrage.name true profit 2 1 [])
    /\ ArbitrageOps.yes_shares entry = StrategyBase.size sg
    /\ ArbitrageOps.no_shares entry = StrategyBase.size sg
    /\ ArbitrageOps.arb_total_cost entry
       = StrategyBase.size sg * Client.ask yes_prices
         + StrategyBase.size sg * Client.ask no_prices
    /\ profit = StrategyBase.size sg - ArbitrageOps.arb_total_cost entry.
Proof.
  intros Hlisted Hserved Hyes Hno Htarget Hgate Hpos Hlow Hvalid total.
  destruct (rest_path_signal_metadata cfg v market yes no others yes_prices no_prices
              Hlisted Hserved Hyes Hno Htarget Hgate total eq_refl Hpos Hlow)
    as (sg & Hscan & Htype & Hy & Hn & Hpct & Hsize).
  exists sg. unfold ArbitrageOps.execute. rewrite (Hvalid sg), Htype.
  cbn [negb ArbitrageOps.is_type String.eqb Ascii.eqb Bool.eqb].
  rewrite (buy_both_dry_run cfg v now arbs sg _ _ Hy Hn) by lra.
  fold total. rewrite Hsize, min_same.
  do 2 eexists. split; [exact Hscan|]. split; [reflexivity|].
  split; [exact Hpct|]. split; [reflexivity|]. cbn. repeat split.
Qed.

(** Scenario S1 through the listing path and the dry run: the signal asks
    for 10000/0.97 pairs, and that many are bought. *)
Lemma X26_listing_pair_executed_witness :
  exists sg entry profit,
    YesNoArbitrage.scan_market YesNoArbitrage.default_params ParityScenario.venue
      ParityScenario.market = Ok [sg]
    /\ ArbitrageOps.execute YesNoArbitrage.default_params (fun _ => true) true
         ParityScenario.venue 0 (fun _ => ""%string) (fun _ => ""%string)
         PairSaleScenario.post_unpriced [] sg
       = ([entry], StrategyBase.mkResult YesNoArbitrage.name true profit 2 1 [])
    /\ ArbitrageOps.yes_shares entry = StrategyBase.size sg
    /\ StrategyBase.size sg == 10000 / (97 # 100).
Proof.
  destruct (Client.get_price (Client.book_of ParityScenario.venue "yes-token"))
    as [yes_prices|e] eqn:Hyes; [|vm_compute in Hyes; discriminate Hyes].
  destruct (Client.get_price (Client.book_of ParityScenario.venue "no-token"))
    as [no_prices|e] eqn:Hno; [|vm_compute in Hno; discriminate Hno].
  assert (Hasks : Client.ask yes_prices = 48 # 100 /\ Client.ask no_prices = 49 # 100).
  { vm_compute in Hyes, Hno. injection Hyes as <-. injection Hno as <-.
    split; reflexivity. }
  destruct Hasks as [Hay Han].
  destruct (X26_listing_pair_executed YesNoArbitrage.default_params (fun _ => true)
              ParityScenario.venue 0 (fun _ => ""%string) (fun _ => ""%string)
              PairSaleScenario.post_unpriced []
              ParityScenario.market "yes-token" "no-token" [] yes_prices no_prices)
    as (sg & entry & profit & Hscan & Hsize & _ & Hrun & Hshares & _);
    try reflexivity; try exact Hyes; try exact Hno.
  - intros H; discriminate H.
  - intros H; discriminate H.
  - rewrite Hay, Han. reflexivity.
  - rewrite Hay, Han. reflexivity.
  - exists sg, entry, profit. split; [exact Hscan|]. split; [exact Hrun|].
    split; [exact Hshares|]. rewrite Hsize, Hay, Han. reflexivity.
Defined.

(** ** Range coverage: executing and resolving a coverage *)

Lemma mapM_all_ok {A B} (f : A -> result B) (g : A -> B) (l : list A) :
  (forall x, In x l -> f x = Ok (g x)) -> mapM f l = Ok (map g l).
Proof.
  induction l as [|x l IH]; intros Hall; [reflexivity|]. cbn.
  rewrite (Hall x) by (left; reflexivity). cbn [mbind result_bind].
  rewrite IH by (intros y Hy; apply Hall; right; exact Hy). reflexivity.
Qed.

Lemma concat_singletons {A B} (g : A -> B) (l : list A) :
  concat (map (fun x => [g x]) l) = map g l.
Proof. induction l as [|x l IH]; cbn; [|rewrite IH]; reflexivity. Qed.

(** [min] of a sequence is one of its items, and none is smaller. *)
Lemma min_of_In (first : Q) (rest : list Q) :
  In (CoverageOps.min_of first rest) (first :: rest).
Proof.
  unfold CoverageOps.min_of. revert first.
  induction rest as [|x rest IH]; intros first; [left; reflexivity|].
  cbn [fold_left]. destruct (IH (min first x)) as [Heq|Hin].
  - rewrite <- Heq. unfold min. destruct (lt x first);
      [right; left | left]; reflexivity.
  - right. right. exact Hin.
Qed.

Lemma min_of_least (first : Q) (rest : list Q) (x : Q) :
  In x (first :: rest) -> CoverageOps.min_of first rest <= x.
Proof.
  unfold CoverageOps.min_of. revert first x.
  induction rest as [|y rest IH]; intros first x Hin; cbn [fold_left].
  - destruct Hin as [<-|[]]. apply Qle_refl.
  - assert (Hmin : fold_left min rest (min first y) <= min first y)
      by (apply IH; left; reflexivity).
    destruct Hin as [<-|[<-|Hin]].
    + eapply Qle_trans; [exact Hmin | apply min_le_l].
    + eapply Qle_trans; [exact Hmin | apply min_le_r].
    + apply IH. right. exact Hin.
Qed.

Section coverage_dry_run.
Import RangeCoverage CoverageOps.
Variable v : Client.venue.
Variable now : datetime.
Variable c : coverage.
Variable budget : Q.
Hypothesis cost_set : ~ total_cost c == 0.

Lemma buy_outcome_dry_run (o : outcome) :
  0 < outcome_price o ->
  buy_outcome true v now c budget o = Ok [Fills.dry_fill c budget o].
Proof.
  intros Hprice. unfold buy_outcome.
  rewrite truediv_ok by exact cost_set. cbn [mbind result_bind].
  rewrite truediv_ok by lra. reflexivity.
Qed.

End coverage_dry_run.

(** X27: the dry run of a coverage of positively priced outcomes, as the
    greedy walk takes them, at a total cost that is not zero.  A valid
    signal that carries the coverage is executed with one trade per
    covered outcome, in their order, each at the listed price and for
    budget x (price / total_cost) / price shares, the budget being the
    smaller of size x total_cost and [max_position].  The cost recorded
    is the sum of the costs of the orders; the shares counted on are
    those of an order, and no order has fewer; the profit booked is these
    shares less the cost.  When the market resolves, the sweep drops the
    coverage and reports that same profit once more.  The orders are not
    all for the same number of shares: with a budget of 90 dollars on a
    coverage that costs 0.9, the machine buys 99.999999999999986 shares
    at 0.35 and 100 at 0.25, 0.20 and 0.10. *)
Theorem X27_coverage_dry_run (cfg : RangeCoverage.params)
    (validate : RangeCoverage.signal -> bool) (v : Client.venue) (now : datetime)
    (str : exn -> string) (coverages : gmap string CoverageOps.active_coverage)
    (c : RangeCoverage.coverage) (sg : RangeCoverage.signal) :
  RangeCoverage.covered c <> [] ->
  Forall (fun o => 0 < RangeCoverage.outcome_price o) (RangeCoverage.covered c) ->
  ~ RangeCoverage.total_cost c == 0 ->
  RangeCoverage.meta_coverage (StrategyBase.metadata sg) = c ->
  validate sg = true ->
  let budget :=
    min (StrategyBase.size sg * RangeCoverage.total_cost c)
        (RangeCoverage.max_position cfg) in
  (exists held profit,
     CoverageOps.execute cfg validate true v now str coverages sg
     = (<[StrategyBase.market_id sg := held]> coverages,
        StrategyBase.mkResult RangeCoverage.name true profit
          (length (RangeCoverage.covered c)) 1 [])
     /\ CoverageOps.orders held = map (Fills.dry_fill c budget) (RangeCoverage.covered c)
     /\ CoverageOps.active_cost held
        = fold_left (fun acc order => acc + CoverageOps.ex_cost order)
            (CoverageOps.orders held) 0
     /\ In (CoverageOps.min_shares held)
           (map CoverageOps.ex_shares (CoverageOps.orders held))
     /\ Forall (fun order => CoverageOps.min_shares held <= CoverageOps.ex_shares order)
          (CoverageOps.orders held)
     /\ profit = CoverageOps.min_shares held - CoverageOps.active_cost held
     /\ CoverageOps.active_profit held = profit
     /\ (Client.resolved (Client.market_of v (StrategyBase.market_id sg)) = true ->
         CoverageOps.resolve v (<[StrategyBase.market_id sg := held]> coverages)
           (StrategyBase.market_id sg)
         = (delete (StrategyBase.market_id sg) coverages,
            Some (StrategyBase.mkResult RangeCoverage.name true profit 0 0 []))))
  /\ (map (Binary64.shares_to_buy 90 0.9) [0.35; 0.25; 0.20; 0.10]
      = [99.999999999999986; 100; 100; 100])%float.
Proof.
  intros Hne Hall Hcost Hmeta Hvalid budget. split; [|vm_compute; reflexivity].
  unfold CoverageOps.execute. rewrite Hvalid, Hmeta. cbn [negb].
  destruct (RangeCoverage.covered c) as [|o rest] eqn:Hcovered; [congruence|].
  fold budget.
  rewrite (mapM_all_ok _ (fun o => [Fills.dry_fill c budget o]))
    by (intros x Hx; apply buy_outcome_dry_run; [exact Hcost|];
        rewrite List.Forall_forall in Hall; apply Hall, Hx).
  rewrite concat_singletons. cbn [map length]. rewrite length_map.
  set (placed := Fills.dry_fill c budget o :: map (Fills.dry_fill c budget) rest) in *.
  do 2 eexists. split; [reflexivity|].
  cbn [CoverageOps.orders CoverageOps.active_cost CoverageOps.min_shares
       CoverageOps.active_profit].
  split; [reflexivity|]. split; [reflexivity|].
  split; [subst placed; rewrite map_cons; apply min_of_In|].
  split.
  - rewrite List.Forall_forall. intros order Hin.
    apply min_of_least. rewrite <- map_cons. fold placed.
    apply in_map. exact Hin.
  - split; [reflexivity|]. split; [reflexivity|].
    intros Hresolved. unfold CoverageOps.resolve.
    rewrite lookup_insert_eq, Hresolved.
    cbn [CoverageOps.min_shares CoverageOps.active_cost].
    rewrite delete_insert_eq. reflexivity.
Qed.

(** Scenario S3 with a signal for 100 sets: the dry run places four
    orders on the coverage the walk finds. *)
Lemma X27_coverage_dry_run_witness :
  exists c held profit,
    RangeCoverage._find_optimal_coverage (RangeScenario.params (4 # 100) 5000)
      (RangeCoverage.outcome_data RangeScenario.venue RangeScenario.market)
    = Ok (Some c)
    /\ CoverageOps.execute (RangeScenario.params (4 # 100) 5000) (fun _ => true)
         true RangeScenario.venue 0 (fun _ => ""%string) ∅
         (StrategyBase.mkSignal RangeCoverage.name StrategyBase.BUY "btc-range"
            "t40" "MULTIPLE" (95 # 100) 100 (95 # 100) (1 # 19)
            (RangeCoverage.mkMeta c "Where will BTC close?"))
       = (<["btc-range" := held]> ∅,
          StrategyBase.mkResult RangeCoverage.name true profit 4 1 [])
    /\ profit = CoverageOps.min_shares held - CoverageOps.active_cost held.
Proof.
  destruct (range_scenario_coverage (4 # 100) 5000)
    as (c & Hc & _ & Hprices & _ & Hnz & _ & Hlen).
  destruct (X27_coverage_dry_run (RangeScenario.params (4 # 100) 5000) (fun _ => true)
              RangeScenario.venue 0 (fun _ => ""%string) ∅ c
              (StrategyBase.mkSignal RangeCoverage.name StrategyBase.BUY "btc-range"
                 "t40" "MULTIPLE" (95 # 100) 100 (95 # 100) (1 # 19)
                 (RangeCoverage.mkMeta c "Where will BTC close?")))
    as [(held & profit & Hrun & _ & _ & _ & _ & Hprofit & _) _].
  - intros Hempty. rewrite Hempty in Hlen. discriminate Hlen.
  - apply Forall_map with (f := RangeCoverage.outcome_price) (P := fun p => 0 < p).
    rewrite Hprices. repeat constructor.
  - exact Hnz.
  - reflexivity.
  - reflexivity.
  - exists c, held, profit. split; [exact Hc|].
    rewrite Hlen in Hrun. split; [exact Hrun | exact Hprofit].
Defined.

(** ** Market making: the quotes the scan proposes *)


Section quote_signal.
Import SpreadOps.
Variable cfg : SpreadTrading.params.
Hypothesis gate_positive : 0 < SpreadTrading.min_spread cfg.


End quote_signal.



(** ** The live order book: the volume-weighted price *)

Section vwap.
Import OrderBook BookVwap.
Variable depth : Q.


End vwap.



(** ** The client: positions *)

Section positions.
Variable v : Live.venue.

(** A row is read exactly when it names its token and its side and the
    book of the token is answered; the position then carries the row's
    own figures, valued at the mid price of the book. *)
Lemma position_of_row_read (pos : Live.row) :
  match Live.position_of_row v pos with
  | Ok p => Live.readable v pos /\ Live.position_of v pos p
  | Raise _ => ~ Live.readable v pos
  end.
Proof.
  unfold Live.position_of_row, Live.readable, Live.position_of, Live.get_price.
  destruct (Live.tokenId pos) as [token|]; cbn [Live.item mbind result_bind];
    [|intros (t & s & ob & H & _); discriminate H].
  destruct (Live.book_of v token) as [orderbook|e] eqn:Hbook;
    cbn [mbind result_bind];
    [|intros (t & s & ob & [= <-] & _ & H & _); rewrite Hbook in H; discriminate H].
  destruct (client_get_price_ok orderbook) as [prices Hprices].
  rewrite Hprices. cbn [mbind result_bind].
  destruct (Live.avgPrice pos) as [|entry|] eqn:Hentry;
    cbn [Live.float_of mbind result_bind];
    try (intros (t & s & ob & _ & _ & _ & _ & H); congruence);
    (destruct (Live.size pos) as [|sz|] eqn:Hsize;
       cbn [Live.float_of mbind result_bind];
       try (intros (t & s & ob & _ & _ & _ & H & _); congruence);
       (destruct (Live.side pos) as [sd|]; cbn [Live.item mbind result_bind];
          [|intros (t & s & ob & _ & H & _); discriminate H];
        split;
          [exists token, sd, orderbook; repeat split; try exact Hbook; discriminate
          |exists prices; cbn; rewrite Hbook; cbn [mbind result_bind];
           repeat split; exact Hprices])).
Qed.

(** The loop over the rows returns when every row is read, and raises
    otherwise. *)
Lemma positions_read (rows : list Live.row) :
  match mapM (Live.position_of_row v) rows with
  | Ok positions =>
      Forall (Live.readable v) rows /\ Forall2 (Live.position_of v) rows positions
  | Raise _ => ~ Forall (Live.readable v) rows
  end.
Proof.
  induction rows as [|pos rows IH]; cbn; [split; constructor|].
  pose proof (position_of_row_read pos) as Hpos.
  destruct (Live.position_of_row v pos) as [p|e]; cbn [mbind result_bind].
  - destruct Hpos as [Hread Hp].
    destruct (mapM (Live.position_of_row v) rows) as [positions|e];
      cbn [mbind result_bind].
    + destruct IH as [Hall Hrel]. split; constructor; assumption.
    + intros Hall. apply Forall_cons_iff in Hall as [_ Hall]. exact (IH Hall).
  - intros Hall. apply Forall_cons_iff in Hall as [Hread _]. exact (Hpos Hread).
Qed.

End positions.

(** X30: in dry run no position is ever reported, whatever the venue.
    Live, the position query returns exactly when the request is answered
    and every row of the reply names its token and its side, has the
    book of its token answered and holds no size or entry price that is
    no number; it raises otherwise, so that the side the code falls back
    on for a row without one is never used.  What
    is returned is one position per row, in order, with the side, the
    size and the entry price of the row (0 when the row has none), valued
    at the mid price of the token's book; the unrealized profit is
    (mid - entry) x size on the YES side and (entry - mid) x size on any
    other.  The lookup of one token returns the first position on that
    token, nothing when there is none, and raises when the query does. *)
Theorem X30_positions (v : Live.venue) (rows : list Live.row) (token : string) :
  Live.positions_of v = Ok rows ->
  Live.get_positions true v = Ok []
  /\ Live.get_position true v token = Ok None
  /\ match Live.get_positions false v with
     | Ok positions =>
         Forall (Live.readable v) rows
         /\ Forall2 (Live.position_of v) rows positions
         /\ exists found,
              Live.get_position false v token = Ok found
              /\ match found with
                 | Some pos =>
                     exists before after,
                       positions = before ++ pos :: after
                       /\ Client.pos_token_id pos = token
                       /\ Forall (fun p => Client.pos_token_id p <> token) before
                 | None => Forall (fun p => Client.pos_token_id p <> token) positions
                 end
     | Raise e =>
         ~ Forall (Live.readable v) rows
         /\ Live.get_position false v token = Raise e
     end
  /\ (forall v' e,
        Live.positions_of v' = Raise e ->
        Live.get_positions false v' = Raise e).
Proof.
  intros Hrows. split; [reflexivity|]. split; [reflexivity|].
  split; [|intros v' e Hfail; unfold Live.get_positions; rewrite Hfail; reflexivity].
  unfold Live.get_position, Live.get_positions. rewrite Hrows.
  cbn [mbind result_bind].
  pose proof (positions_read v rows) as Hread.
  destruct (mapM (Live.position_of_row v) rows) as [positions|e];
    cbn [mbind result_bind]; [|split; [exact Hread | reflexivity]].
  destruct Hread as [Hall Hrel]. split; [exact Hall|]. split; [exact Hrel|].
  eexists. split; [reflexivity|].
  clear Hall Hrel Hrows. induction positions as [|pos positions IH]; cbn [find].
  - constructor.
  - destruct (String.eqb (Client.pos_token_id pos) token) eqn:Hhit.
    + apply String.eqb_eq in Hhit. exists [], positions.
      split; [reflexivity|]. split; [exact Hhit | constructor].
    + apply String.eqb_neq in Hhit.
      destruct (find _ positions) as [found|].
      * destruct IH as (before & after & -> & Hfound & Hbefore).
        exists (pos :: before), after. split; [reflexivity|].
        split; [exact Hfound|]. constructor; assumption.
      * constructor; [exact Hhit | exact IH].
Qed.

(** A reply of two rows, the second without a side: the query raises,
    although the first row alone is read. *)
Lemma X30_positions_witness :
  let book := fun _ : string =>
    Ok (Client.mkRawBook [Client.mkRawLevel (48 # 100) 10]
                         [Client.mkRawLevel (52 # 100) 10]) in
  let complete := Live.mkRow (Some "market"%string) (Some "yes-token"%string)
                    (Some "YES"%string) (Live.Number 100) (Live.Number (40 # 100)) in
  let sideless := Live.mkRow (Some "market"%string) (Some "no-token"%string)
                    None (Live.Number 100) (Live.Number (40 # 100)) in
  let v := Live.mkVenue book (fun _ => Raise ClientError) (Ok [complete; sideless]) in
  Live.get_positions false v = Raise KeyError
  /\ ~ Forall (Live.readable v) [complete; sideless]
  /\ exists p,
       Live.get_positions false
         (Live.mkVenue book (fun _ => Raise ClientError) (Ok [complete]))
       = Ok [p]
       /\ Client.unrealized_pnl p == 10.
Proof.
  intros book complete sideless v.
  destruct (X30_positions v [complete; sideless] "yes-token" eq_refl)
    as (_ & _ & Hlive & _).
  assert (Hrun : Live.get_positions false v = Raise KeyError) by reflexivity.
  rewrite Hrun in Hlive. destruct Hlive as [Hunread _].
  split; [exact Hrun|]. split; [exact Hunread|].
  eexists. split; [reflexivity|]. reflexivity.
Defined.

(** ** Spreads: of a book, and between exchanges *)

(** The spread check of a book never raises: a zero mid price reads as
    no spread.  What it reports is at least the spread asked for, and
    half the spread is what it holds out as profit. *)
Lemma detect_spread_opportunity_ok (bk : OrderBook.book) (min_spread : Q) :
  exists found,
    BookOps.detect_spread_opportunity bk min_spread = Ok found
    /\ match found with
       | Some (bid, ask, spread, pct, mid, potential_profit) =>
           min_spread <= pct
           /\ spread = ask - bid
           /\ (~ mid == 0 -> pct * mid == spread)
           /\ potential_profit == (ask - bid) / 2
       | None => True
       end.
Proof.
  unfold BookOps.detect_spread_opportunity, OrderBook.spread_pct.
  set (snapshot := OrderBook.get_snapshot bk).
  destruct (eq (OrderBook.mid_price snapshot) 0) eqn:Hmid.
  - cbn [mbind result_bind]. split_test; eexists; (split; [reflexivity|]); [|exact I].
    apply eq_true in Hmid. split; [exact Hge|]. split; [reflexivity|].
    split; [intros Hno; contradiction|]. unfold OrderBook.spread. field.
  - apply eq_false in Hmid. rewrite truediv_ok by exact Hmid.
    cbn [mbind result_bind]. split_test; eexists; (split; [reflexivity|]); [|exact I].
    split; [exact Hge|]. split; [reflexivity|].
    split; [intros _; field; exact Hmid|]. unfold OrderBook.spread. field.
Qed.

Section exchange_spread.
Import AggregatorOps.

Lemma max_of_ge (first : Q) (rest : list Q) : first <= max_of first rest.
Proof.
  unfold max_of. revert first. induction rest as [|x rest IH]; intros first;
    [apply Qle_refl|].
  cbn [fold_left]. eapply Qle_trans; [apply (max_ge_l first x) | apply IH].
Qed.

Lemma min_of_le (first : Q) (rest : list Q) : min_of first rest <= first.
Proof.
  unfold min_of. revert first. induction rest as [|x rest IH]; intros first;
    [apply Qle_refl|].
  cbn [fold_left]. eapply Qle_trans; [apply IH | apply min_le_l].
Qed.

(** The spread of prices between exchanges is never negative, and the
    relative spread never raises. *)
Lemma price_spread_nonnegative (a : AggregatedPrice) :
  0 <= price_spread a /\ exists pct, spread_pct a = Ok pct.
Proof.
  split.
  - unfold price_spread.
    destruct (map _ (exchanges a)) as [|first [|second rest]]; [lra | lra |].
    pose proof (max_of_ge first (second :: rest)).
    pose proof (min_of_le first (second :: rest)). lra.
  - unfold spread_pct. split_test; [eauto|].
    rewrite truediv_ok by exact Heq. eauto.
Qed.

End exchange_spread.
